(** * generate_reviews.py: synthetic airline reviews

    A shallow embedding of [projet_azure/generate_reviews.py].  The script
    binds three module-level lists, defines [generate_fake_review] and then
    loops forever printing one review every five seconds.

    The script calls into Python's [random], [uuid], [datetime] and [time]
    modules and into the third-party [faker] package.  None of them is part
    of the repository; they are modelled here after their documented
    behaviour (and, for the pure parts of [uuid] and [datetime], after the
    CPython sources), each in a module of its own.  All sources of
    nondeterminism (the Mersenne Twister behind [random], [os.urandom],
    Faker's private generator, the system clock) are oracles stored in the
    [World]: an infinite tape together with a read position.

    The tapes of the two generators are tapes of outcomes, not of raw
    words of the Mersenne Twister: one cell gives what one call of
    [_randbelow] returns, and one cell goes with each name Faker makes up.
    How many raw words CPython and Faker consume to arrive at one outcome
    (the rejection loop over [getrandbits], the several choices behind one
    name) is below the level of this model, and nothing is stated here
    about it. *)

From Stdlib Require Import ZArith List String Ascii Bool Lia.
Import ListNotations.

Local Open Scope string_scope.
Local Open Scope Z_scope.

(** ** Python values, exceptions and the world *)

(** The exceptions the modelled library calls can raise. *)
Inductive exn : Type :=
| IndexError
| ValueError
| OverflowError.

Inductive result (A : Type) : Type :=
| Ok (a : A)
| Raise (e : exn).
Arguments Ok {A} a.
Arguments Raise {A} e.

(** The values stored in the review dictionary: [str] and [int].  A [str] is
    a sequence of code points; Rocq's [string] restricts them to code points
    below 256. *)
Inductive pyval : Type :=
| PyStr (s : string)
| PyInt (n : Z).

(** A [dict] with [str] keys, in insertion order (Python dictionaries keep
    it, and [repr] prints in that order). *)
Definition pydict : Type := list (string * pyval).

(** A [datetime.date] object: the three fields it stores. *)
Record date : Type := mkdate { year : Z; month : Z; day : Z }.

(** A random tape: the raw draws of a generator and how many were consumed. *)
Record tape : Type := mktape { cells : nat -> Z; pos : nat }.

Definition tape_next (t : tape) : Z * tape :=
  (cells t (pos t), mktape (cells t) (S (pos t))).

(** What the process does to the outside: text written to standard output
    and suspensions of the process. *)
Inductive event : Type :=
| EvWrite (text : string)
| EvSleep (seconds : Z).

Record World : Type := mkWorld {
  (* the module globals bound at lines 8-38 (mutable list objects) *)
  airlines : list string;
  sample_titles : list string;
  sample_bodies : list string;
  (* the hidden Random instance behind random.choice and random.randint *)
  random_state : tape;
  (* the operating system's entropy pool read by os.urandom *)
  urandom_state : tape;
  (* the Faker instance of line 6: its own generator, and the names its
     person provider makes up *)
  faker_state : tape;
  faker_names : nat -> string;
  (* the system clock: the date shown at each successive reading *)
  clock : nat -> date;
  clock_reads : nat;
  (* everything the process has written and slept so far, oldest first *)
  trace : list event
}.

Definition set_random_state (t : tape) (w : World) : World :=
  mkWorld (airlines w) (sample_titles w) (sample_bodies w) t (urandom_state w)
          (faker_state w) (faker_names w) (clock w) (clock_reads w) (trace w).

Definition set_urandom_state (t : tape) (w : World) : World :=
  mkWorld (airlines w) (sample_titles w) (sample_bodies w) (random_state w) t
          (faker_state w) (faker_names w) (clock w) (clock_reads w) (trace w).

Definition set_faker_state (t : tape) (w : World) : World :=
  mkWorld (airlines w) (sample_titles w) (sample_bodies w) (random_state w)
          (urandom_state w) t (faker_names w) (clock w) (clock_reads w) (trace w).

Definition set_clock_reads (n : nat) (w : World) : World :=
  mkWorld (airlines w) (sample_titles w) (sample_bodies w) (random_state w)
          (urandom_state w) (faker_state w) (faker_names w) (clock w) n (trace w).

Definition emit (e : event) (w : World) : World :=
  mkWorld (airlines w) (sample_titles w) (sample_bodies w) (random_state w)
          (urandom_state w) (faker_state w) (faker_names w) (clock w)
          (clock_reads w) (trace w ++ [e])%list.

(** ** A state-and-exception monad for Python code

    A computation runs in a world and either returns a value or raises; the
    world it leaves behind is kept in both cases, as in Python. *)
Definition Py (A : Type) : Type := World -> result A * World.

Definition ret {A : Type} (a : A) : Py A := fun w => (Ok a, w).

Definition raise {A : Type} (e : exn) : Py A := fun w => (Raise e, w).

Definition bind {A B : Type} (m : Py A) (k : A -> Py B) : Py B :=
  fun w =>
    match m w with
    | (Ok a, w') => k a w'
    | (Raise e, w') => (Raise e, w')
    end.

Notation "x <- m ;; k" := (bind m (fun x => k))
  (at level 61, m at next level, right associativity).

(** ** The [random] module

    A [Random] instance is a tape; its methods consume draws from it. *)
Module Random.

(** [Random._randbelow(n)]: "Return a random int in the range [0,n).
    Defined for n > 0."  CPython draws [getrandbits(n.bit_length())] again
    and again until the value is below [n]; that loop is not followed here.
    The tape is an oracle for its outcome: one cell per call, reduced into
    the range so that whatever the cell holds the result is in [0,n). *)
Definition _randbelow (n : Z) (self : tape) : Z * tape :=
  let (c, t) := tape_next self in (c mod n, t).

(** [Random.choice(seq)]:
    [if not len(seq): raise IndexError('Cannot choose from an empty sequence')]
    [return seq[self._randbelow(len(seq))]] *)
Definition choice {A : Type} (seq : list A) (self : tape) : result A * tape :=
  if Z.of_nat (List.length seq) =? 0 then (Raise IndexError, self)
  else
    let (i, t) := _randbelow (Z.of_nat (List.length seq)) self in
    match nth_error seq (Z.to_nat i) with
    | Some x => (Ok x, t)
    | None => (Raise IndexError, t)
    end.

(** [Random.randrange(start, stop)] with the default step:
    [width = istop - istart]
    [if width > 0: return istart + self._randbelow(width)]
    [raise ValueError("empty range for randrange() ...")] *)
Definition randrange (start stop : Z) (self : tape) : result Z * tape :=
  let width := stop - start in
  if 0 <? width then
    let (r, t) := _randbelow width self in (Ok (start + r), t)
  else (Raise ValueError, self).

(** [Random.randint(a, b)]: [return self.randrange(a, b+1)] *)
Definition randint (a b : Z) (self : tape) : result Z * tape :=
  randrange a (b + 1) self.

End Random.

(** The module-level functions [random.choice] and [random.randint] are the
    methods of one hidden [Random] instance. *)
Definition with_random {A : Type} (m : tape -> result A * tape) : Py A :=
  fun w => let (r, t) := m (random_state w) in (r, set_random_state t w).

Definition random_choice (seq : list string) : Py string :=
  with_random (Random.choice seq).

Definition random_randint (a b : Z) : Py Z :=
  with_random (Random.randint a b).

(** ** Numbers as text: [str(int)], ['%x'] and zero padding *)

(** The character of a digit below 36: ['0'..'9'], then ['a'..]. *)
Definition digit_char (d : Z) : ascii :=
  if d <? 10 then ascii_of_N (Z.to_N (48 + d)) else ascii_of_N (Z.to_N (87 + d)).

(** The digits of [n >= 0] in [base], most significant first, written in
    front of [acc]. *)
Fixpoint digits (base : Z) (fuel : nat) (n : Z) (acc : string) : string :=
  match fuel with
  | O => acc
  | S f =>
      let acc' := String (digit_char (n mod base)) acc in
      if n / base =? 0 then acc' else digits base f (n / base) acc'
  end.

Definition natural (base n : Z) : string :=
  digits base (S (Z.to_nat (Z.log2 n))) n "".

Fixpoint zeros (k : nat) : string :=
  match k with
  | O => ""
  | S k' => String "0" (zeros k')
  end.

(** Left padding with ['0'] up to [width] characters, as the [0] flag of
    printf-style formatting does. *)
Definition zero_pad (width : nat) (s : string) : string :=
  zeros (width - String.length s) ++ s.

(** [str(n)] for an [int]. *)
Definition int_str (n : Z) : string :=
  if n <? 0 then "-" ++ natural 10 (- n) else natural 10 n.

(** ['%032x' % n]: lower-case hexadecimal, sign first, zero padded so that
    the whole takes at least 32 characters. *)
Definition format_032x (n : Z) : string :=
  if n <? 0 then "-" ++ zero_pad 31 (natural 16 (- n))
  else zero_pad 32 (natural 16 n).

(** Python slices of a [str]: [s[i:j]] and [s[i:]] for [0 <= i <= j]. *)
Definition slice (s : string) (i j : nat) : string := substring i (j - i) s.

Definition slice_from (s : string) (i : nat) : string :=
  substring i (String.length s - i) s.

(** ** [os.urandom] and the [uuid] module *)
Module Os.

(** The next [n] cells of the tape, each reduced to a byte. *)
Definition read_bytes (n : nat) (t : tape) : list Z * tape :=
  (map (fun i => cells t (pos t + i)%nat mod 256) (seq 0 n),
   mktape (cells t) (pos t + n)).

(** [os.urandom(n)]: [n] bytes from the entropy pool. *)
Definition urandom (n : nat) : Py (list Z) :=
  fun w =>
    let (bs, t) := read_bytes n (urandom_state w) in
    (Ok bs, set_urandom_state t w).

End Os.

Module Uuid.

(** A [UUID] object stores its value as the attribute [int]. *)
Record UUID : Type := mkUUID { int : Z }.

(** [int.from_bytes(bytes)], big endian. *)
Definition int_from_bytes (bytes : list Z) : Z :=
  fold_left (fun acc b => Z.lor (Z.shiftl acc 8) b) bytes 0.

(** The end of [UUID.__init__] when a version is given:
    [int &= ~(0xc000 << 48); int |= 0x8000 << 48]   (the variant of RFC 4122)
    [int &= ~(0xf000 << 64); int |= version << 76]  (the version number) *)
Definition set_variant_and_version (i version : Z) : Z :=
  let i := Z.land i (Z.lnot (Z.shiftl 0xc000 48)) in
  let i := Z.lor i (Z.shiftl 0x8000 48) in
  let i := Z.land i (Z.lnot (Z.shiftl 0xf000 64)) in
  let i := Z.lor i (Z.shiftl version 76) in
  i.

(** [UUID(bytes=bytes, version=version)], the part of [UUID.__init__] that
    this call runs:
    [if len(bytes) != 16: raise ValueError]
    [int = int_.from_bytes(bytes)]
    [if not 0 <= int < 1<<128: raise ValueError]
    [if not 1 <= version <= 5: raise ValueError]
    and then the variant and version bits are set. *)
Definition UUID_of_bytes (bytes : list Z) (version : Z) : Py UUID :=
  if negb (Nat.eqb (List.length bytes) 16) then raise ValueError
  else
    let i := int_from_bytes bytes in
    if negb ((0 <=? i) && (i <? Z.shiftl 1 128)) then raise ValueError
    else if negb ((1 <=? version) && (version <=? 5)) then raise ValueError
    else ret (mkUUID (set_variant_and_version i version)).

(** [uuid.uuid4()]: [return UUID(bytes=os.urandom(16), version=4)] *)
Definition uuid4 : Py UUID :=
  bytes <- Os.urandom 16 ;;
  UUID_of_bytes bytes 4.

(** [UUID.__str__]:
    [hex = '%032x' % self.int]
    [return '%s-%s-%s-%s-%s' % (hex[:8], hex[8:12], hex[12:16], hex[16:20], hex[20:])] *)
Definition str (self : UUID) : string :=
  let hex := format_032x (int self) in
  slice hex 0 8 ++ "-" ++ slice hex 8 12 ++ "-" ++ slice hex 12 16 ++ "-"
    ++ slice hex 16 20 ++ "-" ++ slice_from hex 20.

End Uuid.

(** ** The [datetime] module: the [date] class

    The calendar arithmetic follows CPython's [Lib/datetime.py]. *)
Module Datetime.

Definition MINYEAR : Z := 1.
Definition MAXYEAR : Z := 9999.
Definition _MAXORDINAL : Z := 3652059.

Definition _DAYS_IN_MONTH : list Z :=
  [-1; 31; 28; 31; 30; 31; 30; 31; 31; 30; 31; 30; 31].

(** [_DAYS_BEFORE_MONTH = [-1]; dbm = 0]
    [for dim in _DAYS_IN_MONTH[1:]: _DAYS_BEFORE_MONTH.append(dbm); dbm += dim] *)
Definition _DAYS_BEFORE_MONTH : list Z :=
  fst (fold_left (fun '(acc, dbm) dim => ((acc ++ [dbm])%list, dbm + dim))
                 (tl _DAYS_IN_MONTH) ([-1], 0)).

Definition index (l : list Z) (i : Z) : Z := nth (Z.to_nat i) l 0.

(** [return year % 4 == 0 and (year % 100 != 0 or year % 400 == 0)] *)
Definition _is_leap (year : Z) : bool :=
  (year mod 4 =? 0) && (negb (year mod 100 =? 0) || (year mod 400 =? 0)).

(** [y = year - 1; return y*365 + y//4 - y//100 + y//400] *)
Definition _days_before_year (year : Z) : Z :=
  let y := year - 1 in
  y * 365 + y / 4 - y / 100 + y / 400.

Definition _days_in_month (year month : Z) : Z :=
  if (month =? 2) && _is_leap year then 29 else index _DAYS_IN_MONTH month.

Definition _days_before_month (year month : Z) : Z :=
  index _DAYS_BEFORE_MONTH month
  + (if (2 <? month) && _is_leap year then 1 else 0).

Definition _ymd2ord (year month day : Z) : Z :=
  _days_before_year year + _days_before_month year month + day.

Definition _DI400Y : Z := _days_before_year 401.
Definition _DI100Y : Z := _days_before_year 101.
Definition _DI4Y : Z := _days_before_year 5.

(** [_ord2ymd(n)], line by line; [divmod] is floor division and remainder. *)
Definition _ord2ymd (n : Z) : Z * Z * Z :=
  let n := n - 1 in
  let n400 := n / _DI400Y in
  let n := n mod _DI400Y in
  let year := n400 * 400 + 1 in
  let n100 := n / _DI100Y in
  let n := n mod _DI100Y in
  let n4 := n / _DI4Y in
  let n := n mod _DI4Y in
  let n1 := n / 365 in
  let n := n mod 365 in
  let year := year + (n100 * 100 + n4 * 4 + n1) in
  if (n1 =? 4) || (n100 =? 4) then (year - 1, 12, 31)
  else
    let leapyear := (n1 =? 3) && (negb (n4 =? 24) || (n100 =? 3)) in
    let month := Z.shiftr (n + 50) 5 in
    let preceding :=
      index _DAYS_BEFORE_MONTH month
      + (if (2 <? month) && leapyear then 1 else 0) in
    if n <? preceding then
      let month := month - 1 in
      let preceding :=
        preceding
        - (index _DAYS_IN_MONTH month
           + (if (month =? 2) && leapyear then 1 else 0)) in
      (year, month, n - preceding + 1)
    else (year, month, n - preceding + 1).

(** [_check_date_fields], which the [date] constructor runs. *)
Definition _check_date_fields (y m d : Z) : result (Z * Z * Z) :=
  if negb ((MINYEAR <=? y) && (y <=? MAXYEAR)) then Raise ValueError
  else if negb ((1 <=? m) && (m <=? 12)) then Raise ValueError
  else if negb ((1 <=? d) && (d <=? _days_in_month y m)) then Raise ValueError
  else Ok (y, m, d).

(** [date(year, month, day)] *)
Definition new (y m d : Z) : Py date :=
  match _check_date_fields y m d with
  | Ok (y', m', d') => ret (mkdate y' m' d')
  | Raise e => raise e
  end.

(** [date.today()]: the constructor applied to the fields of the local time
    the clock shows. *)
Definition today : Py date :=
  fun w =>
    let d := clock w (clock_reads w) in
    new (year d) (month d) (day d) (set_clock_reads (S (clock_reads w)) w).

(** [date.replace(month=..., day=...)] *)
Definition replace_month_day (self : date) (m d : Z) : Py date :=
  new (year self) m d.

Definition toordinal (self : date) : Z :=
  _ymd2ord (year self) (month self) (day self).

(** The range of a C [int]: [date.fromordinal] converts its argument to one. *)
Definition INT_MIN : Z := -2147483648.
Definition INT_MAX : Z := 2147483647.

(** [date.fromordinal(n)]: the argument is converted to a C [int], with an
    [OverflowError] when it does not fit; then
    [y, m, d = _ord2ymd(n); return cls(y, m, d)], where the constructor
    raises [ValueError] for a year outside [MINYEAR..MAXYEAR]. *)
Definition fromordinal (n : Z) : Py date :=
  if negb ((INT_MIN <=? n) && (n <=? INT_MAX)) then raise OverflowError
  else let '(y, m, d) := _ord2ymd n in new y m d.

(** Dates compare as the tuples [(year, month, day)]. *)
Definition le (a b : date) : bool :=
  (year a <? year b)
  || ((year a =? year b)
      && ((month a <? month b) || ((month a =? month b) && (day a <=? day b)))).

(** One conversion of [strftime]: [%Y] is the year in decimal (the C
    library does not pad it), [%m] and [%d] take two digits. *)
Definition directive (c : ascii) (self : date) : string :=
  if Ascii.eqb c "Y" then int_str (year self)
  else if Ascii.eqb c "m" then zero_pad 2 (int_str (month self))
  else if Ascii.eqb c "d" then zero_pad 2 (int_str (day self))
  else if Ascii.eqb c "%" then "%"
  else String "%" (String c "").

(** [date.strftime(fmt)] for formats made of [%Y], [%m], [%d], [%%] and
    ordinary characters. *)
Fixpoint strftime (fmt : string) (self : date) : string :=
  match fmt with
  | "" => ""
  | String c rest =>
      if Ascii.eqb c "%" then
        match rest with
        | String c' rest' => directive c' self ++ strftime rest' self
        | "" => "%"
        end
      else String c (strftime rest self)
  end.

End Datetime.

(** ** The [faker] package

    Modelled after Faker's person and date_time providers.  A [Faker]
    instance owns a [Random] generator separate from the one of the [random]
    module. *)
Module Faker.

Definition with_generator {A : Type} (m : tape -> result A * tape) : Py A :=
  fun w => let (r, t) := m (faker_state w) in (r, set_faker_state t w).

(** [Faker.name()]: a made-up full name; which one depends on the state of
    the generator, which moves on.  The provider picks a format and then
    its parts, each with draws of its own; the model keeps the outcome
    only, one name per cell of the tape. *)
Definition name : Py string :=
  fun w =>
    (Ok (faker_names w (pos (faker_state w))),
     set_faker_state (snd (tape_next (faker_state w))) w).

(** [date(1970, 1, 1).toordinal()] *)
Definition EPOCH_ORDINAL : Z := 719163.

(** [datetime_to_timestamp(d)] for a [date]: [timegm(d.timetuple())], the
    seconds from the epoch to midnight of [d]. *)
Definition datetime_to_timestamp (d : date) : Z :=
  (Datetime.toordinal d - EPOCH_ORDINAL) * 86400.

(** [_rand_seconds(start, end)]: [self.generator.random.randint(start, end)],
    a whole number of seconds (a [ValueError] when [end < start]). *)
Definition _rand_seconds (start_ end_ : Z) : Py Z :=
  with_generator (Random.randint start_ end_).

(** [date_between_dates(date_start, date_end)]: the date of the instant
    [datetime(1970, 1, 1) + timedelta(seconds=timestamp)] for a random
    timestamp between the two midnights, ends included. *)
Definition date_between_dates (date_start date_end : date) : Py date :=
  timestamp <- _rand_seconds (datetime_to_timestamp date_start)
                             (datetime_to_timestamp date_end) ;;
  let o := EPOCH_ORDINAL + timestamp / 86400 in
  if (0 <? o) && (o <=? Datetime._MAXORDINAL) then Datetime.fromordinal o
  else raise OverflowError.

(** [date_this_year(before_today=True, after_today=False)]:
    [today = date.today()]
    [this_year_start = today.replace(month=1, day=1)]
    [next_year_start = date(today.year + 1, 1, 1)]
    and then one of four cases on the two flags. *)
Definition date_this_year (before_today after_today : bool) : Py date :=
  today <- Datetime.today ;;
  this_year_start <- Datetime.replace_month_day today 1 1 ;;
  next_year_start <- Datetime.new (year today + 1) 1 1 ;;
  if before_today && after_today then
    date_between_dates this_year_start next_year_start
  else if negb before_today && after_today then
    date_between_dates today next_year_start
  else if negb after_today && before_today then
    date_between_dates this_year_start today
  else ret today.

End Faker.

(** ** [repr] of the values the script prints *)
Module Repr.

Definition squote : ascii := "'"%char.
Definition dquote : ascii := "034"%char.
Definition backslash : ascii := "\"%char.

Fixpoint contains (c : ascii) (s : string) : bool :=
  match s with
  | "" => false
  | String c' rest => Ascii.eqb c c' || contains c rest
  end.

(** The quote [repr] wraps a [str] in: double quotes only when the text has
    a single quote and no double quote. *)
Definition quote_for (s : string) : ascii :=
  if contains squote s && negb (contains dquote s) then dquote else squote.

(** [str.isprintable] on one code point below 256. *)
Definition printable (c : Z) : bool :=
  ((32 <=? c) && (c <? 127)) || ((161 <=? c) && negb (c =? 173)).

(** How [repr] writes one character inside the quotes. *)
Definition escape_char (quote c : ascii) : string :=
  let n := Z.of_N (N_of_ascii c) in
  if Ascii.eqb c quote || Ascii.eqb c backslash then String backslash (String c "")
  else if n =? 9 then String backslash "t"
  else if n =? 10 then String backslash "n"
  else if n =? 13 then String backslash "r"
  else if printable n then String c ""
  else String backslash
         (String "x" (String (digit_char (n / 16)) (String (digit_char (n mod 16)) ""))).

Fixpoint escape (quote : ascii) (s : string) : string :=
  match s with
  | "" => ""
  | String c rest => escape_char quote c ++ escape quote rest
  end.

Definition str_repr (s : string) : string :=
  let q := quote_for s in
  String q (escape q s ++ String q "").

Definition val_repr (v : pyval) : string :=
  match v with
  | PyStr s => str_repr s
  | PyInt n => int_str n
  end.

Fixpoint join (sep : string) (parts : list string) : string :=
  match parts with
  | [] => ""
  | [x] => x
  | x :: rest => x ++ sep ++ join sep rest
  end.

Definition item_repr (kv : string * pyval) : string :=
  str_repr (fst kv) ++ ": " ++ val_repr (snd kv).

(** [repr(d)] of a [dict]: the items in insertion order. *)
Definition dict_repr (d : pydict) : string :=
  "{" ++ join ", " (map item_repr d) ++ "}".

End Repr.

(** ** The script *)

(** Lines 8-12. *)
Definition airlines_literal : list string :=
  [ "Air France"; "Royal Air Maroc"; "Air Arabia"; "Emirates";
    "Saudia"; "Ryanair"; "Qatar Airways"; "Lufthansa";
    "TAP Air Portugal"; "KLM"; "Turkish Airlines"; "EasyJet" ].

(** Lines 14-19. *)
Definition sample_titles_literal : list string :=
  [ "Excellent experience"; "Terrible flight"; "Smooth journey"; "Great service";
    "Awful food"; "Lost luggage"; "On-time and comfortable"; "Never again";
    "Highly recommended"; "Mediocre experience"; "Delayed and frustrating";
    "Crew was amazing";
    "Unexpectedly good"; "Total disappointment"; "Worth every penny";
    "Terrible customer service" ].

(** Lines 21-38. *)
Definition sample_bodies_literal : list string :=
  [ "The flight was on time and the crew was extremely helpful and friendly.";
    "I had the worst experience ever. The staff was rude and the plane was dirty.";
    "Seats were comfortable and there was plenty of legroom. Great value for the money.";
    "The food served on board was awful. Cold and tasteless.";
    "We departed late but arrived early. Impressive time management.";
    "Customer service was unreachable and offered no help with my issue.";
    "The cabin was clean and the inflight entertainment was decent.";
    "I will never book with this airline again. Completely unprofessional.";
    "Everything went smoothly. Luggage arrived on time and check-in was fast.";
    "Very noisy cabin and poor handling of turbulence.";
    "The flight attendants were polite and always smiling. It made a difference.";
    "They lost my suitcase and it took over a week to get it back.";
    "Boarding process was chaotic and disorganized.";
    "It was a short flight but surprisingly comfortable. Would fly again.";
    "They overbooked the flight and bumped me off. Unacceptable.";
    "Inflight entertainment was outdated and barely worked." ].

(** Running lines 8-38 binds the three globals. *)
Definition bind_globals (w : World) : World :=
  mkWorld airlines_literal sample_titles_literal sample_bodies_literal
          (random_state w) (urandom_state w) (faker_state w) (faker_names w)
          (clock w) (clock_reads w) (trace w).

(** Reading a module global. *)
Definition global {A : Type} (name : World -> A) : Py A :=
  fun w => (Ok (name w), w).

(** Lines 40-58. *)
Definition generate_fake_review : Py pydict :=
  u <- Uuid.uuid4 ;;
  let review_id := Uuid.str u in
  pool <- global airlines ;;
  airline <- random_choice pool ;;
  pool <- global sample_titles ;;
  title <- random_choice pool ;;
  pool <- global sample_bodies ;;
  body <- random_choice pool ;;
  reviewer <- Faker.name ;;
  rating <- random_randint 1 5 ;;
  d <- Faker.date_this_year true false ;;
  let date := Datetime.strftime "%Y-%m-%d" d in
  ret [ ("review_id", PyStr review_id);
        ("airline", PyStr airline);
        ("reviewer", PyStr reviewer);
        ("rating", PyInt rating);
        ("date", PyStr date);
        ("title", PyStr title);
        ("body", PyStr body) ].

(** [print(s)] writes the text and a newline to standard output. *)
Definition print (s : string) : Py unit :=
  fun w => (Ok tt, emit (EvWrite (s ++ String "010" "")) w).

(** [time.sleep(secs)] *)
Definition time_sleep (secs : Z) : Py unit :=
  fun w => (Ok tt, emit (EvSleep secs) w).

(** *** The driver loop, lines 60-64

    A small machine whose control points are the lines of the loop: a
    configuration is the line about to run, the local [review] and the
    world. *)
Inductive line : Type := L60 | L61 | L62 | L63 | L64.

Record config : Type := mkconfig {
  at_line : line;
  review : pydict;
  world : World
}.

Inductive outcome : Type :=
| Running (c : config)
| Uncaught (e : exn) (w : World)
| Exited (w : World).

(** The truth value of the constant [True]. *)
Definition py_True : bool := true.

(** The result of a statement without a value: go to [next], or let the
    exception escape. *)
Definition continue_at (next : line) (review : pydict) (r : result unit * World)
  : outcome :=
  match r with
  | (Ok _, w) => Running (mkconfig next review w)
  | (Raise e, w) => Uncaught e w
  end.

Definition step (c : config) : outcome :=
  match at_line c with
  | L60 => (* while True: *)
      if py_True then Running (mkconfig L61 (review c) (world c))
      else Exited (world c)
  | L61 => (* review = generate_fake_review() *)
      match generate_fake_review (world c) with
      | (Ok r, w) => Running (mkconfig L62 r w)
      | (Raise e, w) => Uncaught e w
      end
  | L62 => (* print("\n New Review Generated:") *)
      continue_at L63 (review c)
        (print (String "010" " New Review Generated:") (world c))
  | L63 => (* print(f" Review ID: {review}") *)
      continue_at L64 (review c)
        (print (" Review ID: " ++ Repr.dict_repr (review c)) (world c))
  | L64 => (* time.sleep(5) *)
      continue_at L60 (review c) (time_sleep 5 (world c))
  end.

(** [n] steps of the machine; a process that has stopped stays stopped. *)
Fixpoint run (n : nat) (c : config) : outcome :=
  match n with
  | O => Running c
  | S k =>
      match step c with
      | Running c' => run k c'
      | stopped => stopped
      end
  end.

(** The whole script: bind the globals, then enter the loop.  Before line
    61 has run once there is no [review]; the empty dictionary stands for
    the unbound name, which is never read. *)
Definition script (w : World) : config := mkconfig L60 [] (bind_globals w).

(** * Specification *)

(** ** The calendar *)

Definition valid_ymd (y m d : Z) : bool :=
  (1 <=? m) && (m <=? 12) && (1 <=? d) && (d <=? Datetime._days_in_month y m).

(** The end of [Datetime._ord2ymd]: month and day from the day of the year. *)
Definition month_day (leapyear : bool) (n : Z) : Z * Z :=
  let month := Z.shiftr (n + 50) 5 in
  let preceding :=
    Datetime.index Datetime._DAYS_BEFORE_MONTH month
    + (if (2 <? month) && leapyear then 1 else 0) in
  if n <? preceding then
    let month := month - 1 in
    let preceding :=
      preceding
      - (Datetime.index Datetime._DAYS_IN_MONTH month
         + (if (month =? 2) && leapyear then 1 else 0)) in
    (month, n - preceding + 1)
  else (month, n - preceding + 1).

Definition month_day_ok (leapyear : bool) (n : Z) : bool :=
  let '(m, d) := month_day leapyear n in
  (1 <=? m) && (m <=? 12) && (1 <=? d)
  && (d <=? (if (m =? 2) && leapyear then 29
             else Datetime.index Datetime._DAYS_IN_MONTH m))
  && (Datetime.index Datetime._DAYS_BEFORE_MONTH m
      + (if (2 <? m) && leapyear then 1 else 0) + d =? n + 1).

Fixpoint all_from (fuel : nat) (z : Z) (P : Z -> bool) : bool :=
  match fuel with
  | O => true
  | S f => P z && all_from f (z + 1) P
  end.

(** Table lookups and closed comparisons, evaluated in place. *)
Ltac eval_tables :=
  repeat match goal with
  | |- context [Datetime.index ?t ?k] =>
      let v := eval vm_compute in (Datetime.index t k) in
      change (Datetime.index t k) with v
  | H : context [Datetime.index ?t ?k] |- _ =>
      let v := eval vm_compute in (Datetime.index t k) in
      change (Datetime.index t k) with v in H
  end.

Ltac eval_bool b :=
  let v := eval vm_compute in b in
  lazymatch v with
  | true => change b with true in *
  | false => change b with false in *
  end.

Ltac eval_tests :=
  repeat match goal with
  | |- context [Z.eqb ?a ?b] => eval_bool (Z.eqb a b)
  | |- context [Z.ltb ?a ?b] => eval_bool (Z.ltb a b)
  | H : context [Z.eqb ?a ?b] |- _ => eval_bool (Z.eqb a b)
  | H : context [Z.ltb ?a ?b] |- _ => eval_bool (Z.ltb a b)
  end;
  cbn [andb orb negb] in *.

(** ** Dates the script handles *)

(** A valid date of the years 1000 to 9998: [%Y] then has four digits, and
    the first day of the following year exists. *)
Definition date_okb (d : date) : bool :=
  (1000 <=? year d) && (year d <=? 9998)
  && (1 <=? month d) && (month d <=? 12)
  && (1 <=? day d) && (day d <=? Datetime._days_in_month (year d) (month d)).

(** The date [Faker.date_between_dates] returns for the draw [c]. *)
Definition picked_ordinal (start_ end_ : date) (c : Z) : Z :=
  Datetime.toordinal start_
  + (c mod ((Datetime.toordinal end_ - Datetime.toordinal start_) * 86400 + 1)) / 86400.

Definition after_date_this_year (w : World) : World :=
  set_faker_state (snd (tape_next (faker_state w)))
    (set_clock_reads (S (clock_reads w)) w).

(** ** The text of numbers, dates and UUIDs *)

(** Fixed-width rendering: the [w] low digits of [n], in front of [acc]. *)
Fixpoint fixed (base : Z) (w : nat) (n : Z) (acc : string) : string :=
  match w with
  | O => acc
  | S k => fixed base k (n / base) (String (digit_char (n mod base)) acc)
  end.

(** Reading a [YYYY-MM-DD] text back. *)
Definition digit_value (c : ascii) : option Z :=
  let n := Z.of_N (N_of_ascii c) in
  if (48 <=? n) && (n <=? 57) then Some (n - 48) else None.

Fixpoint number_of (s : string) (acc : Z) : option Z :=
  match s with
  | "" => Some acc
  | String c rest =>
      match digit_value c with
      | Some v => number_of rest (acc * 10 + v)
      | None => None
      end
  end.

Definition parse_iso_date (s : string) : option date :=
  if negb (Nat.eqb (String.length s) 10) then None
  else if negb (String.eqb (substring 4 1 s) "-" && String.eqb (substring 7 1 s) "-")
  then None
  else
    match number_of (substring 0 4 s) 0,
          number_of (substring 5 2 s) 0,
          number_of (substring 8 2 s) 0 with
    | Some y, Some m, Some d =>
        match Datetime._check_date_fields y m d with
        | Ok _ => Some (mkdate y m d)
        | Raise _ => None
        end
    | _, _, _ => None
    end.

Definition iso_text (y m d : Z) : string :=
  String (digit_char (y / 1000)) (String (digit_char (y / 100 mod 10))
    (String (digit_char (y / 10 mod 10)) (String (digit_char (y mod 10))
      (String "-" (String (digit_char (m / 10)) (String (digit_char (m mod 10))
        (String "-" (String (digit_char (d / 10)) (String (digit_char (d mod 10)) ""))))))))).

(** The 122 bits of a 128-bit draw that [uuid4] keeps. *)
Definition KEPT_BITS : Z :=
  Z.ones 128 - Z.shiftl 0xc000 48 - Z.shiftl 0xf000 64.

(** The six bits [uuid4] fixes: variant [10], version [0100]. *)
Definition FIXED_BITS : Z := Z.lor (Z.shiftl 0x8000 48) (Z.shiftl 4 76).

Definition uuid_draw (w : World) : Z :=
  Uuid.int_from_bytes (fst (Os.read_bytes 16 (urandom_state w))).

Definition nib (i : Z) (k : Z) : Z := (i / 16 ^ k) mod 16.

Definition after_uuid4 (w : World) : World :=
  set_urandom_state (snd (Os.read_bytes 16 (urandom_state w))) w.

(** The textual form of a UUID. *)
Definition hex_digit (c : ascii) : bool :=
  let n := Z.of_N (N_of_ascii c) in
  ((48 <=? n) && (n <=? 57)) || ((97 <=? n) && (n <=? 102)).

Definition variant_digit (c : ascii) : bool :=
  Ascii.eqb c "8" || Ascii.eqb c "9" || Ascii.eqb c "a" || Ascii.eqb c "b".

(** [matches pattern s]: [s] has the length of [pattern]; where the pattern
    has [x] the text has a lower-case hexadecimal digit, where it has [y] one
    of [8], [9], [a], [b], and elsewhere the character of the pattern. *)
Fixpoint matches (pattern s : string) : bool :=
  match pattern, s with
  | "", "" => true
  | String p ps, String c cs =>
      (if Ascii.eqb p "x" then hex_digit c
       else if Ascii.eqb p "y" then variant_digit c
       else Ascii.eqb p c)
      && matches ps cs
  | _, _ => false
  end.

Definition UUID4_PATTERN : string := "xxxxxxxx-xxxx-4xxx-yxxx-xxxxxxxxxxxx".

Definition hex_value (c : ascii) : option Z :=
  let n := Z.of_N (N_of_ascii c) in
  if (48 <=? n) && (n <=? 57) then Some (n - 48)
  else if (97 <=? n) && (n <=? 102) then Some (n - 87)
  else None.

Fixpoint int16 (s : string) (acc : Z) : option Z :=
  match s with
  | "" => Some acc
  | String c rest =>
      match hex_value c with
      | Some v => int16 rest (acc * 16 + v)
      | None => None
      end
  end.

Fixpoint drop_dashes (s : string) : string :=
  match s with
  | "" => ""
  | String c rest =>
      if Ascii.eqb c "-" then drop_dashes rest else String c (drop_dashes rest)
  end.

(** The number a UUID text stands for: the hyphens go, the rest is read in
    base 16. *)
Definition uuid_value (s : string) : option Z := int16 (drop_dashes s) 0.

(** The [w] low hexadecimal digits of [n], most significant first. *)
Fixpoint nibs (w : nat) (n : Z) : string :=
  match w with
  | O => ""
  | S k => String (digit_char (nib n (Z.of_nat k))) (nibs k n)
  end.

(** ** What a call returns *)

(** The state after lines 8-38: the three pools hold their literals. *)
Definition loaded (w : World) : Prop :=
  airlines w = airlines_literal
  /\ sample_titles w = sample_titles_literal
  /\ sample_bodies w = sample_bodies_literal.

(** The clock only ever shows dates of the years 1000 to 9998. *)
Definition clock_ok (w : World) : Prop :=
  forall k, date_okb (clock w k) = true.

(** The world one call of [generate_fake_review] leaves behind: four draws
    of the [random] module, sixteen bytes of entropy, two moves of Faker's
    generator and one reading of the clock are consumed. *)
Definition after_generate (w : World) : World :=
  mkWorld (airlines w) (sample_titles w) (sample_bodies w)
          (mktape (cells (random_state w)) (S (S (S (S (pos (random_state w)))))))
          (snd (Os.read_bytes 16 (urandom_state w)))
          (mktape (cells (faker_state w)) (S (S (pos (faker_state w)))))
          (faker_names w) (clock w) (S (clock_reads w)) (trace w).

(** The draws a call is about to consume. *)
Definition random_draw (w : World) (k : nat) : Z :=
  cells (random_state w) (k + pos (random_state w)).

Definition faker_draw (w : World) (k : nat) : Z :=
  cells (faker_state w) (k + pos (faker_state w)).

(** What one call of [generate_fake_review] returns in the world [w], field
    by field: the record, and where each field comes from. *)
Inductive generated (w : World) : pydict -> Prop :=
| Generated (airline title body : string) (d : date)
    (today := clock w (clock_reads w))
    (Hairline :
       nth_error airlines_literal (Z.to_nat (random_draw w 0 mod 12)) = Some airline)
    (Htitle :
       nth_error sample_titles_literal (Z.to_nat (random_draw w 1 mod 16)) = Some title)
    (Hbody :
       nth_error sample_bodies_literal (Z.to_nat (random_draw w 2 mod 16)) = Some body)
    (Hyear : year d = year today)
    (Hmonth : 1 <= month d <= 12)
    (Hday : 1 <= day d <= Datetime._days_in_month (year d) (month d))
    (Hordinal :
       Datetime.toordinal d
       = picked_ordinal (mkdate (year today) 1 1) today (faker_draw w 1))
    (Hfrom : Datetime.le (mkdate (year today) 1 1) d = true)
    (Hto : Datetime.le d today = true) :
    generated w
      [ ("review_id",
         PyStr (Uuid.str (Uuid.mkUUID (Uuid.set_variant_and_version (uuid_draw w) 4))));
        ("airline", PyStr airline);
        ("reviewer", PyStr (faker_names w (pos (faker_state w))));
        ("rating", PyInt (1 + random_draw w 3 mod 5));
        ("date", PyStr (Datetime.strftime "%Y-%m-%d" d));
        ("title", PyStr title);
        ("body", PyStr body) ].

(** ** The output of the loop *)

Definition newline : ascii := "010"%char.

(** A text that stays on one line. *)
Definition one_line (s : string) : Prop := Repr.contains newline s = false.

(** [d[key]] *)
Fixpoint dict_get (key : string) (d : pydict) : option pyval :=
  match d with
  | [] => None
  | (k, v) :: rest => if String.eqb k key then Some v else dict_get key rest
  end.

(** What line 62 and line 63 write. *)
Definition header_text : string :=
  String newline (" New Review Generated:" ++ String newline "").

Definition review_text (r : pydict) : string :=
  " Review ID: " ++ Repr.dict_repr r ++ String newline "".

(** What one turn of the loop adds to the trace. *)
Definition block (r : pydict) : list event :=
  [EvWrite header_text; EvWrite (review_text r); EvSleep 5].

Definition emit_all (es : list event) (w : World) : World :=
  fold_left (fun w e => emit e w) es w.

Definition today_ok (w : World) : Prop :=
  date_okb (clock w (clock_reads w)) = true.

Definition healthy (c : config) : Prop := loaded (world c) /\ clock_ok (world c).

(** ** Repeated calls and the footprint of a call *)

(** [n] calls in a row, as a caller collecting the records would make them. *)
Fixpoint calls (n : nat) : Py (list pydict) :=
  match n with
  | O => ret []
  | S k =>
      r <- generate_fake_review ;;
      rs <- calls k ;;
      ret (r :: rs)
  end.

(** What a call may touch: only read positions move.  The pools, the text
    already written, and the oracles themselves stay as they are. *)
Definition frame (w w' : World) : Prop :=
  airlines w' = airlines w
  /\ sample_titles w' = sample_titles w
  /\ sample_bodies w' = sample_bodies w
  /\ trace w' = trace w
  /\ cells (random_state w') = cells (random_state w)
  /\ cells (urandom_state w') = cells (urandom_state w)
  /\ cells (faker_state w') = cells (faker_state w)
  /\ faker_names w' = faker_names w
  /\ clock w' = clock w.

Definition framed {A : Type} (m : Py A) : Prop := forall w, frame w (snd (m w)).

(** A record that is valid on its own. *)
Definition valid_review (r : pydict) : Prop :=
  exists review_id airline reviewer rating date_ title body d,
    r = [ ("review_id", PyStr review_id); ("airline", PyStr airline);
          ("reviewer", PyStr reviewer); ("rating", PyInt rating);
          ("date", PyStr date_); ("title", PyStr title); ("body", PyStr body) ]
    /\ matches UUID4_PATTERN review_id = true
    /\ In airline airlines_literal
    /\ 1 <= rating <= 5
    /\ parse_iso_date date_ = Some d
    /\ In title sample_titles_literal
    /\ In body sample_bodies_literal.

(** ** Two concrete worlds *)

(** A concrete world to run the script in: 10 March 2025 on the clock. *)
Definition demo_world : World :=
  bind_globals
    (mkWorld [] [] []
       (mktape (fun n => Z.of_nat n * 7 + 3) 0)
       (mktape (fun n => Z.of_nat n * 37 + 5) 0)
       (mktape (fun n => Z.of_nat n * 1234567 + 99) 0)
       (fun _ => "Ada Lovelace")
       (fun _ => mkdate 2025 3 10) 0 []).

(** A world in which the second call draws sixteen bytes that differ from
    those of the first call in one bit only, bit 78, a bit of the version
    field. *)
Definition collision_world : World :=
  bind_globals
    (mkWorld [] [] []
       (mktape (fun _ => 0) 0)
       (mktape (fun n => if Nat.eqb n 22 then 64 else 0) 0)
       (mktape (fun _ => 0) 0)
       (fun _ => "Ada Lovelace")
       (fun _ => mkdate 2025 3 10) 0 []).

Definition FIELDS : list string :=
  ["review_id"; "airline"; "reviewer"; "rating"; "date"; "title"; "body"].

(** ** Other states of the pools and the clock, and what is written *)

(** The three pools as a call may find them: the lists are module globals
    and mutable, so a caller can have changed them. *)
Definition pools_nonempty (w : World) : Prop :=
  airlines w <> [] /\ sample_titles w <> [] /\ sample_bodies w <> [].

(** The world a call leaves when [date_this_year] raises: everything before
    it has run, and the clock has been read. *)
Definition after_failed_date (w : World) : World :=
  mkWorld (airlines w) (sample_titles w) (sample_bodies w)
          (mktape (cells (random_state w)) (S (S (S (S (pos (random_state w)))))))
          (snd (Os.read_bytes 16 (urandom_state w)))
          (mktape (cells (faker_state w)) (S (pos (faker_state w))))
          (faker_names w) (clock w) (S (clock_reads w)) (trace w).

(** A world with pools of the caller's making. *)
Definition with_pools (a t b : list string) (w : World) : World :=
  mkWorld a t b (random_state w) (urandom_state w) (faker_state w)
          (faker_names w) (clock w) (clock_reads w) (trace w).

Definition with_clock (c : nat -> date) (w : World) : World :=
  mkWorld (airlines w) (sample_titles w) (sample_bodies w) (random_state w)
          (urandom_state w) (faker_state w) (faker_names w) c (clock_reads w)
          (trace w).

(** A computation that does not look at what the process has written. *)
Definition oblivious {A : Type} (m : Py A) : Prop :=
  forall e w, m (emit e w) = (fst (m w), emit e (snd (m w))).

(** The texts written, and the seconds slept, in a stretch of the trace. *)
Fixpoint writes (es : list event) : list string :=
  match es with
  | [] => []
  | EvWrite s :: rest => s :: writes rest
  | EvSleep _ :: rest => writes rest
  end.

Fixpoint sleeps (es : list event) : list Z :=
  match es with
  | [] => []
  | EvWrite _ :: rest => sleeps rest
  | EvSleep s :: rest => s :: sleeps rest
  end.

(** How many line breaks a text has. *)
Fixpoint line_breaks (s : string) : nat :=
  match s with
  | "" => O
  | String c rest => ((if Ascii.eqb newline c then 1 else 0) + line_breaks rest)%nat
  end.

Fixpoint all_chars (P : ascii -> bool) (s : string) : bool :=
  match s with
  | "" => true
  | String c rest => P c && all_chars P rest
  end.

(** A character [repr] writes as it is, unless it is the quote: printable,
    and not the backslash. *)
Definition harmless (c : ascii) : bool :=
  Repr.printable (Z.of_N (N_of_ascii c)) && negb (Ascii.eqb c Repr.backslash).

(** A text [repr] only has to wrap in single quotes. *)
Definition plain (s : string) : bool :=
  all_chars harmless s && negb (Repr.contains Repr.squote s).

(** * Proofs *)

(** ** The calendar: [_ord2ymd] inverts [_ymd2ord] *)

Lemma all_from_spec fuel : forall z0 P,
  all_from fuel z0 P = true -> forall z, z0 <= z < z0 + Z.of_nat fuel -> P z = true.
Proof.
  induction fuel as [|f IH]; intros z0 P H z Hz.
  - lia.
  - cbn [all_from] in H. apply andb_true_iff in H. destruct H as [H0 H1].
    destruct (Z.eq_dec z z0) as [->|Hne]; [exact H0|].
    apply (IH (z0 + 1) P H1). lia.
Qed.

Lemma month_day_common_year : all_from 365 0 (month_day_ok false) = true.
Proof. vm_compute. reflexivity. Qed.

Lemma month_day_leap_year : all_from 366 0 (month_day_ok true) = true.
Proof. vm_compute. reflexivity. Qed.

Lemma month_day_spec leapyear n :
  0 <= n < 365 ->
  month_day_ok leapyear n = true.
Proof.
  intros Hn. destruct leapyear.
  - apply (all_from_spec _ _ _ month_day_leap_year). cbn. lia.
  - apply (all_from_spec _ _ _ month_day_common_year). cbn. lia.
Qed.

Lemma dby_decomp q a b c :
  0 <= a <= 3 -> 0 <= b <= 24 -> 0 <= c <= 3 ->
  Datetime._days_before_year (400 * q + 100 * a + 4 * b + c + 1)
  = 146097 * q + 36524 * a + 1461 * b + 365 * c.
Proof.
  intros Ha Hb Hc. unfold Datetime._days_before_year.
  replace (400 * q + 100 * a + 4 * b + c + 1 - 1) with (400 * q + 100 * a + 4 * b + c)
    by lia.
  Z.to_euclidean_division_equations. lia.
Qed.

Lemma is_leap_decomp q a b c :
  0 <= a <= 3 -> 0 <= b <= 24 -> 0 <= c <= 3 ->
  Datetime._is_leap (400 * q + 100 * a + 4 * b + c + 1)
  = (c =? 3) && (negb (b =? 24) || (a =? 3)).
Proof.
  intros Ha Hb Hc. unfold Datetime._is_leap.
  destruct (c =? 3) eqn:Ec; destruct (b =? 24) eqn:Eb; destruct (a =? 3) eqn:Ea;
    cbn [andb orb negb];
    rewrite ?Z.eqb_eq, ?Z.eqb_neq in *;
    repeat match goal with
           | |- context [?x =? 0] => destruct (Z.eqb_spec x 0)
           end; cbn [andb orb negb]; try reflexivity; exfalso;
    Z.to_euclidean_division_equations; lia.
Qed.

(** [Datetime._ord2ymd] with its divisions named. *)
Lemma ord2ymd_split o :
  Datetime._ord2ymd o
  = let q := (o - 1) / 146097 in
    let r := (o - 1) mod 146097 in
    let a := r / 36524 in
    let r1 := r mod 36524 in
    let b := r1 / 1461 in
    let r2 := r1 mod 1461 in
    let c := r2 / 365 in
    let n := r2 mod 365 in
    let y := q * 400 + 1 + (a * 100 + b * 4 + c) in
    if (c =? 4) || (a =? 4) then (y - 1, 12, 31)
    else
      let '(m, d) := month_day ((c =? 3) && (negb (b =? 24) || (a =? 3))) n in
      (y, m, d).
Proof.
  unfold Datetime._ord2ymd, month_day.
  change Datetime._DI400Y with 146097. change Datetime._DI100Y with 36524.
  change Datetime._DI4Y with 1461.
  cbv zeta.
  destruct (_ || _); [reflexivity|].
  match goal with |- context [if ?c then _ else _] => destruct c end; reflexivity.
Qed.

(** [_ord2ymd] returns a valid date, the one whose day number is [o]. *)
Lemma ord2ymd_correct o :
  exists y m d,
    Datetime._ord2ymd o = (y, m, d)
    /\ valid_ymd y m d = true
    /\ Datetime._ymd2ord y m d = o.
Proof.
  rewrite ord2ymd_split. cbv zeta.
  pose proof (Z.div_mod (o - 1) 146097 ltac:(lia)) as E0.
  pose proof (Z.mod_pos_bound (o - 1) 146097 ltac:(lia)) as B0.
  set (q := (o - 1) / 146097) in *. set (r := (o - 1) mod 146097) in *.
  pose proof (Z.div_mod r 36524 ltac:(lia)) as E1.
  pose proof (Z.mod_pos_bound r 36524 ltac:(lia)) as B1.
  set (a := r / 36524) in *. set (r1 := r mod 36524) in *.
  pose proof (Z.div_mod r1 1461 ltac:(lia)) as E2.
  pose proof (Z.mod_pos_bound r1 1461 ltac:(lia)) as B2.
  set (b := r1 / 1461) in *. set (r2 := r1 mod 1461) in *.
  pose proof (Z.div_mod r2 365 ltac:(lia)) as E3.
  pose proof (Z.mod_pos_bound r2 365 ltac:(lia)) as B3.
  set (c := r2 / 365) in *. set (n := r2 mod 365) in *.
  clearbody q r a r1 b r2 c n.
  assert (Ha : 0 <= a <= 4) by lia.
  assert (Hb : 0 <= b <= 24) by lia.
  assert (Hc : 0 <= c <= 4) by lia.
  destruct (Z.eqb_spec a 4) as [Ea|Ea].
  { (* the last day of the 400-year cycle *)
    rewrite orb_true_r.
    assert (b = 0 /\ c = 0 /\ n = 0) as (-> & -> & ->) by lia. subst a.
    eexists _, _, _. split; [reflexivity|].
    replace (q * 400 + 1 + (4 * 100 + 0 * 4 + 0) - 1)
      with (400 * q + 100 * 3 + 4 * 24 + 3 + 1) by lia.
    unfold valid_ymd, Datetime._ymd2ord, Datetime._days_in_month, Datetime._days_before_month.
    rewrite is_leap_decomp, dby_decomp by lia.
    eval_tables. eval_tests. split; [reflexivity|]. lia. }
  destruct (Z.eqb_spec c 4) as [Ec|Ec].
  { (* the last day of a 4-year cycle *)
    cbn [orb].
    assert (n = 0 /\ b <= 23) as (-> & Hb') by lia. subst c.
    eexists _, _, _. split; [reflexivity|].
    replace (q * 400 + 1 + (a * 100 + b * 4 + 4) - 1)
      with (400 * q + 100 * a + 4 * b + 3 + 1) by lia.
    unfold valid_ymd, Datetime._ymd2ord, Datetime._days_in_month, Datetime._days_before_month.
    rewrite is_leap_decomp, dby_decomp by lia.
    replace (b =? 24) with false by (symmetry; apply Z.eqb_neq; lia).
    eval_tables. eval_tests. split; [reflexivity|]. lia. }
  cbn [orb].
  pose proof (month_day_spec ((c =? 3) && (negb (b =? 24) || (a =? 3))) n B3) as Hmd.
  unfold month_day_ok in Hmd.
  destruct (month_day ((c =? 3) && (negb (b =? 24) || (a =? 3))) n) as [m d].
  rewrite !andb_true_iff in Hmd. destruct Hmd as ((((M1 & M2) & D1) & D2) & Hsum).
  exists (q * 400 + 1 + (a * 100 + b * 4 + c)), m, d. split; [reflexivity|].
  replace (q * 400 + 1 + (a * 100 + b * 4 + c))
    with (400 * q + 100 * a + 4 * b + c + 1) by lia.
  unfold valid_ymd, Datetime._ymd2ord, Datetime._days_in_month, Datetime._days_before_month.
  rewrite is_leap_decomp, dby_decomp by lia.
  split.
  - rewrite M1, M2, D1, D2. reflexivity.
  - apply Z.eqb_eq in Hsum. lia.
Qed.

Lemma dby_step y :
  Datetime._days_before_year (y + 1) - Datetime._days_before_year y
  = 365 + (if Datetime._is_leap y then 1 else 0).
Proof.
  unfold Datetime._days_before_year, Datetime._is_leap.
  replace (y + 1 - 1) with y by lia.
  destruct (y mod 4 =? 0) eqn:E4; destruct (y mod 100 =? 0) eqn:E100; destruct (y mod 400 =? 0) eqn:E400; simpl;
  rewrite ?Z.eqb_eq, ?Z.eqb_neq in *; Z.to_euclidean_division_equations; lia.
Qed.

Lemma dby_mono a b :
  a <= b -> Datetime._days_before_year a <= Datetime._days_before_year b.
Proof.
  unfold Datetime._days_before_year. intros. Z.to_euclidean_division_equations; lia.
Qed.

Lemma month_cases m : 1 <= m <= 12 ->
  m = 1 \/ m = 2 \/ m = 3 \/ m = 4 \/ m = 5 \/ m = 6 \/ m = 7 \/ m = 8 \/ m = 9 \/
  m = 10 \/ m = 11 \/ m = 12.
Proof. lia. Qed.

Ltac each_month H :=
  let C := fresh "C" in
  pose proof (month_cases _ H) as C;
  repeat (destruct C as [C|C]); subst.

Lemma valid_ymd_iff y m d :
  valid_ymd y m d = true <-> 1 <= m <= 12 /\ 1 <= d <= Datetime._days_in_month y m.
Proof.
  unfold valid_ymd. rewrite !andb_true_iff, !Z.leb_le. tauto.
Qed.

(* the day of the year, for a valid date *)
Lemma yday_bounds y m d :
  1 <= m <= 12 -> 1 <= d <= Datetime._days_in_month y m ->
  1 <= Datetime._days_before_month y m + d <= 365 + (if Datetime._is_leap y then 1 else 0).
Proof.
  intros Hm Hd. unfold Datetime._days_before_month, Datetime._days_in_month in *.
  each_month Hm; eval_tables; eval_tests; destruct (Datetime._is_leap y); lia.
Qed.

Lemma ymd2ord_bounds y m d :
  1 <= m <= 12 -> 1 <= d <= Datetime._days_in_month y m ->
  Datetime._days_before_year y < Datetime._ymd2ord y m d <= Datetime._days_before_year (y + 1).
Proof.
  intros Hm Hd. pose proof (yday_bounds y m d Hm Hd). pose proof (dby_step y).
  unfold Datetime._ymd2ord. lia.
Qed.

Lemma ymd2ord_year y m d y' m' d' :
  1 <= m <= 12 -> 1 <= d <= Datetime._days_in_month y m ->
  1 <= m' <= 12 -> 1 <= d' <= Datetime._days_in_month y' m' ->
  Datetime._ymd2ord y 1 1 <= Datetime._ymd2ord y' m' d' <= Datetime._ymd2ord y m d ->
  y' = y.
Proof.
  intros Hm Hd Hm' Hd' Hord.
  pose proof (ymd2ord_bounds y m d Hm Hd).
  pose proof (ymd2ord_bounds y' m' d' Hm' Hd').
  assert (Datetime._ymd2ord y 1 1 = Datetime._days_before_year y + 1)
    by (unfold Datetime._ymd2ord, Datetime._days_before_month;
        eval_tables; eval_tests; lia).
  destruct (Z.lt_trichotomy y' y) as [Hlt|[Heq|Hgt]]; [|assumption|].
  - pose proof (dby_mono (y' + 1) y). lia.
  - pose proof (dby_mono (y + 1) y'). lia.
Qed.

(* within one year, ordinals and (month, day) pairs are ordered alike *)
Lemma ymd2ord_le_same_year y m d m' d' :
  1 <= m <= 12 -> 1 <= d <= Datetime._days_in_month y m ->
  1 <= m' <= 12 -> 1 <= d' <= Datetime._days_in_month y m' ->
  Datetime._ymd2ord y m d <= Datetime._ymd2ord y m' d' ->
  m < m' \/ (m = m' /\ d <= d').
Proof.
  intros Hm Hd Hm' Hd' Hord. unfold Datetime._ymd2ord, Datetime._days_before_month, Datetime._days_in_month in *.
  each_month Hm; each_month Hm'; eval_tables; eval_tests; destruct (Datetime._is_leap y); lia.
Qed.

(** ** [date_this_year] *)

Lemma date_okb_iff d :
  date_okb d = true <->
  1000 <= year d <= 9998 /\ 1 <= month d <= 12
  /\ 1 <= day d <= Datetime._days_in_month (year d) (month d).
Proof. unfold date_okb. rewrite !andb_true_iff, !Z.leb_le. tauto. Qed.

Lemma bind_ok {A B} (m : Py A) (k : A -> Py B) w a w' :
  m w = (Ok a, w') -> bind m k w = k a w'.
Proof. unfold bind. intros ->. reflexivity. Qed.

Lemma new_ok y m d w :
  1 <= y <= 9999 -> 1 <= m <= 12 -> 1 <= d <= Datetime._days_in_month y m ->
  Datetime.new y m d w = (Ok (mkdate y m d), w).
Proof.
  intros Hy Hm Hd. unfold Datetime.new, Datetime._check_date_fields, Datetime.MINYEAR, Datetime.MAXYEAR.
  replace ((1 <=? y) && (y <=? 9999)) with true
    by (symmetry; apply andb_true_iff; split; apply Z.leb_le; lia).
  replace ((1 <=? m) && (m <=? 12)) with true
    by (symmetry; apply andb_true_iff; split; apply Z.leb_le; lia).
  replace ((1 <=? d) && (d <=? Datetime._days_in_month y m)) with true
    by (symmetry; apply andb_true_iff; split; apply Z.leb_le; lia).
  reflexivity.
Qed.

Lemma days_in_month_jan y : Datetime._days_in_month y 1 = 31.
Proof. reflexivity. Qed.

Lemma ymd2ord_jan1 y : Datetime._ymd2ord y 1 1 = Datetime._days_before_year y + 1.
Proof. unfold Datetime._ymd2ord, Datetime._days_before_month. eval_tables. eval_tests. lia. Qed.

Lemma ymd2ord_max y m d :
  y <= 9999 -> 1 <= m <= 12 -> 1 <= d <= Datetime._days_in_month y m ->
  Datetime._ymd2ord y m d <= Datetime._MAXORDINAL.
Proof.
  intros Hy Hm Hd. pose proof (ymd2ord_bounds y m d Hm Hd).
  pose proof (dby_mono (y + 1) 10000 ltac:(lia)).
  change (Datetime._days_before_year 10000) with 3652059 in *. unfold Datetime._MAXORDINAL. lia.
Qed.

Lemma ymd2ord_min y m d :
  1 <= y -> 1 <= m <= 12 -> 1 <= d <= Datetime._days_in_month y m ->
  1 <= Datetime._ymd2ord y m d.
Proof.
  intros Hy Hm Hd. pose proof (ymd2ord_bounds y m d Hm Hd).
  pose proof (dby_mono 1 y ltac:(lia)).
  change (Datetime._days_before_year 1) with 0 in *. lia.
Qed.

Lemma picked_ordinal_range s e c :
  Datetime.toordinal s <= Datetime.toordinal e ->
  Datetime.toordinal s <= picked_ordinal s e c <= Datetime.toordinal e.
Proof.
  intros H. unfold picked_ordinal.
  set (n := Datetime.toordinal e - Datetime.toordinal s) in *.
  assert (0 <= n) by lia.
  pose proof (Z.mod_pos_bound c (n * 86400 + 1) ltac:(lia)) as Hr.
  set (r := c mod (n * 86400 + 1)) in *.
  assert (0 <= r / 86400 <= n).
  { split; [apply Z.div_pos; lia|]. apply Z.div_le_upper_bound; lia. }
  lia.
Qed.

Lemma fromordinal_int o w :
  Datetime.INT_MIN <= o <= Datetime.INT_MAX ->
  Datetime.fromordinal o w
  = (let '(y, m, d) := Datetime._ord2ymd o in Datetime.new y m d) w.
Proof.
  intros H. unfold Datetime.fromordinal.
  replace ((Datetime.INT_MIN <=? o) && (o <=? Datetime.INT_MAX)) with true
    by (symmetry; apply andb_true_iff; split; apply Z.leb_le; lia).
  reflexivity.
Qed.

Lemma date_between_dates_ok s e w :
  1 <= Datetime.toordinal s ->
  Datetime.toordinal s <= Datetime.toordinal e ->
  Datetime.toordinal e <= Datetime._MAXORDINAL ->
  let c := cells (faker_state w) (pos (faker_state w)) in
  let o := picked_ordinal s e c in
  exists y m d,
    Datetime._ord2ymd o = (y, m, d) /\
    Faker.date_between_dates s e w =
      Datetime.new y m d (set_faker_state (snd (tape_next (faker_state w))) w).
Proof.
  intros H1 Hse Hmax c o.
  destruct (ord2ymd_correct o) as (y & m & d & Ho & Hv & Hord).
  exists y, m, d. split; [exact Ho|].
  unfold Faker.date_between_dates, bind, Faker._rand_seconds, Faker.with_generator,
    Random.randint, Random.randrange, Random._randbelow, Faker.datetime_to_timestamp.
  set (os := Datetime.toordinal s) in *. set (oe := Datetime.toordinal e) in *.
  replace ((oe - Faker.EPOCH_ORDINAL) * 86400 + 1 - (os - Faker.EPOCH_ORDINAL) * 86400)
    with ((oe - os) * 86400 + 1) by lia.
  replace (0 <? (oe - os) * 86400 + 1) with true by (symmetry; apply Z.ltb_lt; lia).
  cbn [tape_next fst snd].
  fold c.
  replace (Faker.EPOCH_ORDINAL
           + ((os - Faker.EPOCH_ORDINAL) * 86400 + c mod ((oe - os) * 86400 + 1)) / 86400)
    with o.
  2:{ unfold o, picked_ordinal. fold os oe. rewrite Z.div_add_l by lia. lia. }
  pose proof (picked_ordinal_range s e c Hse) as Hr. fold o os oe in Hr.
  replace ((0 <? o) && (o <=? Datetime._MAXORDINAL)) with true
    by (symmetry; apply andb_true_iff; split; [apply Z.ltb_lt|apply Z.leb_le]; lia).
  rewrite fromordinal_int
    by (unfold Datetime.INT_MIN, Datetime.INT_MAX, Datetime._MAXORDINAL in *; lia).
  rewrite Ho. reflexivity.
Qed.

Lemma le_of_ordinals a b :
  year a = year b ->
  1 <= month a <= 12 -> 1 <= day a <= Datetime._days_in_month (year a) (month a) ->
  1 <= month b <= 12 -> 1 <= day b <= Datetime._days_in_month (year b) (month b) ->
  Datetime.toordinal a <= Datetime.toordinal b -> Datetime.le a b = true.
Proof.
  intros Hy Hma Hda Hmb Hdb Hord. unfold Datetime.toordinal in Hord. rewrite <- Hy in *.
  pose proof (ymd2ord_le_same_year _ _ _ _ _ Hma Hda Hmb Hdb Hord) as H.
  unfold Datetime.le. rewrite <- Hy. rewrite Z.ltb_irrefl, Z.eqb_refl. cbn [orb andb].
  destruct H as [H|[H1 H2]].
  - apply Z.ltb_lt in H. rewrite H. reflexivity.
  - rewrite H1, Z.eqb_refl. apply Z.leb_le in H2. rewrite H2. apply orb_true_r.
Qed.

(** [date_this_year()] with its defaults returns, and what it returns. *)
Lemma date_this_year_spec w :
  let T := clock w (clock_reads w) in
  let start_ := mkdate (year T) 1 1 in
  date_okb T = true ->
  exists D,
    Faker.date_this_year true false w = (Ok D, after_date_this_year w)
    /\ year D = year T
    /\ 1 <= month D <= 12
    /\ 1 <= day D <= Datetime._days_in_month (year D) (month D)
    /\ Datetime.toordinal D = picked_ordinal start_ T (cells (faker_state w) (pos (faker_state w)))
    /\ Datetime.toordinal start_ <= Datetime.toordinal D <= Datetime.toordinal T
    /\ Datetime.le start_ D = true
    /\ Datetime.le D T = true.
Proof.
  intros T start_ HT. apply date_okb_iff in HT. destruct HT as (Hy & Hm & Hd).
  assert (Hs1 : 1 <= Datetime.toordinal start_)
    by (apply ymd2ord_min; cbn [year month day start_]; rewrite ?days_in_month_jan; lia).
  assert (HsT : Datetime.toordinal start_ <= Datetime.toordinal T).
  { unfold Datetime.toordinal, start_. cbn [year month day].
    pose proof (ymd2ord_bounds (year T) (month T) (day T) Hm Hd).
    pose proof (ymd2ord_jan1 (year T)). lia. }
  assert (HTmax : Datetime.toordinal T <= Datetime._MAXORDINAL) by (apply ymd2ord_max; lia).
  set (w1 := set_clock_reads (S (clock_reads w)) w).
  destruct (date_between_dates_ok start_ T w1 Hs1 HsT HTmax) as (y & m & d & Ho & Hrun).
  cbn [w1 faker_state set_clock_reads] in Ho, Hrun. fold w1 in Hrun.
  destruct (ord2ymd_correct
              (picked_ordinal start_ T (cells (faker_state w) (pos (faker_state w)))))
    as (y' & m' & d' & Ho' & Hv & Hord).
  rewrite Ho in Ho'. injection Ho' as <- <- <-.
  apply valid_ymd_iff in Hv. destruct Hv as (Hvm & Hvd).
  pose proof (picked_ordinal_range start_ T
                (cells (faker_state w) (pos (faker_state w))) HsT) as Hrange.
  rewrite <- Hord in Hrange.
  assert (Hyear : y = year T).
  { apply (ymd2ord_year (year T) (month T) (day T) y m d Hm Hd Hvm Hvd).
    exact Hrange. }
  exists (mkdate y m d). split.
  - unfold Faker.date_this_year.
    assert (Htoday : Datetime.today w = (Ok T, w1)).
    { unfold Datetime.today. fold T. rewrite new_ok by lia. destruct T; reflexivity. }
    rewrite (bind_ok _ _ _ _ _ Htoday).
    assert (Hrep : Datetime.replace_month_day T 1 1 w1 = (Ok start_, w1)).
    { unfold Datetime.replace_month_day. apply new_ok; rewrite ?days_in_month_jan; lia. }
    rewrite (bind_ok _ _ _ _ _ Hrep).
    assert (Hnext : Datetime.new (year T + 1) 1 1 w1 = (Ok (mkdate (year T + 1) 1 1), w1)).
    { apply new_ok; rewrite ?days_in_month_jan; lia. }
    rewrite (bind_ok _ _ _ _ _ Hnext).
    cbn [andb negb]. rewrite Hrun. apply new_ok; lia.
  - assert (HordD : Datetime.toordinal (mkdate y m d) = Datetime._ymd2ord y m d) by reflexivity.
    split; [exact Hyear|]. split; [exact Hvm|]. split; [exact Hvd|].
    split; [rewrite HordD; exact Hord|]. split; [rewrite HordD; exact Hrange|].
    split; apply le_of_ordinals; rewrite ?HordD; cbn [year month day start_];
      rewrite ?days_in_month_jan; try lia; apply Hrange.
Qed.

(** ** Fixed-width numerals and the text of a date *)

Lemma fixed_zero base : forall w acc, 1 < base -> fixed base w 0 acc = zeros w ++ acc.
Proof.
  induction w as [|k IH]; intros acc Hb; [reflexivity|].
  cbn [fixed]. rewrite Z.div_0_l, Z.mod_0_l by lia. rewrite IH by lia.
  change (digit_char 0) with "0"%char.
  clear. induction k as [|k IH]; [reflexivity|]. cbn [zeros String.append]. now rewrite IH.
Qed.

Lemma length_append (a b : string) :
  String.length (a ++ b) = (String.length a + String.length b)%nat.
Proof. induction a as [|c a IH]; cbn; [reflexivity|now rewrite IH]. Qed.

Lemma length_zeros k : String.length (zeros k) = k.
Proof. induction k; cbn; congruence. Qed.

Lemma digits_length_ge base fuel : forall n acc,
  (String.length acc <= String.length (digits base fuel n acc))%nat.
Proof.
  induction fuel as [|f IH]; intros n acc; cbn [digits]; [lia|].
  destruct (n / base =? 0); [cbn; lia|].
  specialize (IH (n / base) (String (digit_char (n mod base)) acc)). cbn in IH. lia.
Qed.

Lemma digits_fixed base : 1 < base -> forall fuel w n acc,
  0 <= n < base ^ Z.of_nat fuel -> n < base ^ Z.of_nat w -> (0 < w)%nat ->
  exists z,
    fixed base w n acc = zeros z ++ digits base fuel n acc
    /\ (z + String.length (digits base fuel n acc) = w + String.length acc)%nat.
Proof.
  intros Hb. induction fuel as [|f IH]; intros w n acc Hn Hw Hpos.
  - change (base ^ Z.of_nat 0) with 1 in Hn. assert (n = 0) by lia. subst n.
    exists w. rewrite fixed_zero by lia. cbn [digits]. split; [reflexivity|lia].
  - destruct w as [|k]; [lia|]. cbn [fixed digits].
    rewrite Nat2Z.inj_succ, Z.pow_succ_r in Hn, Hw by lia.
    destruct (n / base =? 0) eqn:E.
    + apply Z.eqb_eq in E. rewrite E. exists k. rewrite fixed_zero by lia.
      split; [reflexivity|]. cbn [String.length]. lia.
    + apply Z.eqb_neq in E.
      assert (0 <= n / base) by (apply Z.div_pos; lia).
      assert (n / base < base ^ Z.of_nat f) by (apply Z.div_lt_upper_bound; lia).
      assert (n / base < base ^ Z.of_nat k) by (apply Z.div_lt_upper_bound; lia).
      assert (0 < k)%nat.
      { destruct k; [|lia]. change (base ^ Z.of_nat 0) with 1 in *. lia. }
      destruct (IH k (n / base) (String (digit_char (n mod base)) acc)) as (z & Hz & Hl);
        try lia.
      exists z. split; [exact Hz|]. cbn [String.length] in Hl. lia.
Qed.

Lemma natural_fuel base n : 1 < base -> 0 <= n ->
  n < base ^ Z.of_nat (S (Z.to_nat (Z.log2 n))).
Proof.
  intros Hb Hn. rewrite Nat2Z.inj_succ, Z2Nat.id by apply Z.log2_nonneg.
  destruct (Z.eq_dec n 0) as [->|Hne].
  - change (Z.log2 0) with 0. change (Z.succ 0) with 1. rewrite Z.pow_1_r. lia.
  - pose proof (Z.log2_spec n ltac:(lia)) as [_ H].
    pose proof (Z.pow_le_mono_l 2 base (Z.succ (Z.log2 n)) ltac:(lia)). lia.
Qed.

(** Zero padding a number that fits is the fixed-width rendering. *)
Lemma zero_pad_natural base w n : 1 < base -> (0 < w)%nat -> 0 <= n < base ^ Z.of_nat w ->
  zero_pad w (natural base n) = fixed base w n "".
Proof.
  intros Hb Hw Hn. unfold natural, zero_pad.
  pose proof (natural_fuel base n Hb ltac:(lia)) as Hfuel.
  destruct (digits_fixed base Hb (S (Z.to_nat (Z.log2 n))) w n "") as (z & Hz & Hl);
    try lia.
  rewrite Hz. cbn [String.length] in Hl. f_equal. f_equal. lia.
Qed.

Lemma format_032x_fixed n : 0 <= n < 2 ^ 128 -> format_032x n = fixed 16 32 n "".
Proof.
  intros Hn. unfold format_032x.
  replace (n <? 0) with false by (symmetry; apply Z.ltb_ge; lia).
  apply zero_pad_natural; lia.
Qed.

Lemma two_digits n : 0 <= n < 100 ->
  zero_pad 2 (int_str n) = String (digit_char (n / 10)) (String (digit_char (n mod 10)) "").
Proof.
  intros Hn. unfold int_str. replace (n <? 0) with false by (symmetry; apply Z.ltb_ge; lia).
  rewrite zero_pad_natural by (try lia; change (10 ^ Z.of_nat 2) with 100; lia).
  cbn [fixed]. rewrite (Z.mod_small (n / 10) 10); [reflexivity|].
  split; [apply Z.div_pos; lia|apply Z.div_lt_upper_bound; lia].
Qed.

Lemma four_digits n : 1000 <= n <= 9999 ->
  int_str n = String (digit_char (n / 1000)) (String (digit_char (n / 100 mod 10))
               (String (digit_char (n / 10 mod 10)) (String (digit_char (n mod 10)) ""))).
Proof.
  intros Hn. unfold int_str. replace (n <? 0) with false by (symmetry; apply Z.ltb_ge; lia).
  assert (H4 : zero_pad 4 (natural 10 n) = fixed 10 4 n "")
    by (apply zero_pad_natural; try lia; change (10 ^ Z.of_nat 4) with 10000; lia).
  cbn [fixed] in H4. rewrite !Z.div_div in H4 by lia.
  change (10 * 10 * 10) with 1000 in H4. change (10 * 10) with 100 in H4.
  change (10 * 100) with 1000 in H4.
  rewrite (Z.mod_small (n / 1000) 10) in H4
    by (split; [apply Z.div_pos; lia|apply Z.div_lt_upper_bound; lia]).
  unfold zero_pad in H4.
  (* the first digit is not 0, so nothing was padded *)
  destruct (4 - String.length (natural 10 n))%nat as [|k] eqn:Hk; [exact H4|].
  exfalso. cbn [zeros String.append] in H4. injection H4 as H0 _.
  assert (1 <= n / 1000 <= 9)
    by (split; [apply Z.div_le_lower_bound; lia|
                assert (n / 1000 < 10) by (apply Z.div_lt_upper_bound; lia); lia]).
  assert (C : n / 1000 = 1 \/ n / 1000 = 2 \/ n / 1000 = 3 \/ n / 1000 = 4 \/ n / 1000 = 5
              \/ n / 1000 = 6 \/ n / 1000 = 7 \/ n / 1000 = 8 \/ n / 1000 = 9) by lia.
  repeat (destruct C as [C|C]); rewrite C in H0; discriminate H0.
Qed.

Lemma digit_value_char k : 0 <= k <= 9 -> digit_value (digit_char k) = Some k.
Proof.
  intros H.
  assert (C : k = 0 \/ k = 1 \/ k = 2 \/ k = 3 \/ k = 4 \/ k = 5 \/ k = 6 \/ k = 7
              \/ k = 8 \/ k = 9) by lia.
  repeat (destruct C as [C|C]); subst; reflexivity.
Qed.

Lemma strftime_iso D :
  1000 <= year D <= 9999 -> 0 <= month D < 100 -> 0 <= day D < 100 ->
  Datetime.strftime "%Y-%m-%d" D = iso_text (year D) (month D) (day D).
Proof.
  intros Hy Hm Hd. cbn [Datetime.strftime Ascii.eqb Bool.eqb Datetime.directive].
  rewrite four_digits by lia. rewrite !two_digits by lia. reflexivity.
Qed.

Lemma parse_iso_text y m d :
  1000 <= y <= 9999 -> 1 <= m <= 12 -> 1 <= d <= Datetime._days_in_month y m ->
  parse_iso_date (iso_text y m d) = Some (mkdate y m d).
Proof.
  intros Hy Hm Hd.
  assert (Hd31 : d <= 31).
  { unfold Datetime._days_in_month in Hd. each_month Hm; eval_tables; eval_tests;
      destruct (Datetime._is_leap y); lia. }
  unfold parse_iso_date, iso_text.
  cbn [String.length Nat.eqb negb substring String.eqb Ascii.eqb Bool.eqb andb number_of].
  rewrite !digit_value_char by
    (try (split; [apply Z.div_pos; lia|]; apply Z.lt_succ_r; apply Z.div_lt_upper_bound; lia);
     try (pose proof (Z.mod_pos_bound (y / 100) 10); pose proof (Z.mod_pos_bound (y / 10) 10);
          pose proof (Z.mod_pos_bound y 10); pose proof (Z.mod_pos_bound m 10);
          pose proof (Z.mod_pos_bound d 10); lia)).
  replace ((((0 * 10 + y / 1000) * 10 + (y / 100) mod 10) * 10 + (y / 10) mod 10) * 10
           + y mod 10) with y by (Z.to_euclidean_division_equations; lia).
  replace ((0 * 10 + m / 10) * 10 + m mod 10) with m
    by (Z.to_euclidean_division_equations; lia).
  replace ((0 * 10 + d / 10) * 10 + d mod 10) with d
    by (Z.to_euclidean_division_equations; lia).
  unfold Datetime._check_date_fields, Datetime.MINYEAR, Datetime.MAXYEAR.
  replace ((1 <=? y) && (y <=? 9999)) with true
    by (symmetry; apply andb_true_iff; split; apply Z.leb_le; lia).
  replace ((1 <=? m) && (m <=? 12)) with true
    by (symmetry; apply andb_true_iff; split; apply Z.leb_le; lia).
  replace ((1 <=? d) && (d <=? Datetime._days_in_month y m)) with true
    by (symmetry; apply andb_true_iff; split; apply Z.leb_le; lia).
  reflexivity.
Qed.

(** ** [uuid4]: the bits *)

Lemma land_small d : 0 <= d < 2 ^ 128 -> Z.land d (Z.ones 128) = d.
Proof. intros H. rewrite Z.land_ones by lia. apply Z.mod_small. exact H. Qed.

Lemma set_bits_form d : 0 <= d < 2 ^ 128 ->
  Uuid.set_variant_and_version d 4 = Z.lor (Z.land d KEPT_BITS) FIXED_BITS.
Proof.
  intros Hd. unfold Uuid.set_variant_and_version.
  rewrite Z.land_lor_distr_l.
  rewrite <- Z.land_assoc.
  rewrite <- (land_small d Hd) at 1.
  rewrite <- !Z.land_assoc.
  rewrite <- Z.lor_assoc.
  reflexivity.
Qed.

Lemma set_bits_range d : 0 <= d < 2 ^ 128 ->
  0 <= Uuid.set_variant_and_version d 4 < 2 ^ 128.
Proof.
  intros Hd. rewrite set_bits_form by exact Hd.
  assert (H : Z.land (Z.lor (Z.land d KEPT_BITS) FIXED_BITS) (Z.ones 128)
              = Z.lor (Z.land d KEPT_BITS) FIXED_BITS).
  { rewrite Z.land_lor_distr_l, <- Z.land_assoc. reflexivity. }
  rewrite Z.land_ones in H by lia. rewrite <- H. apply Z.mod_pos_bound. lia.
Qed.

(** Two draws give the same UUID exactly when their kept bits agree. *)
Lemma set_bits_inj d1 d2 : 0 <= d1 < 2 ^ 128 -> 0 <= d2 < 2 ^ 128 ->
  (Uuid.set_variant_and_version d1 4 = Uuid.set_variant_and_version d2 4
   <-> Z.land d1 KEPT_BITS = Z.land d2 KEPT_BITS).
Proof.
  intros H1 H2. rewrite !set_bits_form by assumption. split; [|congruence].
  intros H.
  assert (K : forall d, Z.land (Z.lor (Z.land d KEPT_BITS) FIXED_BITS) KEPT_BITS
                        = Z.land d KEPT_BITS).
  { intros d. rewrite Z.land_lor_distr_l, <- Z.land_assoc.
    change (Z.land KEPT_BITS KEPT_BITS) with KEPT_BITS.
    change (Z.land FIXED_BITS KEPT_BITS) with 0. apply Z.lor_0_r. }
  rewrite <- (K d1), <- (K d2), H. reflexivity.
Qed.

Lemma nib_land i k : 0 <= k -> nib i k = Z.land (Z.shiftr i (4 * k)) 15.
Proof.
  intros Hk. unfold nib. rewrite Z.shiftr_div_pow2 by lia.
  change 15 with (Z.ones 4). rewrite Z.land_ones by lia.
  rewrite Z.pow_mul_r by lia. reflexivity.
Qed.

Lemma version_nibble d : 0 <= d < 2 ^ 128 ->
  nib (Uuid.set_variant_and_version d 4) 19 = 4.
Proof.
  intros Hd. rewrite set_bits_form by exact Hd. rewrite nib_land by lia.
  rewrite Z.shiftr_lor, Z.shiftr_land, Z.land_lor_distr_l, <- Z.land_assoc.
  change (Z.land (Z.shiftr KEPT_BITS (4 * 19)) 15) with 0.
  change (Z.land (Z.shiftr FIXED_BITS (4 * 19)) 15) with 4.
  rewrite Z.land_0_r. reflexivity.
Qed.

Lemma variant_nibble d : 0 <= d < 2 ^ 128 ->
  8 <= nib (Uuid.set_variant_and_version d 4) 15 <= 11.
Proof.
  intros Hd. rewrite set_bits_form by exact Hd. rewrite nib_land by lia.
  rewrite Z.shiftr_lor, Z.shiftr_land, Z.land_lor_distr_l, <- Z.land_assoc.
  change (Z.land (Z.shiftr KEPT_BITS (4 * 15)) 15) with (Z.ones 2).
  change (Z.land (Z.shiftr FIXED_BITS (4 * 15)) 15) with 8.
  rewrite Z.land_ones by lia.
  pose proof (Z.mod_pos_bound (Z.shiftr d (4 * 15)) (2 ^ 2) ltac:(lia)) as Hr.
  set (r := Z.shiftr d (4 * 15) mod 2 ^ 2) in *.
  assert (C : r = 0 \/ r = 1 \/ r = 2 \/ r = 3) by lia.
  repeat (destruct C as [C|C]); rewrite C; cbn; lia.
Qed.

Lemma lor_below a b m : 0 <= m -> 0 <= a < 2 ^ m -> 0 <= b < 2 ^ m ->
  0 <= Z.lor a b < 2 ^ m.
Proof.
  intros Hm Ha Hb. split; [apply Z.lor_nonneg; lia|].
  destruct (Z.eq_dec (Z.lor a b) 0) as [->|Hne]; [lia|].
  assert (0 <= Z.lor a b) by (apply Z.lor_nonneg; lia).
  apply Z.log2_lt_pow2; [lia|]. rewrite Z.log2_lor by lia.
  destruct (Z.eq_dec a 0) as [->|Ha0]; destruct (Z.eq_dec b 0) as [->|Hb0].
  - cbn in Hne. lia.
  - change (Z.log2 0) with 0. pose proof (Z.log2_nonneg b).
    rewrite Z.max_r by lia. apply Z.log2_lt_pow2; lia.
  - change (Z.log2 0) with 0. pose proof (Z.log2_nonneg a).
    rewrite Z.max_l by lia. apply Z.log2_lt_pow2; lia.
  - apply Z.max_lub_lt; apply Z.log2_lt_pow2; lia.
Qed.

Lemma fold_bytes_range : forall bytes acc n,
  Forall (fun b => 0 <= b < 256) bytes -> 0 <= n -> 0 <= acc < 2 ^ n ->
  0 <= fold_left (fun a b => Z.lor (Z.shiftl a 8) b) bytes acc
    < 2 ^ (n + 8 * Z.of_nat (List.length bytes)).
Proof.
  induction bytes as [|b bytes IH]; intros acc n Hall Hn Hacc.
  - cbn. rewrite Z.add_0_r. exact Hacc.
  - inversion Hall as [|? ? Hb Hrest]; subst. cbn [fold_left List.length].
    replace (n + 8 * Z.of_nat (S (List.length bytes)))
      with ((n + 8) + 8 * Z.of_nat (List.length bytes)) by lia.
    apply IH; [exact Hrest|lia|].
    apply lor_below; [lia| |].
    + rewrite Z.shiftl_mul_pow2 by lia. rewrite Z.pow_add_r by lia. nia.
    + assert (2 ^ 8 <= 2 ^ (n + 8)) by (apply Z.pow_le_mono_r; lia).
      change (2 ^ 8) with 256 in *. lia.
Qed.

Lemma read_bytes_spec n t :
  List.length (fst (Os.read_bytes n t)) = n
  /\ Forall (fun b => 0 <= b < 256) (fst (Os.read_bytes n t)).
Proof.
  unfold Os.read_bytes. cbn [fst]. split.
  - rewrite length_map, length_seq. reflexivity.
  - apply Forall_forall. intros b Hb. apply in_map_iff in Hb.
    destruct Hb as (i & <- & _). apply Z.mod_pos_bound. lia.
Qed.

Lemma uuid_draw_range w : 0 <= uuid_draw w < 2 ^ 128.
Proof.
  unfold uuid_draw, Uuid.int_from_bytes.
  destruct (read_bytes_spec 16 (urandom_state w)) as (Hl & Hall).
  pose proof (fold_bytes_range _ 0 0 Hall ltac:(lia) ltac:(lia)) as H.
  rewrite Hl in H. exact H.
Qed.

Lemma shiftl_1_128 : Z.shiftl 1 128 = 2 ^ 128.
Proof. vm_compute. reflexivity. Qed.

Lemma UUID_of_bytes_ok bs w :
  List.length bs = 16%nat -> 0 <= Uuid.int_from_bytes bs < 2 ^ 128 ->
  Uuid.UUID_of_bytes bs 4 w
  = (Ok (Uuid.mkUUID (Uuid.set_variant_and_version (Uuid.int_from_bytes bs) 4)), w).
Proof.
  intros Hl Hr. unfold Uuid.UUID_of_bytes. rewrite Hl.
  assert (Hc : (0 <=? Uuid.int_from_bytes bs)
               && (Uuid.int_from_bytes bs <? Z.shiftl 1 128) = true).
  { apply andb_true_iff. split; [apply Z.leb_le; lia|].
    apply Z.ltb_lt. rewrite shiftl_1_128. lia. }
  rewrite Hc. reflexivity.
Qed.

Lemma uuid_draw_eq w :
  uuid_draw w = Uuid.int_from_bytes (fst (Os.read_bytes 16 (urandom_state w))).
Proof. reflexivity. Qed.

(** [uuid.uuid4()] returns, and consumes sixteen bytes of entropy. *)
Lemma uuid4_spec w :
  Uuid.uuid4 w
  = (Ok (Uuid.mkUUID (Uuid.set_variant_and_version (uuid_draw w) 4)), after_uuid4 w).
Proof.
  unfold Uuid.uuid4, Os.urandom, bind, after_uuid4.
  pose proof (read_bytes_spec 16 (urandom_state w)) as [Hl _].
  pose proof (uuid_draw_range w) as Hr.
  rewrite uuid_draw_eq in *.
  destruct (Os.read_bytes 16 (urandom_state w)) as [bs t].
  cbn [fst snd] in *.
  apply UUID_of_bytes_ok; assumption.
Qed.

(** ** [uuid4]: the text *)

Lemma nib_range i k : 0 <= nib i k < 16.
Proof. unfold nib. apply Z.mod_pos_bound. lia. Qed.

Lemma nib_div n k : 0 <= k -> nib (n / 16) k = nib n (k + 1).
Proof.
  intros Hk. unfold nib. rewrite Z.div_div by lia.
  rewrite Z.pow_add_r by lia. rewrite Z.pow_1_r. rewrite (Z.mul_comm 16). reflexivity.
Qed.

Lemma nibs_shift : forall k n acc,
  nibs k (n / 16) ++ String (digit_char (n mod 16)) acc = nibs (S k) n ++ acc.
Proof.
  induction k as [|k IH]; intros n acc.
  - cbn [nibs String.append Z.of_nat]. unfold nib. rewrite Z.pow_0_r, Z.div_1_r.
    reflexivity.
  - change (nibs (S k) (n / 16))
      with (String (digit_char (nib (n / 16) (Z.of_nat k))) (nibs k (n / 16))).
    cbn [String.append]. rewrite IH.
    change (nibs (S (S k)) n)
      with (String (digit_char (nib n (Z.of_nat (S k)))) (nibs (S k) n)).
    cbn [String.append]. rewrite nib_div by lia. rewrite Nat2Z.inj_succ.
    unfold Z.succ. reflexivity.
Qed.

Lemma fixed_nibs : forall w n acc, fixed 16 w n acc = nibs w n ++ acc.
Proof.
  induction w as [|k IH]; intros n acc; [reflexivity|].
  cbn [fixed]. rewrite IH. apply nibs_shift.
Qed.

Lemma digit_cases v : 0 <= v < 16 ->
  v = 0 \/ v = 1 \/ v = 2 \/ v = 3 \/ v = 4 \/ v = 5 \/ v = 6 \/ v = 7 \/ v = 8
  \/ v = 9 \/ v = 10 \/ v = 11 \/ v = 12 \/ v = 13 \/ v = 14 \/ v = 15.
Proof. lia. Qed.

Ltac each_digit H :=
  let C := fresh "C" in
  pose proof (digit_cases _ H) as C;
  repeat (destruct C as [C|C]); rewrite C.

Lemma hex_digit_char v : 0 <= v < 16 -> hex_digit (digit_char v) = true.
Proof. intros H. each_digit H; reflexivity. Qed.

Lemma hex_value_char v : 0 <= v < 16 -> hex_value (digit_char v) = Some v.
Proof. intros H. each_digit H; reflexivity. Qed.

Lemma digit_char_not_dash v : 0 <= v < 16 -> Ascii.eqb (digit_char v) "-" = false.
Proof. intros H. each_digit H; reflexivity. Qed.

Lemma variant_digit_char v : 8 <= v <= 11 -> variant_digit (digit_char v) = true.
Proof.
  intros H. assert (C : v = 8 \/ v = 9 \/ v = 10 \/ v = 11) by lia.
  repeat (destruct C as [C|C]); rewrite C; reflexivity.
Qed.

Lemma int16_nibs : forall w n s acc, 0 <= n ->
  int16 (nibs w n ++ s) acc = int16 s (acc * 16 ^ Z.of_nat w + n mod 16 ^ Z.of_nat w).
Proof.
  induction w as [|k IH]; intros n s acc Hn.
  - cbn [nibs String.append Z.of_nat]. rewrite Z.pow_0_r, Z.mod_1_r. f_equal. lia.
  - cbn [nibs String.append int16]. rewrite hex_value_char by apply nib_range.
    (* the digits below the first one are those of n as well *)
    assert (Hrest : forall m, nibs k m = nibs k m) by reflexivity.
    rewrite IH by exact Hn. f_equal.
    rewrite Nat2Z.inj_succ, Z.pow_succ_r by lia. unfold nib.
    set (p := 16 ^ Z.of_nat k). assert (0 < p) by (apply Z.pow_pos_nonneg; lia).
    rewrite (Z.mul_comm 16 p). rewrite Z.rem_mul_r by lia. lia.
Qed.

Lemma nibs32_explicit i :
  nibs 32 i
  = ltac:(let t := eval cbn [nibs Z.of_nat Pos.of_succ_nat Pos.succ] in (nibs 32 i) in
          exact t).
Proof. reflexivity. Qed.

Lemma uuid_str_explicit i : 0 <= i < 2 ^ 128 ->
  Uuid.str (Uuid.mkUUID i)
  = ltac:(let t := eval cbn [nibs Z.of_nat Pos.of_succ_nat Pos.succ slice slice_from
                             substring String.length Nat.sub String.append]
                   in (let hex := nibs 32 i in
                       slice hex 0 8 ++ "-" ++ slice hex 8 12 ++ "-" ++ slice hex 12 16
                         ++ "-" ++ slice hex 16 20 ++ "-" ++ slice_from hex 20) in
          exact t).
Proof.
  intros Hi. unfold Uuid.str. cbn [Uuid.int].
  rewrite format_032x_fixed by exact Hi. rewrite fixed_nibs.
  assert (E : nibs 32 i ++ "" = nibs 32 i).
  { generalize (nibs 32 i). intros s. induction s as [|c s IH]; cbn; congruence. }
  rewrite E. rewrite nibs32_explicit. reflexivity.
Qed.

Lemma drop_dashes_digit v s : 0 <= v < 16 ->
  drop_dashes (String (digit_char v) s) = String (digit_char v) (drop_dashes s).
Proof. intros H. cbn [drop_dashes]. rewrite digit_char_not_dash by exact H. reflexivity. Qed.

Lemma drop_dashes_dash s : drop_dashes (String "-" s) = drop_dashes s.
Proof. reflexivity. Qed.

(** Reading the text of a UUID gives its number back. *)
Lemma uuid_value_str i : 0 <= i < 2 ^ 128 -> uuid_value (Uuid.str (Uuid.mkUUID i)) = Some i.
Proof.
  intros Hi. rewrite uuid_str_explicit by exact Hi. unfold uuid_value.
  repeat first [ rewrite drop_dashes_dash
               | rewrite drop_dashes_digit by apply nib_range ].
  cbn [drop_dashes]. rewrite <- nibs32_explicit.
  assert (E : nibs 32 i = nibs 32 i ++ "").
  { generalize (nibs 32 i). intros s. induction s as [|c s IH]; cbn; congruence. }
  rewrite E, int16_nibs by lia. cbn [int16]. f_equal.
  change (16 ^ Z.of_nat 32) with (2 ^ 128). rewrite Z.mod_small by exact Hi. lia.
Qed.

(** Different 128-bit numbers have different texts. *)
Lemma uuid_str_inj i j : 0 <= i < 2 ^ 128 -> 0 <= j < 2 ^ 128 ->
  Uuid.str (Uuid.mkUUID i) = Uuid.str (Uuid.mkUUID j) -> i = j.
Proof.
  intros Hi Hj H. apply (f_equal uuid_value) in H.
  rewrite !uuid_value_str in H by assumption. congruence.
Qed.

(** The text of a version-4 UUID. *)
Lemma uuid4_str_matches d : 0 <= d < 2 ^ 128 ->
  matches UUID4_PATTERN (Uuid.str (Uuid.mkUUID (Uuid.set_variant_and_version d 4))) = true.
Proof.
  intros Hd. pose proof (set_bits_range d Hd) as Hr.
  pose proof (version_nibble d Hd) as Hver. pose proof (variant_nibble d Hd) as Hvar.
  set (i := Uuid.set_variant_and_version d 4) in *.
  rewrite uuid_str_explicit by exact Hr.
  rewrite Hver.
  unfold UUID4_PATTERN. cbn [matches Ascii.eqb Bool.eqb].
  rewrite variant_digit_char by exact Hvar.
  rewrite !hex_digit_char by apply nib_range.
  reflexivity.
Qed.

(** ** One call of [generate_fake_review] *)

Lemma choice_ok {A} (seq : list A) (t : tape) :
  seq <> [] ->
  exists x,
    Random.choice seq t = (Ok x, snd (tape_next t))
    /\ nth_error seq (Z.to_nat (cells t (pos t) mod Z.of_nat (List.length seq))) = Some x
    /\ In x seq.
Proof.
  intros Hne. unfold Random.choice, Random._randbelow. cbn [tape_next snd].
  assert (Hlen : 0 < Z.of_nat (List.length seq)) by (destruct seq; [congruence|cbn; lia]).
  replace (Z.of_nat (List.length seq) =? 0) with false by (symmetry; apply Z.eqb_neq; lia).
  pose proof (Z.mod_pos_bound (cells t (pos t)) _ Hlen) as Hr.
  destruct (nth_error seq (Z.to_nat (cells t (pos t) mod Z.of_nat (List.length seq))))
    as [x|] eqn:E.
  - exists x. repeat split. eapply nth_error_In; exact E.
  - exfalso. apply nth_error_None in E. lia.
Qed.

Lemma random_choice_ok seq w :
  seq <> [] ->
  exists x,
    random_choice seq w = (Ok x, set_random_state (snd (tape_next (random_state w))) w)
    /\ nth_error seq (Z.to_nat (random_draw w 0 mod Z.of_nat (List.length seq))) = Some x
    /\ In x seq.
Proof.
  intros Hne. destruct (choice_ok seq (random_state w) Hne) as (x & Hrun & Hnth & Hin).
  exists x. unfold random_choice, with_random. rewrite Hrun. repeat split; assumption.
Qed.

Lemma random_randint_ok a b w :
  a <= b ->
  random_randint a b w
  = (Ok (a + random_draw w 0 mod (b + 1 - a)),
     set_random_state (snd (tape_next (random_state w))) w).
Proof.
  intros Hab. unfold random_randint, with_random, Random.randint, Random.randrange,
    Random._randbelow. cbn [tape_next snd].
  replace (0 <? b + 1 - a) with true by (symmetry; apply Z.ltb_lt; lia).
  reflexivity.
Qed.

Lemma airlines_literal_nonempty : airlines_literal <> [].
Proof. discriminate. Qed.

Lemma sample_titles_literal_nonempty : sample_titles_literal <> [].
Proof. discriminate. Qed.

Lemma sample_bodies_literal_nonempty : sample_bodies_literal <> [].
Proof. discriminate. Qed.

(** A call returns, what it returns, and the world it leaves. *)
Lemma generate_fake_review_spec w :
  loaded w -> date_okb (clock w (clock_reads w)) = true ->
  exists r, generate_fake_review w = (Ok r, after_generate w) /\ generated w r.
Proof.
  intros (Ha & Ht & Hb) Hclock. unfold generate_fake_review.
  rewrite (bind_ok _ _ _ _ _ (uuid4_spec w)).
  set (w1 := after_uuid4 w).
  assert (G1 : global airlines w1 = (Ok airlines_literal, w1))
    by (unfold global; cbn [w1 after_uuid4 set_urandom_state airlines]; now rewrite Ha).
  rewrite (bind_ok _ _ _ _ _ G1).
  destruct (random_choice_ok airlines_literal w1 airlines_literal_nonempty)
    as (a & Ra & Na & _).
  rewrite (bind_ok _ _ _ _ _ Ra).
  set (w2 := set_random_state (snd (tape_next (random_state w1))) w1) in *.
  assert (G2 : global sample_titles w2 = (Ok sample_titles_literal, w2))
    by (unfold global; cbn; now rewrite Ht).
  rewrite (bind_ok _ _ _ _ _ G2).
  destruct (random_choice_ok sample_titles_literal w2 sample_titles_literal_nonempty)
    as (t & Rt & Nt & _).
  rewrite (bind_ok _ _ _ _ _ Rt).
  set (w3 := set_random_state (snd (tape_next (random_state w2))) w2) in *.
  assert (G3 : global sample_bodies w3 = (Ok sample_bodies_literal, w3))
    by (unfold global; cbn; now rewrite Hb).
  rewrite (bind_ok _ _ _ _ _ G3).
  destruct (random_choice_ok sample_bodies_literal w3 sample_bodies_literal_nonempty)
    as (b & Rb & Nb & _).
  rewrite (bind_ok _ _ _ _ _ Rb).
  set (w4 := set_random_state (snd (tape_next (random_state w3))) w3) in *.
  assert (N4 : Faker.name w4
               = (Ok (faker_names w (pos (faker_state w))),
                  set_faker_state (snd (tape_next (faker_state w4))) w4))
    by reflexivity.
  rewrite (bind_ok _ _ _ _ _ N4).
  set (w5 := set_faker_state (snd (tape_next (faker_state w4))) w4) in *.
  rewrite (bind_ok _ _ _ _ _ (random_randint_ok 1 5 w5 ltac:(lia))).
  set (w6 := set_random_state (snd (tape_next (random_state w5))) w5) in *.
  destruct (date_this_year_spec w6 Hclock)
    as (D & RD & Dy & Dm & Dd & Dord & _ & Dfrom & Dto).
  rewrite (bind_ok _ _ _ _ _ RD).
  eexists. split; [reflexivity|].
  apply (Generated w a t b D); assumption.
Qed.

(** A call with any non-empty pools: the steps up to [date_this_year]. *)
Lemma generate_fake_review_steps w :
  pools_nonempty w ->
  exists a t b,
    nth_error (airlines w)
      (Z.to_nat (random_draw w 0 mod Z.of_nat (List.length (airlines w)))) = Some a
    /\ nth_error (sample_titles w)
         (Z.to_nat (random_draw w 1 mod Z.of_nat (List.length (sample_titles w))))
       = Some t
    /\ nth_error (sample_bodies w)
         (Z.to_nat (random_draw w 2 mod Z.of_nat (List.length (sample_bodies w))))
       = Some b
    /\ generate_fake_review w
       = (let w6 :=
            mkWorld (airlines w) (sample_titles w) (sample_bodies w)
              (mktape (cells (random_state w)) (S (S (S (S (pos (random_state w)))))))
              (snd (Os.read_bytes 16 (urandom_state w)))
              (mktape (cells (faker_state w)) (S (pos (faker_state w))))
              (faker_names w) (clock w) (clock_reads w) (trace w) in
          match Faker.date_this_year true false w6 with
          | (Ok d, w') =>
              (Ok [ ("review_id",
                     PyStr (Uuid.str (Uuid.mkUUID
                                        (Uuid.set_variant_and_version (uuid_draw w) 4))));
                    ("airline", PyStr a);
                    ("reviewer", PyStr (faker_names w (pos (faker_state w))));
                    ("rating", PyInt (1 + random_draw w 3 mod 5));
                    ("date", PyStr (Datetime.strftime "%Y-%m-%d" d));
                    ("title", PyStr t);
                    ("body", PyStr b) ], w')
          | (Raise e, w') => (Raise e, w')
          end).
Proof.
  intros (Ha & Ht & Hb). unfold generate_fake_review.
  rewrite (bind_ok _ _ _ _ _ (uuid4_spec w)).
  set (w1 := after_uuid4 w).
  assert (G1 : global airlines w1 = (Ok (airlines w), w1)) by reflexivity.
  rewrite (bind_ok _ _ _ _ _ G1).
  destruct (random_choice_ok (airlines w) w1 Ha) as (a & Ra & Na & _).
  rewrite (bind_ok _ _ _ _ _ Ra).
  set (w2 := set_random_state (snd (tape_next (random_state w1))) w1) in *.
  assert (G2 : global sample_titles w2 = (Ok (sample_titles w), w2)) by reflexivity.
  rewrite (bind_ok _ _ _ _ _ G2).
  destruct (random_choice_ok (sample_titles w) w2 Ht) as (t & Rt & Nt & _).
  rewrite (bind_ok _ _ _ _ _ Rt).
  set (w3 := set_random_state (snd (tape_next (random_state w2))) w2) in *.
  assert (G3 : global sample_bodies w3 = (Ok (sample_bodies w), w3)) by reflexivity.
  rewrite (bind_ok _ _ _ _ _ G3).
  destruct (random_choice_ok (sample_bodies w) w3 Hb) as (b & Rb & Nb & _).
  rewrite (bind_ok _ _ _ _ _ Rb).
  set (w4 := set_random_state (snd (tape_next (random_state w3))) w3) in *.
  assert (N4 : Faker.name w4
               = (Ok (faker_names w (pos (faker_state w))),
                  set_faker_state (snd (tape_next (faker_state w4))) w4))
    by reflexivity.
  rewrite (bind_ok _ _ _ _ _ N4).
  set (w5 := set_faker_state (snd (tape_next (faker_state w4))) w4) in *.
  rewrite (bind_ok _ _ _ _ _ (random_randint_ok 1 5 w5 ltac:(lia))).
  exists a, t, b. split; [exact Na|]. split; [exact Nt|]. split; [exact Nb|].
  unfold bind. cbv zeta.
  match goal with
  | |- match ?m with _ => _ end = match ?m' with _ => _ end =>
      change m with m'; destruct m' as [[d|e] w']
  end; reflexivity.
Qed.

Lemma random_choice_empty w : random_choice [] w = (Raise IndexError, w).
Proof. unfold random_choice, with_random. cbn. destruct w; reflexivity. Qed.

Lemma nonempty_cases (l : list string) : l = [] \/ l <> [].
Proof. destruct l; [left; reflexivity|right; discriminate]. Qed.

Lemma call_returns w :
  pools_nonempty w -> today_ok w ->
  exists r, generate_fake_review w = (Ok r, after_generate w).
Proof.
  intros Hp Hok.
  destruct (generate_fake_review_steps w Hp) as (a & t & b & _ & _ & _ & Hrun).
  cbv zeta in Hrun.
  match type of Hrun with
  | _ = match Faker.date_this_year true false ?w6 with _ => _ end =>
      destruct (date_this_year_spec w6 Hok) as (D & RD & _); rewrite RD in Hrun
  end.
  eexists. exact Hrun.
Qed.

(** With an empty pool the call raises [IndexError], whichever pool it is. *)
Lemma call_raises_on_an_empty_pool w :
  airlines w = [] \/ sample_titles w = [] \/ sample_bodies w = [] ->
  exists w', generate_fake_review w = (Raise IndexError, w').
Proof.
  intros H. unfold generate_fake_review.
  rewrite (bind_ok _ _ _ _ _ (uuid4_spec w)).
  set (w1 := after_uuid4 w).
  assert (G1 : global airlines w1 = (Ok (airlines w), w1)) by reflexivity.
  rewrite (bind_ok _ _ _ _ _ G1).
  destruct (nonempty_cases (airlines w)) as [Ea|Ha].
  { rewrite Ea. unfold bind at 1. rewrite random_choice_empty. eexists. reflexivity. }
  destruct (random_choice_ok (airlines w) w1 Ha) as (a & Ra & _).
  rewrite (bind_ok _ _ _ _ _ Ra).
  set (w2 := set_random_state (snd (tape_next (random_state w1))) w1) in *.
  assert (G2 : global sample_titles w2 = (Ok (sample_titles w), w2)) by reflexivity.
  rewrite (bind_ok _ _ _ _ _ G2).
  destruct (nonempty_cases (sample_titles w)) as [Et|Ht].
  { rewrite Et. unfold bind at 1. rewrite random_choice_empty. eexists. reflexivity. }
  destruct (random_choice_ok (sample_titles w) w2 Ht) as (t & Rt & _).
  rewrite (bind_ok _ _ _ _ _ Rt).
  set (w3 := set_random_state (snd (tape_next (random_state w2))) w2) in *.
  assert (G3 : global sample_bodies w3 = (Ok (sample_bodies w), w3)) by reflexivity.
  rewrite (bind_ok _ _ _ _ _ G3).
  destruct (nonempty_cases (sample_bodies w)) as [Eb|Hb].
  { rewrite Eb. unfold bind at 1. rewrite random_choice_empty. eexists. reflexivity. }
  exfalso. destruct H as [H|[H|H]]; contradiction.
Qed.

(** A call returns exactly when no pool is empty. *)
Lemma call_returns_iff w :
  today_ok w ->
  (exists r w', generate_fake_review w = (Ok r, w')) <-> pools_nonempty w.
Proof.
  intros Hok. split.
  - intros (r & w' & Hrun). unfold pools_nonempty.
    destruct (nonempty_cases (airlines w)) as [Ea|Ha];
      [|destruct (nonempty_cases (sample_titles w)) as [Et|Ht];
        [|destruct (nonempty_cases (sample_bodies w)) as [Eb|Hb]]].
    + destruct (call_raises_on_an_empty_pool w (or_introl Ea)) as (v & Hv).
      rewrite Hv in Hrun. discriminate Hrun.
    + destruct (call_raises_on_an_empty_pool w (or_intror (or_introl Et))) as (v & Hv).
      rewrite Hv in Hrun. discriminate Hrun.
    + destruct (call_raises_on_an_empty_pool w (or_intror (or_intror Eb))) as (v & Hv).
      rewrite Hv in Hrun. discriminate Hrun.
    + split; [exact Ha|]. split; [exact Ht|exact Hb].
  - intros Hp. destruct (call_returns w Hp Hok) as (r & Hrun).
    exists r, (after_generate w). exact Hrun.
Qed.

(** ** [repr] stays on one line *)

Lemma contains_append c a b :
  Repr.contains c (a ++ b) = Repr.contains c a || Repr.contains c b.
Proof.
  induction a as [|x a IH]; cbn [String.append Repr.contains]; [reflexivity|].
  rewrite IH. apply orb_assoc.
Qed.

Lemma one_line_append a b : one_line a -> one_line b -> one_line (a ++ b).
Proof. unfold one_line. intros Ha Hb. rewrite contains_append, Ha, Hb. reflexivity. Qed.

Lemma one_line_cons c s :
  Ascii.eqb newline c = false -> one_line s -> one_line (String c s).
Proof. unfold one_line. intros Hc Hs. cbn [Repr.contains]. now rewrite Hc, Hs. Qed.

Lemma escape_char_one_line q c :
  q = Repr.squote \/ q = Repr.dquote -> one_line (Repr.escape_char q c).
Proof.
  intros [-> | ->]; destruct c as [[] [] [] [] [] [] [] []]; reflexivity.
Qed.

Lemma quote_for_cases s :
  Repr.quote_for s = Repr.squote \/ Repr.quote_for s = Repr.dquote.
Proof. unfold Repr.quote_for. destruct (_ && _); auto. Qed.

Lemma escape_one_line q s :
  q = Repr.squote \/ q = Repr.dquote -> one_line (Repr.escape q s).
Proof.
  intros Hq. induction s as [|c s IH]; [reflexivity|].
  cbn [Repr.escape]. apply one_line_append; [apply escape_char_one_line; exact Hq|exact IH].
Qed.

Lemma str_repr_one_line s : one_line (Repr.str_repr s).
Proof.
  unfold Repr.str_repr. pose proof (quote_for_cases s) as Hq.
  assert (Hnl : Ascii.eqb newline (Repr.quote_for s) = false)
    by (destruct Hq as [-> | ->]; reflexivity).
  apply one_line_cons; [exact Hnl|]. apply one_line_append.
  - apply escape_one_line; exact Hq.
  - apply one_line_cons; [exact Hnl|reflexivity].
Qed.

Lemma digit_char_not_newline base n :
  1 < base <= 16 -> Ascii.eqb newline (digit_char (n mod base)) = false.
Proof.
  intros Hb. pose proof (Z.mod_pos_bound n base ltac:(lia)) as Hr.
  assert (H : 0 <= n mod base < 16) by lia. each_digit H; reflexivity.
Qed.

Lemma digits_one_line base : 1 < base <= 16 -> forall fuel n acc,
  one_line acc -> one_line (digits base fuel n acc).
Proof.
  intros Hb. induction fuel as [|f IH]; intros n acc Hacc; [exact Hacc|].
  cbn [digits].
  assert (one_line (String (digit_char (n mod base)) acc))
    by (apply one_line_cons; [apply digit_char_not_newline; exact Hb|exact Hacc]).
  destruct (n / base =? 0); [assumption|]. apply IH. assumption.
Qed.

Lemma int_str_one_line n : one_line (int_str n).
Proof.
  unfold int_str, natural.
  destruct (n <? 0);
    [apply (one_line_cons "-"); [reflexivity|]|];
    apply digits_one_line; try lia; reflexivity.
Qed.

Lemma val_repr_one_line v : one_line (Repr.val_repr v).
Proof. destruct v; [apply str_repr_one_line|apply int_str_one_line]. Qed.

Lemma join_one_line sep parts :
  one_line sep -> Forall one_line parts -> one_line (Repr.join sep parts).
Proof.
  intros Hsep Hall. induction Hall as [|x l Hx Hl IH]; [reflexivity|].
  cbn [Repr.join]. destruct l as [|y l']; [exact Hx|].
  apply one_line_append; [exact Hx|]. apply one_line_append; [exact Hsep|exact IH].
Qed.

(** [repr] of a dictionary never breaks the line. *)
Lemma dict_repr_one_line d : one_line (Repr.dict_repr d).
Proof.
  unfold Repr.dict_repr. apply (one_line_cons "{"); [reflexivity|].
  apply one_line_append; [|reflexivity].
  apply join_one_line; [reflexivity|].
  apply Forall_forall. intros s Hs. apply in_map_iff in Hs. destruct Hs as ([k v] & <- & _).
  unfold Repr.item_repr. cbn [fst snd].
  apply one_line_append; [apply str_repr_one_line|].
  apply one_line_append; [reflexivity|apply val_repr_one_line].
Qed.

(** ** The driver loop *)

Lemma loaded_bind_globals w : loaded (bind_globals w).
Proof. repeat split. Qed.

Lemma loaded_after_generate w : loaded w -> loaded (after_generate w).
Proof. intros H. exact H. Qed.

Lemma clock_ok_after_generate w : clock_ok w -> clock_ok (after_generate w).
Proof. intros H. exact H. Qed.

Lemma loaded_emit e w : loaded w -> loaded (emit e w).
Proof. intros H. exact H. Qed.

Lemma clock_ok_emit e w : clock_ok w -> clock_ok (emit e w).
Proof. intros H. exact H. Qed.

Lemma clock_ok_today w : clock_ok w -> today_ok w.
Proof. intros H. apply H. Qed.

(** One turn of the loop, from line 60 back to line 60. *)
Lemma loop_turn r0 w :
  loaded w -> today_ok w ->
  exists r,
    generate_fake_review w = (Ok r, after_generate w)
    /\ generated w r
    /\ run 5 (mkconfig L60 r0 w)
       = Running (mkconfig L60 r (emit_all (block r) (after_generate w))).
Proof.
  intros Hl Hc. destruct (generate_fake_review_spec w Hl Hc) as (r & Hrun & Hgen).
  exists r. split; [exact Hrun|]. split; [exact Hgen|].
  cbn [run step at_line world review py_True]. rewrite Hrun. reflexivity.
Qed.

(** The loop has no way out: whatever the configuration, a step never ends
    the process normally. *)
Lemma step_never_exits c w : step c <> Exited w.
Proof.
  unfold step. destruct (at_line c); cbn [py_True continue_at print time_sleep];
    try discriminate.
  destruct (generate_fake_review (world c)) as [[r|e] w']; discriminate.
Qed.

Lemma step_healthy c :
  healthy c -> exists c', step c = Running c' /\ healthy c'.
Proof.
  intros [Hl Hc]. destruct c as [l r w]. cbn [world] in *. destruct l; cbn [step at_line world review].
  - eexists. split; [reflexivity|]. split; assumption.
  - destruct (generate_fake_review_spec w Hl (clock_ok_today w Hc)) as (r' & Hrun & _).
    rewrite Hrun. eexists. split; [reflexivity|]. split; assumption.
  - eexists. split; [reflexivity|]. split; assumption.
  - eexists. split; [reflexivity|]. split; assumption.
  - eexists. split; [reflexivity|]. split; assumption.
Qed.

(** The script keeps running, and stays in a state where calls succeed. *)
Lemma run_healthy n : forall c,
  healthy c -> exists c', run n c = Running c' /\ healthy c'.
Proof.
  induction n as [|n IH]; intros c Hc.
  - exists c. split; [reflexivity|exact Hc].
  - cbn [run]. destruct (step_healthy c Hc) as (c1 & Hstep & Hc1). rewrite Hstep.
    apply IH. exact Hc1.
Qed.

Lemma run_add a : forall b c c',
  run a c = Running c' -> run (a + b) c = run b c'.
Proof.
  induction a as [|a IH]; intros b c c' H.
  - cbn in H. injection H as ->. reflexivity.
  - cbn [run Nat.add] in *. destruct (step c) as [c1| |]; try discriminate.
    apply IH. exact H.
Qed.

(** After [k] turns the loop is at line 60 again, and the trace has grown
    by one block per turn. *)
Lemma run_turns k : forall r0 w,
  loaded w -> clock_ok w ->
  exists rs r w',
    run (5 * k) (mkconfig L60 r0 w) = Running (mkconfig L60 r w')
    /\ List.length rs = k
    /\ trace w' = (trace w ++ flat_map block rs)%list
    /\ loaded w' /\ clock_ok w'.
Proof.
  induction k as [|k IH]; intros r0 w Hl Hc.
  - exists [], r0, w. split; [reflexivity|]. split; [reflexivity|].
    split; [cbn; now rewrite app_nil_r|]. split; assumption.
  - destruct (loop_turn r0 w Hl (clock_ok_today w Hc)) as (r1 & _ & _ & Hturn).
    set (w1 := emit_all (block r1) (after_generate w)) in *.
    destruct (IH r1 w1 Hl Hc) as (rs & r & w' & Hrun & Hlen & Htr & Hl' & Hc').
    exists (r1 :: rs), r, w'.
    replace (5 * S k)%nat with (5 + 5 * k)%nat by lia.
    rewrite (run_add 5 (5 * k) _ _ Hturn). split; [exact Hrun|].
    split; [cbn; lia|]. split; [|split; assumption].
    rewrite Htr. cbn [flat_map]. unfold w1. cbn. rewrite <- !app_assoc. reflexivity.
Qed.

(** ** The footprint of a call *)

Lemma frame_refl w : frame w w.
Proof. repeat split. Qed.

Lemma frame_trans w1 w2 w3 : frame w1 w2 -> frame w2 w3 -> frame w1 w3.
Proof.
  unfold frame. intros (A1 & A2 & A3 & A4 & A5 & A6 & A7 & A8 & A9)
    (B1 & B2 & B3 & B4 & B5 & B6 & B7 & B8 & B9).
  repeat split; congruence.
Qed.

Lemma framed_ret {A} (a : A) : framed (ret a).
Proof. intros w. apply frame_refl. Qed.

Lemma framed_raise {A} e : framed (@raise A e).
Proof. intros w. apply frame_refl. Qed.

Lemma framed_bind {A B} (m : Py A) (k : A -> Py B) :
  framed m -> (forall a, framed (k a)) -> framed (bind m k).
Proof.
  intros Hm Hk w. unfold bind. specialize (Hm w).
  destruct (m w) as [[a|e] w1]; cbn [snd] in *; [|exact Hm].
  eapply frame_trans; [exact Hm|apply Hk].
Qed.

Lemma framed_global {A} (name : World -> A) : framed (global name).
Proof. intros w. apply frame_refl. Qed.

Lemma framed_with_random {A} (m : tape -> result A * tape) :
  (forall t, cells (snd (m t)) = cells t) -> framed (with_random m).
Proof.
  intros H w. unfold with_random. specialize (H (random_state w)).
  destruct (m (random_state w)) as [r t]. cbn [snd] in *. repeat split. exact H.
Qed.

Lemma framed_with_generator {A} (m : tape -> result A * tape) :
  (forall t, cells (snd (m t)) = cells t) -> framed (Faker.with_generator m).
Proof.
  intros H w. unfold Faker.with_generator. specialize (H (faker_state w)).
  destruct (m (faker_state w)) as [r t]. cbn [snd] in *. repeat split. exact H.
Qed.

Lemma choice_cells {A} (seq : list A) t : cells (snd (Random.choice seq t)) = cells t.
Proof.
  unfold Random.choice, Random._randbelow. destruct (_ =? 0); [reflexivity|].
  cbn [tape_next]. destruct (nth_error _ _); reflexivity.
Qed.

Lemma randint_cells a b t : cells (snd (Random.randint a b t)) = cells t.
Proof.
  unfold Random.randint, Random.randrange, Random._randbelow.
  destruct (0 <? _); reflexivity.
Qed.

Lemma framed_uuid4 : framed Uuid.uuid4.
Proof.
  unfold Uuid.uuid4. apply framed_bind.
  - intros w. unfold Os.urandom, Os.read_bytes. repeat split.
  - intros bs. unfold Uuid.UUID_of_bytes.
    repeat (match goal with |- framed (if ?c then _ else _) => destruct c end);
      first [apply framed_raise | apply framed_ret].
Qed.

Lemma framed_new y m d : framed (Datetime.new y m d).
Proof.
  unfold Datetime.new. destruct (Datetime._check_date_fields y m d) as [[[? ?] ?]|e];
    [apply framed_ret|apply framed_raise].
Qed.

Lemma framed_today : framed Datetime.today.
Proof.
  intros w. unfold Datetime.today.
  pose proof (framed_new (year (clock w (clock_reads w))) (month (clock w (clock_reads w)))
                (day (clock w (clock_reads w))) (set_clock_reads (S (clock_reads w)) w)) as H.
  eapply frame_trans; [|exact H]. repeat split.
Qed.

Lemma framed_date_between_dates s e : framed (Faker.date_between_dates s e).
Proof.
  unfold Faker.date_between_dates. apply framed_bind.
  - apply framed_with_generator. intros t. apply randint_cells.
  - intros ts. destruct (_ && _); [|apply framed_raise].
    unfold Datetime.fromordinal. destruct (negb _); [apply framed_raise|].
    destruct (Datetime._ord2ymd _) as [[y m] d].
    apply framed_new.
Qed.

Lemma framed_date_this_year b a : framed (Faker.date_this_year b a).
Proof.
  unfold Faker.date_this_year. apply framed_bind; [apply framed_today|]. intros today.
  apply framed_bind; [apply framed_new|]. intros s.
  apply framed_bind; [apply framed_new|]. intros n.
  repeat (match goal with |- framed (if ?c then _ else _) => destruct c end);
    first [apply framed_date_between_dates | apply framed_ret].
Qed.

Lemma framed_name : framed Faker.name.
Proof. intros w. repeat split. Qed.

(** Whatever the world, and whether the call returns or raises. *)
Lemma framed_generate_fake_review : framed generate_fake_review.
Proof.
  unfold generate_fake_review.
  repeat first
    [ apply framed_ret
    | apply framed_uuid4
    | apply framed_global
    | apply framed_with_random; intros ?; first [apply choice_cells|apply randint_cells]
    | apply framed_name
    | apply framed_date_this_year
    | apply framed_bind; [|intros ?] ].
Qed.

Lemma days_in_month_le_31 y m : 1 <= m <= 12 -> Datetime._days_in_month y m <= 31.
Proof.
  intros Hm. unfold Datetime._days_in_month. each_month Hm; eval_tables; eval_tests;
    destruct (Datetime._is_leap y); lia.
Qed.

Lemma generated_valid w r : today_ok w -> generated w r -> valid_review r.
Proof.
  intros Hok Hgen. apply date_okb_iff in Hok as (Hy & _ & _).
  destruct Hgen as [a t b d today Ha Ht Hb Hyear Hmonth Hday _ _ _].
  pose proof (days_in_month_le_31 (year d) (month d) Hmonth) as Hd31.
  do 7 eexists. exists d. split; [reflexivity|].
  split; [apply uuid4_str_matches; apply uuid_draw_range|].
  split; [eapply nth_error_In; exact Ha|].
  split; [pose proof (Z.mod_pos_bound (random_draw w 3) 5); lia|].
  split; [|split; eapply nth_error_In; eassumption].
  subst today. rewrite strftime_iso by lia. rewrite parse_iso_text by lia.
  destruct d; reflexivity.
Qed.

(** [n] calls return [n] records, each valid on its own. *)
Lemma calls_ok n : forall w,
  loaded w -> clock_ok w ->
  exists rs w',
    calls n w = (Ok rs, w')
    /\ List.length rs = n
    /\ Forall valid_review rs
    /\ loaded w' /\ clock_ok w'.
Proof.
  induction n as [|n IH]; intros w Hl Hc.
  - exists [], w. split; [reflexivity|]. split; [reflexivity|].
    split; [apply Forall_nil|]. split; assumption.
  - destruct (generate_fake_review_spec w Hl (clock_ok_today w Hc)) as (r & Hrun & Hgen).
    destruct (IH (after_generate w) Hl Hc) as (rs & w' & Hrs & Hlen & Hall & Hl' & Hc').
    exists (r :: rs), w'. cbn [calls].
    rewrite (bind_ok _ _ _ _ _ Hrun), (bind_ok _ _ _ _ _ Hrs).
    split; [reflexivity|]. split; [cbn; lia|]. split; [|split; assumption].
    constructor; [|exact Hall].
    exact (generated_valid w r (clock_ok_today w Hc) Hgen).
Qed.

(** ** The claims of the specification, C1 to C10 *)

Lemma demo_world_loaded : loaded demo_world.
Proof. apply loaded_bind_globals. Qed.

Lemma demo_world_clock_ok : clock_ok demo_world.
Proof. intros k. reflexivity. Qed.

Lemma demo_world_today_ok : today_ok demo_world.
Proof. reflexivity. Qed.

Lemma iso_text_length y m d : String.length (iso_text y m d) = 10%nat.
Proof. reflexivity. Qed.

(** C1, as stated, fails: the date is not drawn from the whole calendar
    year.  With 10 March 2025 on the clock, 31 December 2025 is a valid date
    of the current year, and yet no state of the random sources makes
    [generate_fake_review] return it: [date_this_year()] is called with its
    defaults, [before_today=True] and [after_today=False]. *)
Lemma december_31_is_never_drawn_in_march :
  parse_iso_date "2025-12-31" = Some (mkdate 2025 12 31)
  /\ forall w : World,
       loaded w -> clock w (clock_reads w) = mkdate 2025 3 10 ->
       exists r text,
         generate_fake_review w = (Ok r, after_generate w)
         /\ dict_get "date" r = Some (PyStr text)
         /\ text <> "2025-12-31".
Proof.
  split; [reflexivity|]. intros w Hl Hclock.
  assert (Hok : today_ok w) by (unfold today_ok; rewrite Hclock; reflexivity).
  destruct (generate_fake_review_spec w Hl Hok) as (r & Hrun & Hgen).
  destruct Hgen as [a t b d today Ha Ht Hb Hyear Hmonth Hday _ _ Hto].
  pose proof (days_in_month_le_31 (year d) (month d) Hmonth) as Hd31.
  subst today. rewrite Hclock in Hyear, Hto. cbn [year] in Hyear.
  eexists. exists (Datetime.strftime "%Y-%m-%d" d).
  split; [exact Hrun|]. split; [reflexivity|].
  rewrite strftime_iso by lia. intros Heq.
  apply (f_equal parse_iso_date) in Heq. rewrite parse_iso_text in Heq by lia.
  change (parse_iso_date "2025-12-31") with (Some (mkdate 2025 12 31)) in Heq.
  injection Heq as Ey Em Ed.
  unfold Datetime.le in Hto. rewrite Ey, Em, Ed in Hto.
  cbn [year month day] in Hto. discriminate Hto.
Qed.

(** C1, amended: for every record returned by [generate_fake_review], the
    [date] field is a date drawn from the days of the current calendar year
    elapsed so far, from 1 January up to and including the day of
    generation; it is formatted as [YYYY-MM-DD] (ten characters, written by
    [strftime("%Y-%m-%d")]), and it parses back as a valid calendar date
    whose year equals the current year at the moment of generation. *)
Theorem date_is_iso_text_of_current_year (w : World) :
  loaded w -> today_ok w ->
  exists r text d,
    generate_fake_review w = (Ok r, after_generate w)
    /\ dict_get "date" r = Some (PyStr text)
    /\ text = Datetime.strftime "%Y-%m-%d" d
    /\ String.length text = 10%nat
    /\ parse_iso_date text = Some d
    /\ year d = year (clock w (clock_reads w))
    /\ Datetime.le (mkdate (year (clock w (clock_reads w))) 1 1) d = true
    /\ Datetime.le d (clock w (clock_reads w)) = true.
Proof.
  intros Hl Hok. destruct (generate_fake_review_spec w Hl Hok) as (r & Hrun & Hgen).
  apply date_okb_iff in Hok as (Hy & _ & _).
  destruct Hgen as [a t b d today Ha Ht Hb Hyear Hmonth Hday _ Hfrom Hto].
  pose proof (days_in_month_le_31 (year d) (month d) Hmonth) as Hd31.
  eexists. exists (Datetime.strftime "%Y-%m-%d" d), d.
  split; [exact Hrun|]. split; [reflexivity|]. split; [reflexivity|].
  subst today. rewrite strftime_iso by lia.
  split; [apply iso_text_length|].
  split; [rewrite parse_iso_text by lia; destruct d; reflexivity|].
  split; [exact Hyear|]. split; [exact Hfrom|exact Hto].
Qed.

Lemma date_is_iso_text_of_current_year_witness :
  loaded demo_world /\ today_ok demo_world
  /\ exists r text d,
       generate_fake_review demo_world = (Ok r, after_generate demo_world)
       /\ dict_get "date" r = Some (PyStr text)
       /\ text = Datetime.strftime "%Y-%m-%d" d
       /\ String.length text = 10%nat
       /\ parse_iso_date text = Some d
       /\ year d = year (clock demo_world (clock_reads demo_world))
       /\ Datetime.le (mkdate (year (clock demo_world (clock_reads demo_world))) 1 1) d
          = true
       /\ Datetime.le d (clock demo_world (clock_reads demo_world)) = true.
Proof.
  split; [exact demo_world_loaded|]. split; [exact demo_world_today_ok|].
  exact (date_is_iso_text_of_current_year demo_world demo_world_loaded demo_world_today_ok).
Defined.

(** Every rating from 1 to 5 does occur: some state of the generator behind
    [random] yields it. *)
Lemma every_rating_occurs (w : World) (v : Z) :
  loaded w -> today_ok w -> 1 <= v <= 5 ->
  exists t r,
    generate_fake_review (set_random_state t w)
    = (Ok r, after_generate (set_random_state t w))
    /\ dict_get "rating" r = Some (PyInt v).
Proof.
  intros Hl Hok Hv.
  set (w' := set_random_state (mktape (fun _ => v - 1) 0) w).
  assert (Hl' : loaded w') by exact Hl.
  assert (Hok' : today_ok w') by exact Hok.
  destruct (generate_fake_review_spec w' Hl' Hok') as (r & Hrun & Hgen).
  exists (mktape (fun _ => v - 1) 0), r. split; [exact Hrun|].
  destruct Hgen. cbn [dict_get String.eqb Ascii.eqb Bool.eqb].
  unfold random_draw. cbn [w' set_random_state random_state cells].
  rewrite Z.mod_small by lia. do 2 f_equal. lia.
Qed.

(** C2: for every record returned by [generate_fake_review], the [rating]
    field is an integer of the inclusive range from 1 to 5, that is, one of
    1, 2, 3, 4, 5: it is [random.randint(1, 5)], one draw of the generator
    reduced into the range.  The whole range is used: each of the five
    values is returned for some state of the generator. *)
Theorem rating_between_1_and_5 (w : World) :
  loaded w -> today_ok w ->
  (exists r rating,
     generate_fake_review w = (Ok r, after_generate w)
     /\ dict_get "rating" r = Some (PyInt rating)
     /\ rating = 1 + random_draw w 3 mod 5
     /\ In rating [1; 2; 3; 4; 5])
  /\ (forall v, In v [1; 2; 3; 4; 5] ->
      exists t r,
        generate_fake_review (set_random_state t w)
        = (Ok r, after_generate (set_random_state t w))
        /\ dict_get "rating" r = Some (PyInt v)).
Proof.
  intros Hl Hok. split.
  - destruct (generate_fake_review_spec w Hl Hok) as (r & Hrun & Hgen).
    destruct Hgen. eexists _, _. split; [exact Hrun|]. split; [reflexivity|].
    split; [reflexivity|].
    pose proof (Z.mod_pos_bound (random_draw w 3) 5 ltac:(lia)) as Hr.
    set (x := random_draw w 3 mod 5) in *.
    assert (C : x = 0 \/ x = 1 \/ x = 2 \/ x = 3 \/ x = 4) by lia.
    cbn [In]. lia.
  - intros v Hv. apply every_rating_occurs; [exact Hl|exact Hok|].
    cbn [In] in Hv. lia.
Qed.

Lemma rating_between_1_and_5_witness :
  loaded demo_world /\ today_ok demo_world
  /\ (exists r rating,
        generate_fake_review demo_world = (Ok r, after_generate demo_world)
        /\ dict_get "rating" r = Some (PyInt rating)
        /\ rating = 1 + random_draw demo_world 3 mod 5
        /\ In rating [1; 2; 3; 4; 5])
  /\ (forall v, In v [1; 2; 3; 4; 5] ->
      exists t r,
        generate_fake_review (set_random_state t demo_world)
        = (Ok r, after_generate (set_random_state t demo_world))
        /\ dict_get "rating" r = Some (PyInt v)).
Proof.
  split; [exact demo_world_loaded|]. split; [exact demo_world_today_ok|].
  exact (rating_between_1_and_5 demo_world demo_world_loaded demo_world_today_ok).
Defined.

(** C3: for every record returned by [generate_fake_review], the [airline]
    field is a member of the fixed list [airlines], which has 12 elements,
    the [title] field is a member of the fixed list [sample_titles], and the
    [body] field is a member of the fixed list [sample_bodies]. *)
Theorem airline_title_body_from_pools (w : World) :
  loaded w -> today_ok w ->
  exists r airline title body,
    generate_fake_review w = (Ok r, after_generate w)
    /\ dict_get "airline" r = Some (PyStr airline)
    /\ dict_get "title" r = Some (PyStr title)
    /\ dict_get "body" r = Some (PyStr body)
    /\ In airline (airlines w) /\ airlines w = airlines_literal
    /\ List.length airlines_literal = 12%nat
    /\ In title (sample_titles w) /\ sample_titles w = sample_titles_literal
    /\ In body (sample_bodies w) /\ sample_bodies w = sample_bodies_literal.
Proof.
  intros Hl Hok. destruct (generate_fake_review_spec w Hl Hok) as (r & Hrun & Hgen).
  destruct Hl as (Ha & Ht & Hb).
  destruct Hgen as [a t b d today Hna Hnt Hnb _ _ _ _ _ _].
  eexists. exists a, t, b. rewrite Ha, Ht, Hb.
  split; [exact Hrun|]. do 3 (split; [reflexivity|]).
  split; [eapply nth_error_In; exact Hna|]. do 2 (split; [reflexivity|]).
  split; [eapply nth_error_In; exact Hnt|]. split; [reflexivity|].
  split; [eapply nth_error_In; exact Hnb|reflexivity].
Qed.

Lemma airline_title_body_from_pools_witness :
  loaded demo_world /\ today_ok demo_world
  /\ exists r airline title body,
       generate_fake_review demo_world = (Ok r, after_generate demo_world)
       /\ dict_get "airline" r = Some (PyStr airline)
       /\ dict_get "title" r = Some (PyStr title)
       /\ dict_get "body" r = Some (PyStr body)
       /\ In airline (airlines demo_world) /\ airlines demo_world = airlines_literal
       /\ List.length airlines_literal = 12%nat
       /\ In title (sample_titles demo_world)
       /\ sample_titles demo_world = sample_titles_literal
       /\ In body (sample_bodies demo_world)
       /\ sample_bodies demo_world = sample_bodies_literal.
Proof.
  split; [exact demo_world_loaded|]. split; [exact demo_world_today_ok|].
  exact (airline_title_body_from_pools demo_world demo_world_loaded demo_world_today_ok).
Defined.

(** C4, as stated, fails: two calls whose underlying random draws differ can
    return the same [review_id].  In [collision_world] the first call draws
    sixteen zero bytes and the second draws sixteen bytes that differ from
    them in bit 78 only; [uuid4] overwrites that bit with the version, and
    both calls return [00000000-0000-4000-8000-000000000000]. *)
Lemma same_review_id_from_different_draws :
  exists r1 r2 id,
    generate_fake_review collision_world = (Ok r1, after_generate collision_world)
    /\ generate_fake_review (after_generate collision_world)
       = (Ok r2, after_generate (after_generate collision_world))
    /\ uuid_draw collision_world <> uuid_draw (after_generate collision_world)
    /\ dict_get "review_id" r1 = Some (PyStr id)
    /\ dict_get "review_id" r2 = Some (PyStr id).
Proof.
  assert (Hl : loaded collision_world) by apply loaded_bind_globals.
  assert (Hok : today_ok collision_world) by reflexivity.
  destruct (generate_fake_review_spec collision_world Hl Hok) as (r1 & Hrun1 & Hgen1).
  destruct (generate_fake_review_spec (after_generate collision_world) Hl Hok)
    as (r2 & Hrun2 & Hgen2).
  assert (D1 : uuid_draw collision_world = 0) by (vm_compute; reflexivity).
  assert (D2 : uuid_draw (after_generate collision_world) = 2 ^ 78)
    by (vm_compute; reflexivity).
  exists r1, r2, "00000000-0000-4000-8000-000000000000".
  split; [exact Hrun1|]. split; [exact Hrun2|].
  split; [rewrite D1, D2; discriminate|].
  destruct Hgen1, Hgen2. rewrite D1, D2. split; vm_compute; reflexivity.
Qed.

(** C4, amended: for every record returned by [generate_fake_review],
    [review_id] is a version-4 UUID in the standard textual form
    [xxxxxxxx-xxxx-4xxx-yxxx-xxxxxxxxxxxx] (lower-case hexadecimal digits,
    [y] one of 8, 9, a, b): 122 bits of a fresh 128-bit random draw, the
    other six being fixed to the version and the variant.  The [review_id]
    values of two calls are distinct exactly when the underlying draws
    differ in one of the 122 bits that are kept. *)
Theorem review_ids_differ_iff_kept_bits_differ (w1 w2 : World) :
  loaded w1 -> today_ok w1 -> loaded w2 -> today_ok w2 ->
  exists r1 r2 id1 id2,
    generate_fake_review w1 = (Ok r1, after_generate w1)
    /\ generate_fake_review w2 = (Ok r2, after_generate w2)
    /\ dict_get "review_id" r1 = Some (PyStr id1)
    /\ dict_get "review_id" r2 = Some (PyStr id2)
    /\ matches UUID4_PATTERN id1 = true
    /\ uuid_value id1 = Some (Z.lor (Z.land (uuid_draw w1) KEPT_BITS) FIXED_BITS)
    /\ (id1 = id2 <-> Z.land (uuid_draw w1) KEPT_BITS = Z.land (uuid_draw w2) KEPT_BITS).
Proof.
  intros Hl1 Hok1 Hl2 Hok2.
  destruct (generate_fake_review_spec w1 Hl1 Hok1) as (r1 & Hrun1 & Hgen1).
  destruct (generate_fake_review_spec w2 Hl2 Hok2) as (r2 & Hrun2 & Hgen2).
  pose proof (uuid_draw_range w1) as Hd1. pose proof (uuid_draw_range w2) as Hd2.
  pose proof (set_bits_range _ Hd1) as Hi1. pose proof (set_bits_range _ Hd2) as Hi2.
  destruct Hgen1, Hgen2. eexists _, _, _, _.
  split; [exact Hrun1|]. split; [exact Hrun2|]. do 2 (split; [reflexivity|]).
  split; [apply uuid4_str_matches; exact Hd1|].
  split; [rewrite uuid_value_str by exact Hi1; now rewrite set_bits_form|].
  rewrite <- set_bits_inj by assumption. split.
  - apply uuid_str_inj; assumption.
  - intros ->. reflexivity.
Qed.

Lemma review_ids_differ_iff_kept_bits_differ_witness :
  loaded demo_world /\ today_ok demo_world
  /\ loaded collision_world /\ today_ok collision_world
  /\ exists r1 r2 id1 id2,
       generate_fake_review demo_world = (Ok r1, after_generate demo_world)
       /\ generate_fake_review collision_world = (Ok r2, after_generate collision_world)
       /\ dict_get "review_id" r1 = Some (PyStr id1)
       /\ dict_get "review_id" r2 = Some (PyStr id2)
       /\ matches UUID4_PATTERN id1 = true
       /\ uuid_value id1
          = Some (Z.lor (Z.land (uuid_draw demo_world) KEPT_BITS) FIXED_BITS)
       /\ (id1 = id2
           <-> Z.land (uuid_draw demo_world) KEPT_BITS
               = Z.land (uuid_draw collision_world) KEPT_BITS).
Proof.
  split; [exact demo_world_loaded|]. split; [exact demo_world_today_ok|].
  split; [apply loaded_bind_globals|]. split; [reflexivity|].
  exact (review_ids_differ_iff_kept_bits_differ demo_world collision_world
           demo_world_loaded demo_world_today_ok
           (loaded_bind_globals _) (eq_refl : today_ok collision_world)).
Defined.

(** With an empty pool the call does raise: the error branch is real. *)
Lemma empty_pool_raises w :
  airlines w = [] ->
  generate_fake_review w = (Raise IndexError, after_uuid4 w).
Proof.
  intros H. unfold generate_fake_review. rewrite (bind_ok _ _ _ _ _ (uuid4_spec w)).
  assert (G : global airlines (after_uuid4 w) = (Ok [], after_uuid4 w))
    by (unfold global; cbn; now rewrite H).
  rewrite (bind_ok _ _ _ _ _ G). reflexivity.
Qed.

(** C5: [generate_fake_review] takes no inputs and always succeeds: in
    every state of the random sources it returns a review record, the
    seven fields with valid values, and it raises nothing and reaches no
    error branch.  It does so because the three fixed pools are non-empty:
    whatever the pools hold, the call returns exactly when none of them is
    empty, and with an empty pool it raises [IndexError].  (The state is
    one the script can be in: the pools hold their literals, and the clock
    shows a date that [date_this_year] and [strftime] handle.) *)
Theorem generate_fake_review_always_succeeds (w : World) :
  loaded w -> today_ok w ->
  (exists r, generate_fake_review w = (Ok r, after_generate w) /\ valid_review r)
  /\ (forall e w', generate_fake_review w <> (Raise e, w'))
  /\ airlines w <> [] /\ sample_titles w <> [] /\ sample_bodies w <> []
  /\ (forall v : World,
        today_ok v ->
        ((exists r v', generate_fake_review v = (Ok r, v')) <-> pools_nonempty v))
  /\ (forall v : World,
        airlines v = [] \/ sample_titles v = [] \/ sample_bodies v = [] ->
        exists v', generate_fake_review v = (Raise IndexError, v')).
Proof.
  intros Hl Hok.
  destruct (generate_fake_review_spec w Hl Hok) as (r & Hrun & Hgen).
  split; [exists r; split; [exact Hrun|exact (generated_valid w r Hok Hgen)]|].
  split; [intros e w' H; rewrite Hrun in H; discriminate H|].
  split; [|split; [|split]].
  - destruct Hl as (-> & _). discriminate.
  - destruct Hl as (_ & -> & _). discriminate.
  - destruct Hl as (_ & _ & ->). discriminate.
  - split; [exact call_returns_iff|exact call_raises_on_an_empty_pool].
Qed.

Lemma generate_fake_review_always_succeeds_witness :
  loaded demo_world /\ today_ok demo_world
  /\ (exists r,
        generate_fake_review demo_world = (Ok r, after_generate demo_world)
        /\ valid_review r)
  /\ (forall e w', generate_fake_review demo_world <> (Raise e, w'))
  /\ airlines demo_world <> [] /\ sample_titles demo_world <> []
  /\ sample_bodies demo_world <> []
  /\ (forall v : World,
        today_ok v ->
        ((exists r v', generate_fake_review v = (Ok r, v')) <-> pools_nonempty v))
  /\ (forall v : World,
        airlines v = [] \/ sample_titles v = [] \/ sample_bodies v = [] ->
        exists v', generate_fake_review v = (Raise IndexError, v')).
Proof.
  split; [exact demo_world_loaded|]. split; [exact demo_world_today_ok|].
  exact (generate_fake_review_always_succeeds demo_world
           demo_world_loaded demo_world_today_ok).
Defined.

(** C6: every record returned by [generate_fake_review] has exactly the
    seven fields [review_id], [airline], [reviewer], [rating], [date],
    [title], [body], in this order and each once, and each is populated:
    samples of the pools for [airline], [title] and [body], the full name
    Faker makes up for [reviewer], an integer from 1 to 5 for [rating], a
    date of the current year for [date], and a fresh version-4 UUID for
    [review_id]. *)
Theorem review_has_seven_populated_fields (w : World) :
  loaded w -> today_ok w ->
  exists r review_id airline reviewer rating date_ title body d,
    generate_fake_review w = (Ok r, after_generate w)
    /\ r = [ ("review_id", PyStr review_id); ("airline", PyStr airline);
             ("reviewer", PyStr reviewer); ("rating", PyInt rating);
             ("date", PyStr date_); ("title", PyStr title); ("body", PyStr body) ]
    /\ map fst r = FIELDS /\ NoDup (map fst r)
    /\ In airline (airlines w) /\ In title (sample_titles w) /\ In body (sample_bodies w)
    /\ fst (Faker.name w) = Ok reviewer
    /\ 1 <= rating <= 5
    /\ parse_iso_date date_ = Some d /\ year d = year (clock w (clock_reads w))
    /\ matches UUID4_PATTERN review_id = true.
Proof.
  intros Hl Hok. destruct (generate_fake_review_spec w Hl Hok) as (r & Hrun & Hgen).
  destruct Hl as (La & Lt & Lb). rewrite La, Lt, Lb.
  apply date_okb_iff in Hok as (Hy & _ & _).
  destruct Hgen as [a t b d today Ha Ht Hb Hyear Hmonth Hday _ _ _].
  pose proof (days_in_month_le_31 (year d) (month d) Hmonth) as Hd31.
  eexists. eexists. exists a. eexists. eexists. eexists. exists t, b, d.
  split; [exact Hrun|]. split; [reflexivity|]. split; [reflexivity|].
  split; [cbn [map fst]; repeat constructor; cbn [In]; intuition discriminate|].
  split; [eapply nth_error_In; exact Ha|].
  split; [eapply nth_error_In; exact Ht|].
  split; [eapply nth_error_In; exact Hb|].
  split; [reflexivity|].
  split; [pose proof (Z.mod_pos_bound (random_draw w 3) 5); lia|].
  split; [|split; [exact Hyear|apply uuid4_str_matches; apply uuid_draw_range]].
  subst today. rewrite strftime_iso, parse_iso_text by lia. destruct d; reflexivity.
Qed.

Lemma review_has_seven_populated_fields_witness :
  loaded demo_world /\ today_ok demo_world
  /\ exists r review_id airline reviewer rating date_ title body d,
       generate_fake_review demo_world = (Ok r, after_generate demo_world)
       /\ r = [ ("review_id", PyStr review_id); ("airline", PyStr airline);
                ("reviewer", PyStr reviewer); ("rating", PyInt rating);
                ("date", PyStr date_); ("title", PyStr title); ("body", PyStr body) ]
       /\ map fst r = FIELDS /\ NoDup (map fst r)
       /\ In airline (airlines demo_world) /\ In title (sample_titles demo_world)
       /\ In body (sample_bodies demo_world)
       /\ fst (Faker.name demo_world) = Ok reviewer
       /\ 1 <= rating <= 5
       /\ parse_iso_date date_ = Some d
       /\ year d = year (clock demo_world (clock_reads demo_world))
       /\ matches UUID4_PATTERN review_id = true.
Proof.
  split; [exact demo_world_loaded|]. split; [exact demo_world_today_ok|].
  exact (review_has_seven_populated_fields demo_world
           demo_world_loaded demo_world_today_ok).
Defined.

(** The five steps of one turn of the loop, one by one. *)
Lemma loop_turn_steps r0 w :
  loaded w -> today_ok w ->
  exists r,
    generate_fake_review w = (Ok r, after_generate w)
    /\ run 1 (mkconfig L60 r0 w) = Running (mkconfig L61 r0 w)
    /\ run 2 (mkconfig L60 r0 w) = Running (mkconfig L62 r (after_generate w))
    /\ run 3 (mkconfig L60 r0 w)
       = Running (mkconfig L63 r (emit (EvWrite header_text) (after_generate w)))
    /\ run 4 (mkconfig L60 r0 w)
       = Running (mkconfig L64 r
                   (emit (EvWrite (review_text r))
                      (emit (EvWrite header_text) (after_generate w))))
    /\ run 5 (mkconfig L60 r0 w)
       = Running (mkconfig L60 r
                   (emit (EvSleep 5)
                      (emit (EvWrite (review_text r))
                         (emit (EvWrite header_text) (after_generate w))))).
Proof.
  intros Hl Hc. destruct (generate_fake_review_spec w Hl Hc) as (r & Hrun & _).
  exists r. split; [exact Hrun|].
  split; [reflexivity|].
  repeat split; cbn [run step at_line world review py_True]; rewrite Hrun; reflexivity.
Qed.

(** C7: the driver loop never terminates on its own.  The script is
    running after any number of steps, no step exits (the loop has no exit
    condition), and every turn of the loop does the same things in the
    same order: it calls [generate_fake_review], which writes nothing;
    it writes the header and then the rendering of the record to standard
    output; and it suspends for the fixed interval of 5 seconds before it
    is back at the loop test.  What has been written and slept is read off
    the trace: after line 62 it has grown by the header, after line 63 by
    the header and the record line, after line 64 by these two and a sleep
    of 5 seconds. *)
Theorem driver_loop_never_terminates (w0 : World) :
  clock_ok w0 ->
  (forall n, exists c, run n (script w0) = Running c)
  /\ (forall c w, step c <> Exited w)
  /\ (forall k, exists r0 w r,
        run (5 * k) (script w0) = Running (mkconfig L60 r0 w)
        /\ generate_fake_review w = (Ok r, after_generate w)
        /\ run (5 * k + 1) (script w0) = Running (mkconfig L61 r0 w)
        /\ run (5 * k + 2) (script w0) = Running (mkconfig L62 r (after_generate w))
        /\ trace (after_generate w) = trace w
        /\ run (5 * k + 3) (script w0)
           = Running (mkconfig L63 r (emit (EvWrite header_text) (after_generate w)))
        /\ trace (emit (EvWrite header_text) (after_generate w))
           = (trace w ++ [EvWrite header_text])%list
        /\ run (5 * k + 4) (script w0)
           = Running (mkconfig L64 r
                       (emit (EvWrite (review_text r))
                          (emit (EvWrite header_text) (after_generate w))))
        /\ trace (emit (EvWrite (review_text r))
                    (emit (EvWrite header_text) (after_generate w)))
           = (trace w ++ [EvWrite header_text; EvWrite (review_text r)])%list
        /\ run (5 * k + 5) (script w0)
           = Running (mkconfig L60 r
                       (emit (EvSleep 5)
                          (emit (EvWrite (review_text r))
                             (emit (EvWrite header_text) (after_generate w)))))
        /\ trace (emit (EvSleep 5)
                    (emit (EvWrite (review_text r))
                       (emit (EvWrite header_text) (after_generate w))))
           = (trace w
              ++ [EvWrite header_text; EvWrite (review_text r); EvSleep 5])%list
        /\ header_text
           = String newline " New Review Generated:" ++ String newline ""
        /\ review_text r
           = " Review ID: " ++ Repr.dict_repr r ++ String newline "").
Proof.
  intros Hc.
  assert (H0 : healthy (script w0)) by (split; [apply loaded_bind_globals|exact Hc]).
  split; [|split].
  - intros n. destruct (run_healthy n _ H0) as (c & Hrun & _). exists c. exact Hrun.
  - apply step_never_exits.
  - intros k.
    destruct (run_turns k [] (bind_globals w0) (loaded_bind_globals w0) Hc)
      as (rs & r0 & w & Hrun & _ & _ & Hl & Hcw).
    destruct (loop_turn_steps r0 w Hl (clock_ok_today w Hcw))
      as (r & Hgen & S1 & S2 & S3 & S4 & S5).
    exists r0, w, r. unfold script.
    rewrite !(run_add (5 * k) _ _ _ Hrun).
    split; [exact Hrun|]. split; [exact Hgen|]. split; [exact S1|].
    split; [exact S2|]. split; [reflexivity|]. split; [exact S3|].
    split; [reflexivity|]. split; [exact S4|].
    split; [cbn [emit trace after_generate]; rewrite <- app_assoc; reflexivity|].
    split; [exact S5|].
    split; [cbn [emit trace after_generate]; rewrite <- !app_assoc; reflexivity|].
    split; reflexivity.
Qed.

Lemma driver_loop_never_terminates_witness :
  clock_ok demo_world
  /\ (forall n, exists c, run n (script demo_world) = Running c)
  /\ (forall c w, step c <> Exited w)
  /\ (forall k, exists r0 w r,
        run (5 * k) (script demo_world) = Running (mkconfig L60 r0 w)
        /\ generate_fake_review w = (Ok r, after_generate w)
        /\ run (5 * k + 1) (script demo_world) = Running (mkconfig L61 r0 w)
        /\ run (5 * k + 2) (script demo_world) = Running (mkconfig L62 r (after_generate w))
        /\ trace (after_generate w) = trace w
        /\ run (5 * k + 3) (script demo_world)
           = Running (mkconfig L63 r (emit (EvWrite header_text) (after_generate w)))
        /\ trace (emit (EvWrite header_text) (after_generate w))
           = (trace w ++ [EvWrite header_text])%list
        /\ run (5 * k + 4) (script demo_world)
           = Running (mkconfig L64 r
                       (emit (EvWrite (review_text r))
                          (emit (EvWrite header_text) (after_generate w))))
        /\ trace (emit (EvWrite (review_text r))
                    (emit (EvWrite header_text) (after_generate w)))
           = (trace w ++ [EvWrite header_text; EvWrite (review_text r)])%list
        /\ run (5 * k + 5) (script demo_world)
           = Running (mkconfig L60 r
                       (emit (EvSleep 5)
                          (emit (EvWrite (review_text r))
                             (emit (EvWrite header_text) (after_generate w)))))
        /\ trace (emit (EvSleep 5)
                    (emit (EvWrite (review_text r))
                       (emit (EvWrite header_text) (after_generate w))))
           = (trace w
              ++ [EvWrite header_text; EvWrite (review_text r); EvSleep 5])%list
        /\ header_text
           = String newline " New Review Generated:" ++ String newline ""
        /\ review_text r
           = " Review ID: " ++ Repr.dict_repr r ++ String newline "").
Proof.
  split; [exact demo_world_clock_ok|].
  exact (driver_loop_never_terminates demo_world demo_world_clock_ok).
Defined.

Lemma framed_calls n : framed (calls n).
Proof.
  induction n as [|n IH]; cbn [calls]; [apply framed_ret|].
  apply framed_bind; [apply framed_generate_fake_review|]. intros r.
  apply framed_bind; [exact IH|]. intros rs. apply framed_ret.
Qed.

(** C8: [generate_fake_review] has no side effect on the state of the
    program other than consuming randomness (of [random], of [os.urandom]
    behind the identifiers, of Faker's generator) and reading the clock: the
    pools [airlines], [sample_titles] and [sample_bodies] and the output
    written so far are unchanged by every call, whatever its outcome.
    Calling it [n] times in a row yields [n] records, each valid on its own;
    no call leaves anything behind that the next one depends on. *)
Theorem calls_change_no_program_state (n : nat) (w : World) :
  loaded w -> clock_ok w ->
  exists rs w',
    calls n w = (Ok rs, w')
    /\ List.length rs = n
    /\ Forall valid_review rs
    /\ frame w w'
    /\ (forall w0, frame w0 (snd (generate_fake_review w0))).
Proof.
  intros Hl Hc. destruct (calls_ok n w Hl Hc) as (rs & w' & Hrun & Hlen & Hall & _ & _).
  exists rs, w'. split; [exact Hrun|]. split; [exact Hlen|]. split; [exact Hall|].
  split; [|exact framed_generate_fake_review].
  pose proof (framed_calls n w) as H. rewrite Hrun in H. exact H.
Qed.

Lemma calls_change_no_program_state_witness :
  loaded demo_world /\ clock_ok demo_world
  /\ exists rs w',
       calls 3 demo_world = (Ok rs, w')
       /\ List.length rs = 3%nat
       /\ Forall valid_review rs
       /\ frame demo_world w'
       /\ (forall w0, frame w0 (snd (generate_fake_review w0))).
Proof.
  split; [exact demo_world_loaded|]. split; [exact demo_world_clock_ok|].
  exact (calls_change_no_program_state 3 demo_world demo_world_loaded demo_world_clock_ok).
Defined.

Lemma append_nil_r (s : string) : s ++ "" = s.
Proof. induction s as [|c s IH]; cbn; congruence. Qed.

Lemma append_assoc (a b c : string) : (a ++ b) ++ c = a ++ (b ++ c).
Proof. induction a as [|x a IH]; cbn; congruence. Qed.

(** The rendering of a record with the seven fields. *)
Lemma dict_repr_review review_id airline reviewer rating date_ title body :
  Repr.dict_repr
    [ ("review_id", PyStr review_id); ("airline", PyStr airline);
      ("reviewer", PyStr reviewer); ("rating", PyInt rating);
      ("date", PyStr date_); ("title", PyStr title); ("body", PyStr body) ]
  = "{'review_id': " ++ Repr.str_repr review_id
    ++ ", 'airline': " ++ Repr.str_repr airline
    ++ ", 'reviewer': " ++ Repr.str_repr reviewer
    ++ ", 'rating': " ++ int_str rating
    ++ ", 'date': " ++ Repr.str_repr date_
    ++ ", 'title': " ++ Repr.str_repr title
    ++ ", 'body': " ++ Repr.str_repr body ++ "}".
Proof.
  unfold Repr.dict_repr, Repr.item_repr. cbn [map Repr.join fst snd Repr.val_repr].
  change (Repr.str_repr "review_id") with "'review_id'".
  change (Repr.str_repr "airline") with "'airline'".
  change (Repr.str_repr "reviewer") with "'reviewer'".
  change (Repr.str_repr "rating") with "'rating'".
  change (Repr.str_repr "date") with "'date'".
  change (Repr.str_repr "title") with "'title'".
  change (Repr.str_repr "body") with "'body'".
  rewrite !append_assoc. reflexivity.
Qed.

(** C9: each turn of the driver loop emits exactly one block on standard
    output: the literal header [ New Review Generated:] (which [print]
    precedes by an empty line), followed by a single line that renders the
    whole record as a dictionary, all seven keys with their values.  That
    second line starts with the label [ Review ID:] although it prints the
    full record, not the identifier alone. *)
Theorem each_turn_writes_header_then_record (w0 : World) (k : nat) :
  clock_ok w0 ->
  exists r0 w r w',
    run (5 * k) (script w0) = Running (mkconfig L60 r0 w)
    /\ generate_fake_review w = (Ok r, after_generate w)
    /\ run (5 * k + 5) (script w0) = Running (mkconfig L60 r w')
    /\ trace w'
       = (trace w
          ++ [ EvWrite (String newline " New Review Generated:" ++ String newline "");
               EvWrite ((" Review ID: " ++ Repr.dict_repr r) ++ String newline "");
               EvSleep 5 ])%list
    /\ one_line (" Review ID: " ++ Repr.dict_repr r)
    /\ exists review_id airline reviewer rating date_ title body,
         r = [ ("review_id", PyStr review_id); ("airline", PyStr airline);
               ("reviewer", PyStr reviewer); ("rating", PyInt rating);
               ("date", PyStr date_); ("title", PyStr title); ("body", PyStr body) ]
         /\ Repr.dict_repr r
            = "{'review_id': " ++ Repr.str_repr review_id
              ++ ", 'airline': " ++ Repr.str_repr airline
              ++ ", 'reviewer': " ++ Repr.str_repr reviewer
              ++ ", 'rating': " ++ int_str rating
              ++ ", 'date': " ++ Repr.str_repr date_
              ++ ", 'title': " ++ Repr.str_repr title
              ++ ", 'body': " ++ Repr.str_repr body ++ "}".
Proof.
  intros Hc.
  destruct (run_turns k [] (bind_globals w0) (loaded_bind_globals w0) Hc)
    as (rs & r0 & w & Hrun & _ & _ & Hl & Hcw).
  destruct (loop_turn r0 w Hl (clock_ok_today w Hcw)) as (r & Hgen & Hg & Hturn).
  exists r0, w, r, (emit_all (block r) (after_generate w)).
  split; [exact Hrun|]. split; [exact Hgen|].
  split; [unfold script; rewrite (run_add (5 * k) _ _ _ Hrun); exact Hturn|].
  split; [unfold review_text; cbn; rewrite <- !app_assoc, append_assoc; reflexivity|].
  split; [apply (one_line_append " Review ID: "); [reflexivity|apply dict_repr_one_line]|].
  destruct Hg. do 7 eexists. split; [reflexivity|]. apply dict_repr_review.
Qed.

Lemma each_turn_writes_header_then_record_witness :
  clock_ok demo_world
  /\ exists r0 w r w',
       run (5 * 2) (script demo_world) = Running (mkconfig L60 r0 w)
       /\ generate_fake_review w = (Ok r, after_generate w)
       /\ run (5 * 2 + 5) (script demo_world) = Running (mkconfig L60 r w')
       /\ trace w'
          = (trace w
             ++ [ EvWrite (String newline " New Review Generated:" ++ String newline "");
                  EvWrite ((" Review ID: " ++ Repr.dict_repr r) ++ String newline "");
                  EvSleep 5 ])%list
       /\ one_line (" Review ID: " ++ Repr.dict_repr r)
       /\ exists review_id airline reviewer rating date_ title body,
            r = [ ("review_id", PyStr review_id); ("airline", PyStr airline);
                  ("reviewer", PyStr reviewer); ("rating", PyInt rating);
                  ("date", PyStr date_); ("title", PyStr title); ("body", PyStr body) ]
            /\ Repr.dict_repr r
               = "{'review_id': " ++ Repr.str_repr review_id
                 ++ ", 'airline': " ++ Repr.str_repr airline
                 ++ ", 'reviewer': " ++ Repr.str_repr reviewer
                 ++ ", 'rating': " ++ int_str rating
                 ++ ", 'date': " ++ Repr.str_repr date_
                 ++ ", 'title': " ++ Repr.str_repr title
                 ++ ", 'body': " ++ Repr.str_repr body ++ "}".
Proof.
  split; [exact demo_world_clock_ok|].
  exact (each_turn_writes_header_then_record demo_world 2 demo_world_clock_ok).
Defined.

(** Every day from the first to the last of the range can be drawn. *)
Lemma every_elapsed_day_occurs (start_ end_ : date) (o : Z) :
  Datetime.toordinal start_ <= o <= Datetime.toordinal end_ ->
  exists c, picked_ordinal start_ end_ c = o.
Proof.
  intros Ho. exists ((o - Datetime.toordinal start_) * 86400).
  unfold picked_ordinal. rewrite Z.mod_small by nia. rewrite Z.div_mul by lia. lia.
Qed.

(** C10: for every record returned by [generate_fake_review], the [date]
    field is never in the future: it lies between 1 January of the current
    year and the day of generation, both included.  [faker.date_this_year()]
    samples from the part of the year elapsed so far, not from the whole
    calendar year: the day number of the date is that of 1 January plus the
    whole days in a number of seconds drawn between the two midnights, and
    every day of that range, the two ends too, is the outcome of some draw. *)
Theorem date_between_january_first_and_today (w : World) :
  loaded w -> today_ok w ->
  exists r text d,
    generate_fake_review w = (Ok r, after_generate w)
    /\ dict_get "date" r = Some (PyStr text)
    /\ parse_iso_date text = Some d
    /\ Datetime.le (mkdate (year (clock w (clock_reads w))) 1 1) d = true
    /\ Datetime.le d (clock w (clock_reads w)) = true
    /\ Datetime.toordinal d
       = picked_ordinal (mkdate (year (clock w (clock_reads w))) 1 1)
                        (clock w (clock_reads w)) (faker_draw w 1)
    /\ Datetime.toordinal (mkdate (year (clock w (clock_reads w))) 1 1)
       <= Datetime.toordinal d <= Datetime.toordinal (clock w (clock_reads w))
    /\ (forall o,
          Datetime.toordinal (mkdate (year (clock w (clock_reads w))) 1 1) <= o
          <= Datetime.toordinal (clock w (clock_reads w)) ->
          exists c,
            picked_ordinal (mkdate (year (clock w (clock_reads w))) 1 1)
                           (clock w (clock_reads w)) c = o).
Proof.
  intros Hl Hok. destruct (generate_fake_review_spec w Hl Hok) as (r & Hrun & Hgen).
  apply date_okb_iff in Hok as (Hy & Hm & Hd).
  destruct Hgen as [a t b d today Ha Ht Hb Hyear Hmonth Hday Hord Hfrom Hto].
  pose proof (days_in_month_le_31 (year d) (month d) Hmonth) as Hd31.
  eexists. exists (Datetime.strftime "%Y-%m-%d" d), d.
  split; [exact Hrun|]. split; [reflexivity|]. subst today.
  split; [rewrite strftime_iso, parse_iso_text by lia; destruct d; reflexivity|].
  split; [exact Hfrom|]. split; [exact Hto|]. split; [exact Hord|].
  split; [|intros o Ho; apply every_elapsed_day_occurs; exact Ho].
  rewrite Hord. apply picked_ordinal_range.
  unfold Datetime.toordinal. cbn [year month day].
  pose proof (ymd2ord_bounds _ _ _ Hm Hd). rewrite ymd2ord_jan1. lia.
Qed.

Lemma date_between_january_first_and_today_witness :
  loaded demo_world /\ today_ok demo_world
  /\ exists r text d,
       generate_fake_review demo_world = (Ok r, after_generate demo_world)
       /\ dict_get "date" r = Some (PyStr text)
       /\ parse_iso_date text = Some d
       /\ Datetime.le (mkdate (year (clock demo_world (clock_reads demo_world))) 1 1) d
          = true
       /\ Datetime.le d (clock demo_world (clock_reads demo_world)) = true
       /\ Datetime.toordinal d
          = picked_ordinal (mkdate (year (clock demo_world (clock_reads demo_world))) 1 1)
                           (clock demo_world (clock_reads demo_world))
                           (faker_draw demo_world 1)
       /\ Datetime.toordinal
            (mkdate (year (clock demo_world (clock_reads demo_world))) 1 1)
          <= Datetime.toordinal d
          <= Datetime.toordinal (clock demo_world (clock_reads demo_world))
       /\ (forall o,
             Datetime.toordinal
               (mkdate (year (clock demo_world (clock_reads demo_world))) 1 1) <= o
             <= Datetime.toordinal (clock demo_world (clock_reads demo_world)) ->
             exists c,
               picked_ordinal
                 (mkdate (year (clock demo_world (clock_reads demo_world))) 1 1)
                 (clock demo_world (clock_reads demo_world)) c = o).
Proof.
  split; [exact demo_world_loaded|]. split; [exact demo_world_today_ok|].
  exact (date_between_january_first_and_today demo_world
           demo_world_loaded demo_world_today_ok).
Defined.

(** ** Further properties of the script *)

(** X1: the pools are module globals, and a call reads them as they are at
    that moment.  With any three non-empty pools, and a clock showing a
    date the call handles, [generate_fake_review] returns a record whose
    [airline], [title] and [body] are members of the pools as they are
    then, and it leaves the pools as they are. *)
Theorem call_succeeds_with_any_nonempty_pools (w : World) :
  pools_nonempty w -> today_ok w ->
  exists r w' a t b,
    generate_fake_review w = (Ok r, w')
    /\ dict_get "airline" r = Some (PyStr a)
    /\ dict_get "title" r = Some (PyStr t)
    /\ dict_get "body" r = Some (PyStr b)
    /\ In a (airlines w) /\ In t (sample_titles w) /\ In b (sample_bodies w)
    /\ airlines w' = airlines w
    /\ sample_titles w' = sample_titles w
    /\ sample_bodies w' = sample_bodies w.
Proof.
  intros Hp Hok.
  destruct (generate_fake_review_steps w Hp) as (a & t & b & Na & Nt & Nb & Hrun).
  cbv zeta in Hrun.
  match type of Hrun with
  | _ = match Faker.date_this_year true false ?w6 with _ => _ end =>
      destruct (date_this_year_spec w6 Hok) as (D & RD & _); rewrite RD in Hrun
  end.
  eexists. eexists. exists a, t, b. split; [exact Hrun|].
  do 3 (split; [reflexivity|]).
  split; [eapply nth_error_In; exact Na|].
  split; [eapply nth_error_In; exact Nt|].
  split; [eapply nth_error_In; exact Nb|].
  repeat split.
Qed.

Lemma call_succeeds_with_any_nonempty_pools_witness :
  let w := with_pools ["Iberia"] ["Fine"; "Poor"] ["No comment."] demo_world in
  pools_nonempty w /\ today_ok w
  /\ exists r w' a t b,
       generate_fake_review w = (Ok r, w')
       /\ dict_get "airline" r = Some (PyStr a)
       /\ dict_get "title" r = Some (PyStr t)
       /\ dict_get "body" r = Some (PyStr b)
       /\ In a (airlines w) /\ In t (sample_titles w) /\ In b (sample_bodies w)
       /\ airlines w' = airlines w
       /\ sample_titles w' = sample_titles w
       /\ sample_bodies w' = sample_bodies w.
Proof.
  assert (Hp : pools_nonempty
                 (with_pools ["Iberia"] ["Fine"; "Poor"] ["No comment."] demo_world))
    by (repeat split; discriminate).
  split; [exact Hp|]. split; [reflexivity|].
  exact (call_succeeds_with_any_nonempty_pools _ Hp eq_refl).
Defined.

(** X2: when one of the three pools is empty, [generate_fake_review] raises
    [IndexError] ([random.choice] cannot choose from an empty sequence).
    The sixteen bytes of entropy of the identifier are consumed all the
    same, the pools stay as they are and nothing is written. *)
Theorem call_raises_IndexError_on_an_empty_pool (w : World) :
  airlines w = [] \/ sample_titles w = [] \/ sample_bodies w = [] ->
  exists w',
    generate_fake_review w = (Raise IndexError, w')
    /\ urandom_state w' = snd (Os.read_bytes 16 (urandom_state w))
    /\ airlines w' = airlines w
    /\ sample_titles w' = sample_titles w
    /\ sample_bodies w' = sample_bodies w
    /\ trace w' = trace w.
Proof.
  intros H. unfold generate_fake_review.
  rewrite (bind_ok _ _ _ _ _ (uuid4_spec w)).
  set (w1 := after_uuid4 w).
  assert (G1 : global airlines w1 = (Ok (airlines w), w1)) by reflexivity.
  rewrite (bind_ok _ _ _ _ _ G1).
  destruct (nonempty_cases (airlines w)) as [Ea|Ha].
  { rewrite Ea. unfold bind at 1. rewrite random_choice_empty.
    exists w1. repeat split; exact Ea. }
  destruct (random_choice_ok (airlines w) w1 Ha) as (a & Ra & _).
  rewrite (bind_ok _ _ _ _ _ Ra).
  set (w2 := set_random_state (snd (tape_next (random_state w1))) w1) in *.
  assert (G2 : global sample_titles w2 = (Ok (sample_titles w), w2)) by reflexivity.
  rewrite (bind_ok _ _ _ _ _ G2).
  destruct (nonempty_cases (sample_titles w)) as [Et|Ht].
  { rewrite Et. unfold bind at 1. rewrite random_choice_empty.
    exists w2. repeat split; exact Et. }
  destruct (random_choice_ok (sample_titles w) w2 Ht) as (t & Rt & _).
  rewrite (bind_ok _ _ _ _ _ Rt).
  set (w3 := set_random_state (snd (tape_next (random_state w2))) w2) in *.
  assert (G3 : global sample_bodies w3 = (Ok (sample_bodies w), w3)) by reflexivity.
  rewrite (bind_ok _ _ _ _ _ G3).
  destruct (nonempty_cases (sample_bodies w)) as [Eb|Hb].
  { rewrite Eb. unfold bind at 1. rewrite random_choice_empty.
    exists w3. repeat split; exact Eb. }
  exfalso. destruct H as [H|[H|H]]; contradiction.
Qed.

Lemma call_raises_IndexError_on_an_empty_pool_witness :
  let w := with_pools ["Iberia"] [] ["No comment."] demo_world in
  (airlines w = [] \/ sample_titles w = [] \/ sample_bodies w = [])
  /\ exists w',
       generate_fake_review w = (Raise IndexError, w')
       /\ urandom_state w' = snd (Os.read_bytes 16 (urandom_state w))
       /\ airlines w' = airlines w
       /\ sample_titles w' = sample_titles w
       /\ sample_bodies w' = sample_bodies w
       /\ trace w' = trace w.
Proof.
  split; [right; left; reflexivity|].
  exact (call_raises_IndexError_on_an_empty_pool
           (with_pools ["Iberia"] [] ["No comment."] demo_world)
           (or_intror (or_introl eq_refl))).
Defined.

Lemma date_this_year_9999 w :
  let T := clock w (clock_reads w) in
  year T = 9999 -> 1 <= month T <= 12 ->
  1 <= day T <= Datetime._days_in_month (year T) (month T) ->
  Faker.date_this_year true false w
  = (Raise ValueError, set_clock_reads (S (clock_reads w)) w).
Proof.
  intros T Hy Hm Hd. unfold Faker.date_this_year.
  set (w1 := set_clock_reads (S (clock_reads w)) w).
  assert (Htoday : Datetime.today w = (Ok T, w1)).
  { unfold Datetime.today. fold T. rewrite new_ok by lia. destruct T; reflexivity. }
  rewrite (bind_ok _ _ _ _ _ Htoday).
  assert (Hrep : Datetime.replace_month_day T 1 1 w1 = (Ok (mkdate (year T) 1 1), w1)).
  { unfold Datetime.replace_month_day. apply new_ok; rewrite ?days_in_month_jan; lia. }
  rewrite (bind_ok _ _ _ _ _ Hrep).
  unfold bind. rewrite Hy. reflexivity.
Qed.

(** X3: in the year 9999 [generate_fake_review] raises [ValueError]:
    [date_this_year] computes the first day of the following year, which
    [datetime.date] does not have.  The identifier, the three choices, the
    name and the rating have been drawn by then, and the clock has been
    read; nothing is written. *)
Theorem call_raises_ValueError_in_year_9999 (w : World) :
  pools_nonempty w ->
  year (clock w (clock_reads w)) = 9999 ->
  1 <= month (clock w (clock_reads w)) <= 12 ->
  1 <= day (clock w (clock_reads w))
    <= Datetime._days_in_month 9999 (month (clock w (clock_reads w))) ->
  generate_fake_review w = (Raise ValueError, after_failed_date w).
Proof.
  intros Hp Hy Hm Hd.
  destruct (generate_fake_review_steps w Hp) as (a & t & b & _ & _ & _ & Hrun).
  cbv zeta in Hrun. rewrite Hrun.
  rewrite date_this_year_9999; [reflexivity|exact Hy|exact Hm|].
  cbn [clock clock_reads]. rewrite Hy. exact Hd.
Qed.

Lemma call_raises_ValueError_in_year_9999_witness :
  let w := with_clock (fun _ => mkdate 9999 6 15) demo_world in
  pools_nonempty w
  /\ year (clock w (clock_reads w)) = 9999
  /\ 1 <= month (clock w (clock_reads w)) <= 12
  /\ 1 <= day (clock w (clock_reads w))
       <= Datetime._days_in_month 9999 (month (clock w (clock_reads w)))
  /\ generate_fake_review w = (Raise ValueError, after_failed_date w).
Proof.
  assert (Hp : pools_nonempty (with_clock (fun _ => mkdate 9999 6 15) demo_world))
    by (repeat split; discriminate).
  assert (Hm : 1 <= 6 <= 12) by lia.
  assert (Hd : 1 <= 15 <= Datetime._days_in_month 9999 6) by (vm_compute; split; discriminate).
  split; [exact Hp|]. split; [reflexivity|]. split; [exact Hm|]. split; [exact Hd|].
  exact (call_raises_ValueError_in_year_9999
           (with_clock (fun _ => mkdate 9999 6 15) demo_world) Hp eq_refl Hm Hd).
Defined.

(** X4: the loop catches nothing.  If the call of line 61 raises, the
    process ends there with that exception uncaught, whatever the number of
    further steps it is given; lines 62 to 64 of that turn do not run, so
    nothing is written and nothing is slept. *)
Theorem loop_stops_when_the_call_raises (r0 : pydict) (w w' : World) (e : exn) (n : nat) :
  generate_fake_review w = (Raise e, w') ->
  run 1 (mkconfig L60 r0 w) = Running (mkconfig L61 r0 w)
  /\ run (S (S n)) (mkconfig L60 r0 w) = Uncaught e w'
  /\ trace w' = trace w.
Proof.
  intros H. split; [reflexivity|]. split.
  - cbn [run step at_line world review py_True]. rewrite H. reflexivity.
  - pose proof (framed_generate_fake_review w) as F. rewrite H in F.
    destruct F as (_ & _ & _ & Ht & _). exact Ht.
Qed.

Lemma loop_stops_when_the_call_raises_witness :
  let w := with_pools [] [] [] demo_world in
  generate_fake_review w = (Raise IndexError, after_uuid4 w)
  /\ run 1 (mkconfig L60 [] w) = Running (mkconfig L61 [] w)
  /\ run 7 (mkconfig L60 [] w) = Uncaught IndexError (after_uuid4 w)
  /\ trace (after_uuid4 w) = trace w.
Proof.
  assert (H : generate_fake_review (with_pools [] [] [] demo_world)
              = (Raise IndexError, after_uuid4 (with_pools [] [] [] demo_world)))
    by (apply empty_pool_raises; reflexivity).
  split; [exact H|].
  exact (loop_stops_when_the_call_raises [] (with_pools [] [] [] demo_world) _
           IndexError 5 H).
Defined.

Lemma oblivious_ret {A} (a : A) : oblivious (ret a).
Proof. intros e w. reflexivity. Qed.

Lemma oblivious_raise {A} (x : exn) : oblivious (@raise A x).
Proof. intros e w. reflexivity. Qed.

Lemma oblivious_bind {A B} (m : Py A) (k : A -> Py B) :
  oblivious m -> (forall a, oblivious (k a)) -> oblivious (bind m k).
Proof.
  intros Hm Hk e w. unfold bind. rewrite Hm.
  destruct (m w) as [[a|x] w1]; cbn [fst snd]; [apply Hk|reflexivity].
Qed.

Lemma oblivious_with_random {A} (m : tape -> result A * tape) :
  oblivious (with_random m).
Proof.
  intros e w. unfold with_random. cbn [emit random_state].
  destruct (m (random_state w)) as [r t]. reflexivity.
Qed.

Lemma oblivious_with_generator {A} (m : tape -> result A * tape) :
  oblivious (Faker.with_generator m).
Proof.
  intros e w. unfold Faker.with_generator. cbn [emit faker_state].
  destruct (m (faker_state w)) as [r t]. reflexivity.
Qed.

Lemma uuid_draw_emit e w : uuid_draw (emit e w) = uuid_draw w.
Proof. unfold uuid_draw. reflexivity. Qed.

Lemma after_uuid4_emit e w : after_uuid4 (emit e w) = emit e (after_uuid4 w).
Proof. unfold after_uuid4. reflexivity. Qed.

Lemma oblivious_uuid4 : oblivious Uuid.uuid4.
Proof.
  intros e w. rewrite !uuid4_spec. cbn [fst snd].
  rewrite uuid_draw_emit, after_uuid4_emit. reflexivity.
Qed.

Lemma oblivious_new y m d : oblivious (Datetime.new y m d).
Proof.
  intros e w. unfold Datetime.new.
  destruct (Datetime._check_date_fields y m d) as [[[y' m'] d']|x]; reflexivity.
Qed.

Lemma oblivious_today : oblivious Datetime.today.
Proof.
  intros e w. unfold Datetime.today. cbn [emit clock clock_reads].
  apply (oblivious_new _ _ _ e (set_clock_reads (S (clock_reads w)) w)).
Qed.

Lemma oblivious_date_between_dates s t : oblivious (Faker.date_between_dates s t).
Proof.
  unfold Faker.date_between_dates. apply oblivious_bind.
  - apply oblivious_with_generator.
  - intros ts. destruct (_ && _); [|apply oblivious_raise].
    unfold Datetime.fromordinal. destruct (negb _); [apply oblivious_raise|].
    destruct (Datetime._ord2ymd _) as [[y m] d].
    apply oblivious_new.
Qed.

Lemma oblivious_date_this_year b a : oblivious (Faker.date_this_year b a).
Proof.
  unfold Faker.date_this_year.
  apply oblivious_bind; [apply oblivious_today|]. intros T.
  apply oblivious_bind; [apply oblivious_new|]. intros s.
  apply oblivious_bind; [apply oblivious_new|]. intros n.
  destruct (b && a); [apply oblivious_date_between_dates|].
  destruct (negb b && a); [apply oblivious_date_between_dates|].
  destruct (negb a && b); [apply oblivious_date_between_dates|apply oblivious_ret].
Qed.

Lemma oblivious_generate_fake_review : oblivious generate_fake_review.
Proof.
  unfold generate_fake_review.
  apply oblivious_bind; [apply oblivious_uuid4|]. intros u.
  apply oblivious_bind; [intros e w; reflexivity|]. intros p1.
  apply oblivious_bind; [apply oblivious_with_random|]. intros a.
  apply oblivious_bind; [intros e w; reflexivity|]. intros p2.
  apply oblivious_bind; [apply oblivious_with_random|]. intros t.
  apply oblivious_bind; [intros e w; reflexivity|]. intros p3.
  apply oblivious_bind; [apply oblivious_with_random|]. intros b.
  apply oblivious_bind; [intros e w; reflexivity|]. intros n.
  apply oblivious_bind; [apply oblivious_with_random|]. intros r.
  apply oblivious_bind; [apply oblivious_date_this_year|]. intros d.
  apply oblivious_ret.
Qed.

Lemma oblivious_calls n : oblivious (calls n).
Proof.
  induction n as [|n IH]; cbn [calls]; [apply oblivious_ret|].
  apply oblivious_bind; [apply oblivious_generate_fake_review|]. intros r.
  apply oblivious_bind; [exact IH|]. intros rs. apply oblivious_ret.
Qed.

Lemma oblivious_emit_all {A} (m : Py A) es :
  oblivious m -> forall w, m (emit_all es w) = (fst (m w), emit_all es (snd (m w))).
Proof.
  intros Hm. induction es as [|e es IH] using rev_ind; intros w.
  - cbn. destruct (m w); reflexivity.
  - unfold emit_all in *. rewrite !fold_left_app. cbn [fold_left].
    rewrite Hm, IH. reflexivity.
Qed.

Lemma emit_all_app es1 es2 w :
  emit_all (es1 ++ es2) w = emit_all es2 (emit_all es1 w).
Proof. unfold emit_all. apply fold_left_app. Qed.

Lemma trace_emit_all es w : trace (emit_all es w) = (trace w ++ es)%list.
Proof.
  revert w. induction es as [|e es IH]; intros w.
  - cbn. now rewrite app_nil_r.
  - cbn [emit_all fold_left]. fold (emit_all es (emit e w)). rewrite IH.
    cbn [emit trace]. now rewrite <- app_assoc.
Qed.

Lemma loaded_pools_nonempty w : loaded w -> pools_nonempty w.
Proof.
  intros (Ha & Ht & Hb). unfold pools_nonempty. rewrite Ha, Ht, Hb.
  repeat split; discriminate.
Qed.

(** The loop and a caller who only collects the records, side by side. *)
Lemma run_turns_calls k : forall r0 w,
  loaded w -> clock_ok w ->
  exists rs w1,
    calls k w = (Ok rs, w1)
    /\ List.length rs = k
    /\ run (5 * k) (mkconfig L60 r0 w)
       = Running (mkconfig L60 (last rs r0) (emit_all (flat_map block rs) w1)).
Proof.
  induction k as [|k IH]; intros r0 w Hl Hc.
  - exists [], w. repeat split.
  - destruct (loop_turn r0 w Hl (clock_ok_today w Hc)) as (r1 & Hgen & _ & Hturn).
    set (wa := after_generate w) in *.
    destruct (IH r1 wa Hl Hc) as (rs & w1 & Hcalls & Hlen & Hrun).
    exists (r1 :: rs), w1. split; [|split].
    + cbn [calls]. rewrite (bind_ok _ _ _ _ _ Hgen). fold wa.
      rewrite (bind_ok _ _ _ _ _ Hcalls). reflexivity.
    + cbn. lia.
    + replace (5 * S k)%nat with (5 + 5 * k)%nat by lia.
      rewrite (run_add 5 (5 * k) _ _ Hturn).
      destruct (IH r1 (emit_all (block r1) wa) Hl Hc) as (rs' & w1' & Hcalls' & _ & Hrun').
      rewrite (oblivious_emit_all _ _ (oblivious_calls k)) in Hcalls'.
      rewrite Hcalls in Hcalls'. cbn [fst snd] in Hcalls'.
      injection Hcalls' as <- <-. rewrite Hrun'.
      cbn [flat_map]. rewrite emit_all_app.
      replace (last (r1 :: rs) r0) with (last rs r1); [reflexivity|].
      clear. destruct rs as [|x rs]; [reflexivity|].
      cbn [last]. revert x. induction rs as [|y rs IH]; intros x; [reflexivity|].
      cbn [last] in *. apply IH.
Qed.

(** X5: printing and sleeping have no influence on what is generated.  The
    records the loop prints in its first [k] turns are the ones [k] calls
    in a row return in the same initial state, and the world after the [k]
    turns is the one after the [k] calls with one block of output per
    record added, in order. *)
Theorem loop_prints_the_records_of_successive_calls (w0 : World) (k : nat) :
  clock_ok w0 ->
  exists rs w1 w',
    calls k (bind_globals w0) = (Ok rs, w1)
    /\ List.length rs = k
    /\ run (5 * k) (script w0) = Running (mkconfig L60 (last rs []) w')
    /\ w' = emit_all (flat_map block rs) w1
    /\ trace w' = (trace w0 ++ flat_map block rs)%list.
Proof.
  intros Hc.
  destruct (run_turns_calls k [] (bind_globals w0) (loaded_bind_globals w0) Hc)
    as (rs & w1 & Hcalls & Hlen & Hrun).
  exists rs, w1, (emit_all (flat_map block rs) w1).
  split; [exact Hcalls|]. split; [exact Hlen|]. split; [exact Hrun|].
  split; [reflexivity|]. rewrite trace_emit_all. f_equal.
  pose proof (framed_calls k (bind_globals w0)) as F. rewrite Hcalls in F.
  destruct F as (_ & _ & _ & Ht & _). exact Ht.
Qed.

Lemma loop_prints_the_records_of_successive_calls_witness :
  clock_ok demo_world
  /\ exists rs w1 w',
       calls 3 (bind_globals demo_world) = (Ok rs, w1)
       /\ List.length rs = 3%nat
       /\ run (5 * 3) (script demo_world) = Running (mkconfig L60 (last rs []) w')
       /\ w' = emit_all (flat_map block rs) w1
       /\ trace w' = (trace demo_world ++ flat_map block rs)%list.
Proof.
  split; [exact demo_world_clock_ok|].
  exact (loop_prints_the_records_of_successive_calls demo_world 3 demo_world_clock_ok).
Defined.

Lemma line_breaks_append a b :
  line_breaks (a ++ b) = (line_breaks a + line_breaks b)%nat.
Proof. induction a as [|c a IH]; cbn [line_breaks String.append]; [reflexivity|lia]. Qed.

Lemma line_breaks_one_line s : one_line s -> line_breaks s = 0%nat.
Proof.
  unfold one_line. induction s as [|c s IH]; cbn [Repr.contains line_breaks]; [reflexivity|].
  intros H. apply orb_false_iff in H as [Hc Hs]. rewrite Hc, IH by exact Hs. reflexivity.
Qed.

Lemma line_breaks_review_text r : line_breaks (review_text r) = 1%nat.
Proof.
  unfold review_text. rewrite !line_breaks_append.
  rewrite (line_breaks_one_line (Repr.dict_repr r)) by apply dict_repr_one_line.
  reflexivity.
Qed.

Lemma writes_app a b : writes (a ++ b) = (writes a ++ writes b)%list.
Proof.
  induction a as [|[s|s] a IH]; cbn [writes app]; [reflexivity| |exact IH].
  now rewrite IH.
Qed.

Lemma sleeps_app a b : sleeps (a ++ b) = (sleeps a ++ sleeps b)%list.
Proof.
  induction a as [|[s|s] a IH]; cbn [sleeps app]; [reflexivity|exact IH|].
  now rewrite IH.
Qed.

Lemma line_breaks_concat_cons a l :
  line_breaks (String.concat "" (a :: l))
  = (line_breaks a + line_breaks (String.concat "" l))%nat.
Proof.
  destruct l as [|b l]; simpl String.concat.
  - cbn [line_breaks]. lia.
  - rewrite line_breaks_append. reflexivity.
Qed.

(** What [k] blocks amount to. *)
Lemma blocks_count rs :
  List.length (writes (flat_map block rs)) = (2 * List.length rs)%nat
  /\ sleeps (flat_map block rs) = repeat 5 (List.length rs)
  /\ line_breaks (String.concat "" (writes (flat_map block rs)))
     = (3 * List.length rs)%nat.
Proof.
  induction rs as [|r rs (IH1 & IH2 & IH3)]; [repeat split|].
  cbn [flat_map List.length]. rewrite writes_app, sleeps_app.
  cbn [block writes sleeps app List.length repeat].
  split; [lia|]. split; [now rewrite IH2|].
  rewrite !line_breaks_concat_cons, IH3, line_breaks_review_text. cbn. lia.
Qed.

(** X6: after [k] turns the loop has added, to whatever was written before,
    exactly [2 * k] writes holding [3 * k] lines in all (per turn an empty
    line, the header and the record), and exactly [k] suspensions of 5
    seconds each, that is [5 * k] seconds of sleep. *)
Theorem each_turn_adds_two_writes_and_one_sleep (w0 : World) (k : nat) :
  clock_ok w0 ->
  exists r w' es,
    run (5 * k) (script w0) = Running (mkconfig L60 r w')
    /\ trace w' = (trace w0 ++ es)%list
    /\ List.length (writes es) = (2 * k)%nat
    /\ line_breaks (String.concat "" (writes es)) = (3 * k)%nat
    /\ sleeps es = repeat 5 k
    /\ fold_right Z.add 0 (sleeps es) = 5 * Z.of_nat k.
Proof.
  intros Hc.
  destruct (run_turns k [] (bind_globals w0) (loaded_bind_globals w0) Hc)
    as (rs & r & w' & Hrun & Hlen & Htr & _).
  destruct (blocks_count rs) as (B1 & B2 & B3). rewrite Hlen in *.
  exists r, w', (flat_map block rs).
  split; [exact Hrun|]. split; [exact Htr|]. split; [exact B1|]. split; [exact B3|].
  split; [exact B2|]. rewrite B2. clear.
  induction k as [|k IH]; [reflexivity|].
  cbn [repeat fold_right]. rewrite IH. lia.
Qed.

Lemma each_turn_adds_two_writes_and_one_sleep_witness :
  clock_ok demo_world
  /\ exists r w' es,
       run (5 * 4) (script demo_world) = Running (mkconfig L60 r w')
       /\ trace w' = (trace demo_world ++ es)%list
       /\ List.length (writes es) = (2 * 4)%nat
       /\ line_breaks (String.concat "" (writes es)) = (3 * 4)%nat
       /\ sleeps es = repeat 5 4
       /\ fold_right Z.add 0 (sleeps es) = 5 * Z.of_nat 4.
Proof.
  split; [exact demo_world_clock_ok|].
  exact (each_turn_adds_two_writes_and_one_sleep demo_world 4 demo_world_clock_ok).
Defined.


Lemma iter_after_generate_urandom n w :
  let w' := Nat.iter n after_generate w in
  urandom_state w'
  = mktape (cells (urandom_state w)) (pos (urandom_state w) + 16 * n)
  /\ airlines w' = airlines w /\ sample_titles w' = sample_titles w
  /\ sample_bodies w' = sample_bodies w.
Proof.
  induction n as [|n IH]; cbn zeta.
  - change (Nat.iter 0 after_generate w) with w.
    split; [|repeat split]. destruct (urandom_state w) as [c p]. cbn [cells pos].
    f_equal. lia.
  - change (Nat.iter (S n) after_generate w)
      with (after_generate (Nat.iter n after_generate w)).
    cbn zeta in IH. destruct IH as (I1 & I2 & I3 & I4).
    set (v := Nat.iter n after_generate w) in *.
    unfold after_generate.
    cbn [urandom_state airlines sample_titles sample_bodies Os.read_bytes snd].
    split; [|split; [exact I2|split; [exact I3|exact I4]]].
    rewrite I1. cbn [cells pos]. f_equal. lia.
Qed.

Lemma iter_shift {A} (f : A -> A) n x : Nat.iter n f (f x) = Nat.iter (S n) f x.
Proof.
  induction n as [|n IH]; [reflexivity|].
  change (Nat.iter (S n) f (f x)) with (f (Nat.iter n f (f x))).
  rewrite IH. reflexivity.
Qed.

Lemma calls_iter n : forall w,
  pools_nonempty w -> clock_ok w ->
  exists rs,
    calls n w = (Ok rs, Nat.iter n after_generate w)
    /\ List.length rs = n
    /\ forall i r, nth_error rs i = Some r ->
         generate_fake_review (Nat.iter i after_generate w)
         = (Ok r, Nat.iter (S i) after_generate w).
Proof.
  induction n as [|n IH]; intros w Hp Hc.
  - exists []. split; [reflexivity|]. split; [reflexivity|].
    intros i r H. destruct i; discriminate.
  - destruct (call_returns w Hp (clock_ok_today w Hc)) as (r1 & Hgen).
    destruct (IH (after_generate w) Hp Hc) as (rs & Hcalls & Hlen & Hnth).
    exists (r1 :: rs). split; [|split].
    + cbn [calls]. rewrite (bind_ok _ _ _ _ _ Hgen), (bind_ok _ _ _ _ _ Hcalls).
      unfold ret. now rewrite iter_shift.
    + cbn. lia.
    + intros [|i] r H; cbn [nth_error] in H.
      * injection H as <-. exact Hgen.
      * specialize (Hnth i r H). rewrite !iter_shift in Hnth. exact Hnth.
Qed.

(** The identifier of a record the call returns is made of the sixteen
    bytes of entropy the call finds next. *)
Lemma call_review_id w r w' :
  pools_nonempty w ->
  generate_fake_review w = (Ok r, w') ->
  dict_get "review_id" r
  = Some (PyStr (Uuid.str (Uuid.mkUUID
                             (Uuid.set_variant_and_version (uuid_draw w) 4)))).
Proof.
  intros Hp Hrun.
  destruct (generate_fake_review_steps w Hp) as (a & t & b & _ & _ & _ & Hsteps).
  cbv zeta in Hsteps. rewrite Hsteps in Hrun.
  match type of Hrun with
  | match ?m with _ => _ end = _ => destruct m as [[d|e] v]
  end; [|discriminate Hrun].
  injection Hrun as <- _. reflexivity.
Qed.

(** X7: every call takes sixteen bytes from [os.urandom], no more and no
    fewer, for the identifier.  [n] calls in a row take [16 * n] bytes, and
    the identifier of the [i]-th record is the version-4 UUID made of the
    [i]-th block of sixteen bytes. *)
Theorem calls_take_sixteen_bytes_of_entropy_each (n : nat) (w : World) :
  pools_nonempty w -> clock_ok w ->
  exists rs w',
    calls n w = (Ok rs, w')
    /\ List.length rs = n
    /\ cells (urandom_state w') = cells (urandom_state w)
    /\ pos (urandom_state w') = (pos (urandom_state w) + 16 * n)%nat
    /\ forall i r, nth_error rs i = Some r ->
         dict_get "review_id" r
         = Some (PyStr (Uuid.str (Uuid.mkUUID
              (Uuid.set_variant_and_version
                 (Uuid.int_from_bytes
                    (map (fun j =>
                            cells (urandom_state w)
                                  (pos (urandom_state w) + 16 * i + j)%nat mod 256)
                         (seq 0 16))) 4)))).
Proof.
  intros Hp Hc. destruct (calls_iter n w Hp Hc) as (rs & Hcalls & Hlen & Hnth).
  destruct (iter_after_generate_urandom n w) as (U & _).
  exists rs, (Nat.iter n after_generate w).
  split; [exact Hcalls|]. split; [exact Hlen|]. cbv zeta in U. rewrite U.
  split; [reflexivity|]. split; [reflexivity|].
  intros i r Hi. specialize (Hnth i r Hi).
  destruct (iter_after_generate_urandom i w) as (Ui & Ia & It & Ib).
  cbv zeta in Ui, Ia, It, Ib.
  assert (Hpi : pools_nonempty (Nat.iter i after_generate w))
    by (unfold pools_nonempty; rewrite Ia, It, Ib; exact Hp).
  rewrite (call_review_id _ _ _ Hpi Hnth).
  unfold uuid_draw. rewrite Ui. reflexivity.
Qed.

Lemma calls_take_sixteen_bytes_of_entropy_each_witness :
  pools_nonempty demo_world /\ clock_ok demo_world
  /\ exists rs w',
       calls 3 demo_world = (Ok rs, w')
       /\ List.length rs = 3%nat
       /\ cells (urandom_state w') = cells (urandom_state demo_world)
       /\ pos (urandom_state w') = (pos (urandom_state demo_world) + 16 * 3)%nat
       /\ forall i r, nth_error rs i = Some r ->
            dict_get "review_id" r
            = Some (PyStr (Uuid.str (Uuid.mkUUID
                 (Uuid.set_variant_and_version
                    (Uuid.int_from_bytes
                       (map (fun j =>
                               cells (urandom_state demo_world)
                                     (pos (urandom_state demo_world) + 16 * i + j)%nat
                               mod 256)
                            (seq 0 16))) 4)))).
Proof.
  assert (Hp : pools_nonempty demo_world) by (repeat split; discriminate).
  split; [exact Hp|]. split; [exact demo_world_clock_ok|].
  exact (calls_take_sixteen_bytes_of_entropy_each 3 demo_world Hp demo_world_clock_ok).
Defined.

Lemma call_date w :
  pools_nonempty w -> today_ok w ->
  let T := clock w (clock_reads w) in
  exists r D,
    generate_fake_review w = (Ok r, after_generate w)
    /\ dict_get "date" r = Some (PyStr (Datetime.strftime "%Y-%m-%d" D))
    /\ year D = year T
    /\ 1 <= month D <= 12
    /\ 1 <= day D <= Datetime._days_in_month (year D) (month D)
    /\ Datetime.le D T = true.
Proof.
  intros Hp Hok T.
  destruct (generate_fake_review_steps w Hp) as (a & t & b & _ & _ & _ & Hrun).
  cbv zeta in Hrun.
  match type of Hrun with
  | _ = match Faker.date_this_year true false ?w6 with _ => _ end =>
      destruct (date_this_year_spec w6 Hok) as (D & RD & Hy & Hm & Hd & _ & _ & _ & Hle);
      rewrite RD in Hrun
  end.
  eexists. exists D. split; [exact Hrun|]. split; [reflexivity|].
  split; [exact Hy|]. split; [exact Hm|]. split; [exact Hd|exact Hle].
Qed.

(** X8: on 1 January the range from which the date is drawn has a single
    day.  Whatever the state of the generators, the [date] field is then
    the day of generation itself, [YYYY-01-01]. *)
Theorem on_january_first_the_date_is_today (w : World) :
  pools_nonempty w -> today_ok w ->
  month (clock w (clock_reads w)) = 1 -> day (clock w (clock_reads w)) = 1 ->
  exists r,
    generate_fake_review w = (Ok r, after_generate w)
    /\ dict_get "date" r
       = Some (PyStr (Datetime.strftime "%Y-%m-%d" (clock w (clock_reads w))))
    /\ Datetime.strftime "%Y-%m-%d" (clock w (clock_reads w))
       = iso_text (year (clock w (clock_reads w))) 1 1.
Proof.
  intros Hp Hok Hm1 Hd1.
  destruct (call_date w Hp Hok) as (r & D & Hrun & Hdate & Hy & Hm & Hd & Hle).
  cbv zeta in *.
  set (T := clock w (clock_reads w)) in *.
  assert (E : D = T).
  { unfold Datetime.le in Hle. rewrite Hy, Hm1, Hd1 in Hle.
    rewrite Z.ltb_irrefl, Z.eqb_refl in Hle. cbn [orb andb] in Hle.
    apply orb_true_iff in Hle. destruct Hle as [Hlt|Heq].
    - apply Z.ltb_lt in Hlt. lia.
    - apply andb_true_iff in Heq as [Hmm Hdd].
      apply Z.eqb_eq in Hmm. apply Z.leb_le in Hdd.
      destruct D as [y m d], T as [y' m' d']. cbn [year month day] in *.
      f_equal; lia. }
  subst D. exists r. split; [exact Hrun|]. split; [exact Hdate|].
  apply date_okb_iff in Hok. fold T in Hok.
  rewrite strftime_iso by lia. now rewrite Hm1, Hd1.
Qed.

Lemma on_january_first_the_date_is_today_witness :
  let w := with_clock (fun _ => mkdate 2026 1 1) demo_world in
  pools_nonempty w /\ today_ok w
  /\ month (clock w (clock_reads w)) = 1 /\ day (clock w (clock_reads w)) = 1
  /\ exists r,
       generate_fake_review w = (Ok r, after_generate w)
       /\ dict_get "date" r
          = Some (PyStr (Datetime.strftime "%Y-%m-%d" (clock w (clock_reads w))))
       /\ Datetime.strftime "%Y-%m-%d" (clock w (clock_reads w))
          = iso_text (year (clock w (clock_reads w))) 1 1.
Proof.
  assert (Hp : pools_nonempty (with_clock (fun _ => mkdate 2026 1 1) demo_world))
    by (repeat split; discriminate).
  split; [exact Hp|]. split; [reflexivity|]. split; [reflexivity|].
  split; [reflexivity|].
  exact (on_january_first_the_date_is_today
           (with_clock (fun _ => mkdate 2026 1 1) demo_world) Hp eq_refl eq_refl eq_refl).
Defined.


Lemma ascii_eqb_sym a b : Ascii.eqb a b = Ascii.eqb b a.
Proof.
  destruct (Ascii.eqb_spec a b) as [->|N].
  - now rewrite Ascii.eqb_refl.
  - symmetry. apply Ascii.eqb_neq. congruence.
Qed.

Lemma escape_char_harmless q c :
  Ascii.eqb q c = false -> harmless c = true ->
  Repr.escape_char q c = String c "".
Proof.
  intros Hq Hh. unfold Repr.escape_char. rewrite (ascii_eqb_sym c q), Hq.
  unfold harmless in Hh. apply andb_true_iff in Hh as [Hp Hb].
  apply negb_true_iff in Hb. rewrite Hb. cbn [orb]. rewrite Hp.
  destruct c as [[] [] [] [] [] [] [] []]; try reflexivity; discriminate Hp.
Qed.

Lemma escape_harmless q s :
  all_chars harmless s = true -> Repr.contains q s = false -> Repr.escape q s = s.
Proof.
  induction s as [|c s IH]; [reflexivity|].
  cbn [all_chars Repr.contains Repr.escape]. intros Ha Hc.
  apply andb_true_iff in Ha as [Hh Ha]. apply orb_false_iff in Hc as [Hq Hc].
  rewrite escape_char_harmless, IH by assumption. reflexivity.
Qed.

(** X10: how [repr] quotes a text without backslashes and without
    non-printable characters, such as a reviewer's name: unchanged between
    single quotes when it has no single quote, and unchanged between double
    quotes when it has a single quote but no double quote. *)
Theorem repr_picks_the_quote_that_needs_no_escape (s : string) :
  all_chars harmless s = true ->
  Repr.contains Repr.squote s && Repr.contains Repr.dquote s = false ->
  Repr.str_repr s
  = (if Repr.contains Repr.squote s
     then String Repr.dquote (s ++ String Repr.dquote "")
     else String Repr.squote (s ++ String Repr.squote "")).
Proof.
  intros Ha Hq. unfold Repr.str_repr, Repr.quote_for.
  destruct (Repr.contains Repr.squote s) eqn:Es; cbn [andb] in *.
  - rewrite Hq. cbn [negb]. rewrite escape_harmless by assumption. reflexivity.
  - rewrite escape_harmless by assumption. reflexivity.
Qed.

Lemma repr_picks_the_quote_that_needs_no_escape_witness :
  all_chars harmless "Siobhan O'Connor" = true
  /\ Repr.contains Repr.squote "Siobhan O'Connor"
     && Repr.contains Repr.dquote "Siobhan O'Connor" = false
  /\ Repr.str_repr "Siobhan O'Connor"
     = (if Repr.contains Repr.squote "Siobhan O'Connor"
        then String Repr.dquote ("Siobhan O'Connor" ++ String Repr.dquote "")
        else String Repr.squote ("Siobhan O'Connor" ++ String Repr.squote "")).
Proof.
  split; [reflexivity|]. split; [reflexivity|].
  exact (repr_picks_the_quote_that_needs_no_escape "Siobhan O'Connor" eq_refl eq_refl).
Defined.

Lemma str_repr_plain s :
  plain s = true -> Repr.str_repr s = String "'" (s ++ "'").
Proof.
  unfold plain. intros H. apply andb_true_iff in H as [Ha Hs].
  apply negb_true_iff in Hs. unfold Repr.str_repr, Repr.quote_for.
  rewrite Hs. cbn [andb]. rewrite escape_harmless by assumption. reflexivity.
Qed.

Lemma hex_digit_harmless c :
  hex_digit c = true -> harmless c = true /\ Ascii.eqb Repr.squote c = false.
Proof.
  destruct c as [[] [] [] [] [] [] [] []]; intros H; try discriminate H; split; reflexivity.
Qed.

Lemma variant_digit_hex c : variant_digit c = true -> hex_digit c = true.
Proof.
  destruct c as [[] [] [] [] [] [] [] []]; intros H; try discriminate H; reflexivity.
Qed.

(** A text that matches a plain pattern is plain. *)
Lemma matches_plain pat : forall s,
  plain pat = true -> matches pat s = true -> plain s = true.
Proof.
  unfold plain. induction pat as [|p pat IH]; intros [|c s] Hp Hm; try discriminate Hm.
  - reflexivity.
  - cbn [all_chars Repr.contains matches] in *.
    apply andb_true_iff in Hp as [Hp Hq]. apply andb_true_iff in Hp as [Hp1 Hp2].
    apply negb_true_iff in Hq. apply orb_false_iff in Hq as [Hq1 Hq2].
    apply andb_true_iff in Hm as [Hc Hm].
    assert (IHs : all_chars harmless s && negb (Repr.contains Repr.squote s) = true)
      by (apply IH; [now rewrite Hp2, Hq2|exact Hm]).
    apply andb_true_iff in IHs as [I1 I2]. apply negb_true_iff in I2.
    assert (Hcc : harmless c = true /\ Ascii.eqb Repr.squote c = false).
    { destruct (Ascii.eqb p "x"); [apply hex_digit_harmless; exact Hc|].
      destruct (Ascii.eqb p "y");
        [apply hex_digit_harmless, variant_digit_hex; exact Hc|].
      apply Ascii.eqb_eq in Hc. subst c. split; assumption. }
    destruct Hcc as [H1 H2]. now rewrite H1, H2, I1, I2.
Qed.

Lemma decimal_digit y k : 0 <= y -> 0 < k -> 0 <= y / k mod 10 < 16.
Proof. intros Hy Hk. pose proof (Z.mod_pos_bound (y / k) 10). lia. Qed.

Lemma iso_text_matches y m d :
  1000 <= y <= 9999 -> 1 <= m <= 12 -> 1 <= d <= 31 ->
  matches "xxxx-xx-xx" (iso_text y m d) = true.
Proof.
  intros Hy Hm Hd. unfold iso_text. cbn [matches Ascii.eqb Bool.eqb].
  assert (Q1 : 0 <= y / 1000 < 16)
    by (split; [apply Z.div_pos; lia|apply Z.div_lt_upper_bound; lia]).
  assert (Q2 : 0 <= m / 10 < 16)
    by (split; [apply Z.div_pos; lia|apply Z.div_lt_upper_bound; lia]).
  assert (Q3 : 0 <= d / 10 < 16)
    by (split; [apply Z.div_pos; lia|apply Z.div_lt_upper_bound; lia]).
  pose proof (Z.mod_pos_bound (y / 100) 10 ltac:(lia)).
  pose proof (Z.mod_pos_bound (y / 10) 10 ltac:(lia)).
  pose proof (Z.mod_pos_bound y 10 ltac:(lia)).
  pose proof (Z.mod_pos_bound m 10 ltac:(lia)).
  pose proof (Z.mod_pos_bound d 10 ltac:(lia)).
  rewrite !hex_digit_char by lia. reflexivity.
Qed.

Lemma pools_plain :
  forallb (fun s => plain s) airlines_literal = true
  /\ forallb (fun s => plain s) sample_titles_literal = true
  /\ forallb (fun s => plain s) sample_bodies_literal = true.
Proof. repeat split; vm_compute; reflexivity. Qed.

Lemma rating_text x : 0 <= x < 5 -> int_str (1 + x) = String (digit_char (1 + x)) "".
Proof.
  intros H. assert (C : x = 0 \/ x = 1 \/ x = 2 \/ x = 3 \/ x = 4) by lia.
  repeat (destruct C as [C|C]); rewrite C; reflexivity.
Qed.

Lemma review_line id a n k d t b :
  " Review ID: "
  ++ ("{'review_id': " ++ String "'" (id ++ "'")
      ++ ", 'airline': " ++ String "'" (a ++ "'")
      ++ ", 'reviewer': " ++ n
      ++ ", 'rating': " ++ k
      ++ ", 'date': " ++ String "'" (d ++ "'")
      ++ ", 'title': " ++ String "'" (t ++ "'")
      ++ ", 'body': " ++ String "'" (b ++ "'") ++ "}")
  ++ String newline ""
  = " Review ID: {'review_id': '" ++ id
    ++ "', 'airline': '" ++ a
    ++ "', 'reviewer': " ++ n
    ++ ", 'rating': " ++ k
    ++ ", 'date': '" ++ d
    ++ "', 'title': '" ++ t
    ++ "', 'body': '" ++ b ++ "'}" ++ String newline "".
Proof.
  repeat (cbn [String.append]; rewrite append_assoc).
  cbn [String.append]. reflexivity.
Qed.

(** X9: the record line of the script, character by character.  The
    identifier, the airline, the date, the title and the body hold nothing
    that [repr] escapes, so they are printed verbatim between single
    quotes; the rating is printed as one digit without quotes; only the
    reviewer's name goes through [repr] in full, since Faker may return any
    name. *)
Theorem printed_line_shows_the_fields_verbatim (w : World) :
  loaded w -> today_ok w ->
  exists r review_id airline reviewer rating date_ title body,
    generate_fake_review w = (Ok r, after_generate w)
    /\ r = [ ("review_id", PyStr review_id); ("airline", PyStr airline);
             ("reviewer", PyStr reviewer); ("rating", PyInt rating);
             ("date", PyStr date_); ("title", PyStr title); ("body", PyStr body) ]
    /\ 1 <= rating <= 5
    /\ review_text r
       = " Review ID: {'review_id': '" ++ review_id
         ++ "', 'airline': '" ++ airline
         ++ "', 'reviewer': " ++ Repr.str_repr reviewer
         ++ ", 'rating': " ++ String (digit_char rating) ""
         ++ ", 'date': '" ++ date_
         ++ "', 'title': '" ++ title
         ++ "', 'body': '" ++ body ++ "'}" ++ String newline "".
Proof.
  intros Hl Hok. destruct (generate_fake_review_spec w Hl Hok) as (r & Hrun & Hgen).
  apply date_okb_iff in Hok as (Hy & _ & _).
  destruct Hgen as [a t b d today Ha Ht Hb Hyear Hmonth Hday _ _ _].
  pose proof (days_in_month_le_31 (year d) (month d) Hmonth) as Hd31.
  destruct pools_plain as (Pa & Pt & Pb).
  apply nth_error_In in Ha, Ht, Hb.
  pose proof (proj1 (forallb_forall _ _) Pa _ Ha) as Pa'.
  pose proof (proj1 (forallb_forall _ _) Pt _ Ht) as Pt'.
  pose proof (proj1 (forallb_forall _ _) Pb _ Hb) as Pb'.
  cbv beta in Pa', Pt', Pb'.
  pose proof (Z.mod_pos_bound (random_draw w 3) 5 ltac:(lia)) as Hr.
  assert (Pid : plain (Uuid.str (Uuid.mkUUID
                                   (Uuid.set_variant_and_version (uuid_draw w) 4))) = true).
  { apply (matches_plain UUID4_PATTERN); [reflexivity|].
    apply uuid4_str_matches, uuid_draw_range. }
  assert (Pd : plain (Datetime.strftime "%Y-%m-%d" d) = true).
  { subst today. rewrite strftime_iso by lia.
    apply (matches_plain "xxxx-xx-xx"); [reflexivity|].
    apply iso_text_matches; lia. }
  do 8 eexists. split; [exact Hrun|]. split; [reflexivity|].
  split; [lia|].
  unfold review_text. rewrite dict_repr_review.
  rewrite (str_repr_plain _ Pid), (str_repr_plain a Pa'), (str_repr_plain _ Pd),
    (str_repr_plain t Pt'), (str_repr_plain b Pb').
  rewrite rating_text by exact Hr.
  apply review_line.
Qed.

Lemma printed_line_shows_the_fields_verbatim_witness :
  loaded demo_world /\ today_ok demo_world
  /\ exists r review_id airline reviewer rating date_ title body,
       generate_fake_review demo_world = (Ok r, after_generate demo_world)
       /\ r = [ ("review_id", PyStr review_id); ("airline", PyStr airline);
                ("reviewer", PyStr reviewer); ("rating", PyInt rating);
                ("date", PyStr date_); ("title", PyStr title); ("body", PyStr body) ]
       /\ 1 <= rating <= 5
       /\ review_text r
          = " Review ID: {'review_id': '" ++ review_id
            ++ "', 'airline': '" ++ airline
            ++ "', 'reviewer': " ++ Repr.str_repr reviewer
            ++ ", 'rating': " ++ String (digit_char rating) ""
            ++ ", 'date': '" ++ date_
            ++ "', 'title': '" ++ title
            ++ "', 'body': '" ++ body ++ "'}" ++ String newline "".
Proof.
  split; [exact demo_world_loaded|]. split; [exact demo_world_today_ok|].
  exact (printed_line_shows_the_fields_verbatim demo_world
           demo_world_loaded demo_world_today_ok).
Defined.

(** Valid dates with the same day number are the same date. *)
Lemma ymd2ord_inj y m d y' m' d' :
  1 <= m <= 12 -> 1 <= d <= Datetime._days_in_month y m ->
  1 <= m' <= 12 -> 1 <= d' <= Datetime._days_in_month y' m' ->
  Datetime._ymd2ord y m d = Datetime._ymd2ord y' m' d' ->
  y' = y /\ m' = m /\ d' = d.
Proof.
  intros Hm Hd Hm' Hd' E.
  assert (Ey : y' = y).
  { apply (ymd2ord_year y m d y' m' d' Hm Hd Hm' Hd').
    pose proof (ymd2ord_bounds y m d Hm Hd). rewrite ymd2ord_jan1. lia. }
  subst y'. split; [reflexivity|].
  pose proof (ymd2ord_le_same_year y m d m' d' Hm Hd Hm' Hd' ltac:(lia)).
  pose proof (ymd2ord_le_same_year y m' d' m d Hm' Hd' Hm Hd ltac:(lia)).
  lia.
Qed.

Lemma ord2ymd_year o y m d :
  Datetime._ord2ymd o = (y, m, d) ->
  1 <= m <= 12 /\ 1 <= d <= Datetime._days_in_month y m
  /\ Datetime._ymd2ord y m d = o
  /\ (1 <= o -> 1 <= y) /\ (o <= Datetime._MAXORDINAL -> y <= 9999)
  /\ (o < 1 -> y < 1) /\ (Datetime._MAXORDINAL < o -> 9999 < y).
Proof.
  intros E. destruct (ord2ymd_correct o) as (y' & m' & d' & E' & Hv & Hord).
  rewrite E in E'. injection E' as <- <- <-.
  apply valid_ymd_iff in Hv as (Hm & Hd).
  pose proof (ymd2ord_bounds y m d Hm Hd) as B. rewrite Hord in B.
  split; [exact Hm|]. split; [exact Hd|]. split; [exact Hord|].
  unfold Datetime._MAXORDINAL.
  repeat split; intros H.
  - destruct (Z_lt_le_dec y 1) as [L|L]; [|exact L].
    pose proof (dby_mono (y + 1) 1 ltac:(lia)).
    change (Datetime._days_before_year 1) with 0 in *. lia.
  - destruct (Z_lt_le_dec 9999 y) as [L|L]; [|exact L].
    pose proof (dby_mono 10000 y ltac:(lia)).
    change (Datetime._days_before_year 10000) with 3652059 in *. lia.
  - destruct (Z_lt_le_dec y 1) as [L|L]; [exact L|].
    pose proof (dby_mono 1 y ltac:(lia)).
    change (Datetime._days_before_year 1) with 0 in *. lia.
  - destruct (Z_lt_le_dec 9999 y) as [L|L]; [exact L|].
    pose proof (dby_mono (y + 1) 10000 ltac:(lia)).
    change (Datetime._days_before_year 10000) with 3652059 in *. lia.
Qed.

(** X11: for every valid date of the years 1 to 9999, [toordinal] gives a
    day number between 1 and [_MAXORDINAL], and [date.fromordinal] of that
    number gives the date back. *)
Theorem fromordinal_inverts_toordinal (d : date) (w : World) :
  1 <= year d <= 9999 -> 1 <= month d <= 12 ->
  1 <= day d <= Datetime._days_in_month (year d) (month d) ->
  1 <= Datetime.toordinal d <= Datetime._MAXORDINAL
  /\ Datetime.fromordinal (Datetime.toordinal d) w = (Ok d, w).
Proof.
  intros Hy Hm Hd. split.
  - split; [apply ymd2ord_min|apply ymd2ord_max]; lia.
  - rewrite fromordinal_int.
    2:{ pose proof (ymd2ord_min (year d) (month d) (day d) ltac:(lia) Hm Hd).
        pose proof (ymd2ord_max (year d) (month d) (day d) ltac:(lia) Hm Hd).
        unfold Datetime.toordinal, Datetime.INT_MIN, Datetime.INT_MAX,
          Datetime._MAXORDINAL in *. lia. }
    unfold Datetime.toordinal.
    destruct (Datetime._ord2ymd (Datetime._ymd2ord (year d) (month d) (day d)))
      as [[y' m'] d'] eqn:E.
    apply ord2ymd_year in E as (Hm' & Hd' & Hord & _).
    destruct (ymd2ord_inj _ _ _ _ _ _ Hm' Hd' Hm Hd Hord) as (Ey & Em & Ed).
    rewrite <- Ey, <- Em, <- Ed in *.
    rewrite new_ok by lia. destruct d; reflexivity.
Qed.

Lemma fromordinal_inverts_toordinal_witness :
  1 <= year (mkdate 2024 2 29) <= 9999 /\ 1 <= month (mkdate 2024 2 29) <= 12
  /\ 1 <= day (mkdate 2024 2 29)
       <= Datetime._days_in_month (year (mkdate 2024 2 29)) (month (mkdate 2024 2 29))
  /\ 1 <= Datetime.toordinal (mkdate 2024 2 29) <= Datetime._MAXORDINAL
  /\ Datetime.fromordinal (Datetime.toordinal (mkdate 2024 2 29)) demo_world
     = (Ok (mkdate 2024 2 29), demo_world).
Proof.
  assert (Hy : 1 <= 2024 <= 9999) by lia.
  assert (Hm : 1 <= 2 <= 12) by lia.
  assert (Hd : 1 <= 29 <= Datetime._days_in_month 2024 2)
    by (vm_compute; split; discriminate).
  split; [exact Hy|]. split; [exact Hm|]. split; [exact Hd|].
  exact (fromordinal_inverts_toordinal (mkdate 2024 2 29) demo_world Hy Hm Hd).
Defined.

(** X12: for every day number between 1 and [_MAXORDINAL],
    [date.fromordinal] returns a valid date of the years 1 to 9999, and
    [toordinal] of that date is the number. *)
Theorem toordinal_inverts_fromordinal (o : Z) (w : World) :
  1 <= o <= Datetime._MAXORDINAL ->
  exists d,
    Datetime.fromordinal o w = (Ok d, w)
    /\ Datetime.toordinal d = o
    /\ 1 <= year d <= 9999 /\ 1 <= month d <= 12
    /\ 1 <= day d <= Datetime._days_in_month (year d) (month d).
Proof.
  intros Ho.
  rewrite fromordinal_int
    by (unfold Datetime.INT_MIN, Datetime.INT_MAX, Datetime._MAXORDINAL in *; lia).
  destruct (Datetime._ord2ymd o) as [[y m] d] eqn:E.
  apply ord2ymd_year in E as (Hm & Hd & Hord & Hlo & Hhi & _).
  exists (mkdate y m d). rewrite new_ok by lia.
  split; [reflexivity|]. split; [exact Hord|]. cbn [year month day]. lia.
Qed.

Lemma toordinal_inverts_fromordinal_witness :
  1 <= 739321 <= Datetime._MAXORDINAL
  /\ exists d,
       Datetime.fromordinal 739321 demo_world = (Ok d, demo_world)
       /\ Datetime.toordinal d = 739321
       /\ 1 <= year d <= 9999 /\ 1 <= month d <= 12
       /\ 1 <= day d <= Datetime._days_in_month (year d) (month d).
Proof.
  assert (Ho : 1 <= 739321 <= Datetime._MAXORDINAL) by (vm_compute; split; discriminate).
  split; [exact Ho|].
  exact (toordinal_inverts_fromordinal 739321 demo_world Ho).
Defined.

(** X13: outside the range from 1 to [_MAXORDINAL], [date.fromordinal]
    raises: [ValueError] when the number fits a C [int] (the year computed
    is then below 1 or above 9999), and [OverflowError] when it does not.
    The state is left as it is. *)
Theorem fromordinal_raises_out_of_range (o : Z) (w : World) :
  o < 1 \/ Datetime._MAXORDINAL < o ->
  Datetime.fromordinal o w
  = (Raise (if (Datetime.INT_MIN <=? o) && (o <=? Datetime.INT_MAX)
            then ValueError else OverflowError), w).
Proof.
  intros Ho. unfold Datetime.fromordinal.
  destruct ((Datetime.INT_MIN <=? o) && (o <=? Datetime.INT_MAX)); [|reflexivity].
  cbn [negb].
  destruct (Datetime._ord2ymd o) as [[y m] d] eqn:E.
  apply ord2ymd_year in E as (_ & _ & _ & _ & _ & Hlo & Hhi).
  unfold Datetime.new, Datetime._check_date_fields, Datetime.MINYEAR, Datetime.MAXYEAR.
  replace ((1 <=? y) && (y <=? 9999)) with false; [reflexivity|].
  symmetry. apply andb_false_iff.
  destruct Ho as [H|H]; [left; apply Z.leb_gt|right; apply Z.leb_gt]; auto.
Qed.

Lemma fromordinal_raises_out_of_range_witness :
  (0 < 1 \/ Datetime._MAXORDINAL < 0)
  /\ Datetime.fromordinal 0 demo_world
     = (Raise (if (Datetime.INT_MIN <=? 0) && (0 <=? Datetime.INT_MAX)
               then ValueError else OverflowError), demo_world).
Proof.
  split; [left; lia|].
  exact (fromordinal_raises_out_of_range 0 demo_world (or_introl eq_refl)).
Defined.

Lemma step_grows c :
  healthy c ->
  exists c' es,
    step c = Running c' /\ healthy c'
    /\ trace (world c') = (trace (world c) ++ es)%list.
Proof.
  intros [Hl Hc]. destruct c as [l r w]. cbn [world] in *.
  destruct l; cbn [step at_line world review].
  - exists (mkconfig L61 r w), []. cbn [world]. rewrite app_nil_r.
    split; [reflexivity|]. split; [split; assumption|reflexivity].
  - destruct (generate_fake_review_spec w Hl (clock_ok_today w Hc)) as (r' & Hrun & _).
    rewrite Hrun. exists (mkconfig L62 r' (after_generate w)), [].
    cbn [world]. rewrite app_nil_r.
    split; [reflexivity|]. split; [split; assumption|reflexivity].
  - eexists. eexists. split; [reflexivity|]. split; [split; assumption|reflexivity].
  - eexists. eexists. split; [reflexivity|]. split; [split; assumption|reflexivity].
  - eexists. eexists. split; [reflexivity|]. split; [split; assumption|reflexivity].
Qed.

Lemma run_grows n : forall c,
  healthy c ->
  exists c' es,
    run n c = Running c' /\ healthy c'
    /\ trace (world c') = (trace (world c) ++ es)%list.
Proof.
  induction n as [|n IH]; intros c Hc.
  - exists c, []. rewrite app_nil_r.
    split; [reflexivity|]. split; [exact Hc|reflexivity].
  - destruct (step_grows c Hc) as (c1 & es1 & Hstep & Hc1 & Ht1).
    destruct (IH c1 Hc1) as (c2 & es2 & Hrun & Hc2 & Ht2).
    exists c2, (es1 ++ es2)%list. cbn [run]. rewrite Hstep.
    split; [exact Hrun|]. split; [exact Hc2|].
    rewrite Ht2, Ht1. now rewrite app_assoc.
Qed.

(** X14: two invariants of the running script.  At every step the three
    pools are the lists bound at lines 8-38, and the output only grows:
    what has been written and slept at one step is a prefix of what has
    been at any later step. *)
Theorem run_keeps_the_pools_and_only_adds_output (w0 : World) (n m : nat) :
  clock_ok w0 ->
  exists c c' es,
    run n (script w0) = Running c
    /\ run (n + m) (script w0) = Running c'
    /\ airlines (world c) = airlines_literal
    /\ sample_titles (world c) = sample_titles_literal
    /\ sample_bodies (world c) = sample_bodies_literal
    /\ trace (world c') = (trace (world c) ++ es)%list.
Proof.
  intros Hc.
  assert (H0 : healthy (script w0)) by (split; [apply loaded_bind_globals|exact Hc]).
  destruct (run_grows n _ H0) as (c & es0 & Hrun & Hh & _).
  destruct (run_grows m c Hh) as (c' & es & Hrun' & _ & Ht).
  exists c, c', es. split; [exact Hrun|].
  split; [rewrite (run_add n m _ _ Hrun); exact Hrun'|].
  destruct Hh as [(Ha & Hti & Hb) _].
  split; [exact Ha|]. split; [exact Hti|]. split; [exact Hb|exact Ht].
Qed.

Lemma run_keeps_the_pools_and_only_adds_output_witness :
  clock_ok demo_world
  /\ exists c c' es,
       run 7 (script demo_world) = Running c
       /\ run (7 + 4) (script demo_world) = Running c'
       /\ airlines (world c) = airlines_literal
       /\ sample_titles (world c) = sample_titles_literal
       /\ sample_bodies (world c) = sample_bodies_literal
       /\ trace (world c') = (trace (world c) ++ es)%list.
Proof.
  split; [exact demo_world_clock_ok|].
  exact (run_keeps_the_pools_and_only_adds_output demo_world 7 4 demo_world_clock_ok).
Defined.


(** X16: for every valid date of the years 1000 to 9999,
    [strftime("%Y-%m-%d")] writes ten characters, four digits, two digits
    and two digits separated by hyphens, which read back as the date; two
    such dates with the same text are the same date. *)
Theorem iso_text_reads_back_as_the_date (d : date) :
  1000 <= year d <= 9999 -> 1 <= month d <= 12 ->
  1 <= day d <= Datetime._days_in_month (year d) (month d) ->
  parse_iso_date (Datetime.strftime "%Y-%m-%d" d) = Some d
  /\ String.length (Datetime.strftime "%Y-%m-%d" d) = 10%nat
  /\ matches "xxxx-xx-xx" (Datetime.strftime "%Y-%m-%d" d) = true
  /\ forall d',
       1000 <= year d' <= 9999 -> 1 <= month d' <= 12 ->
       1 <= day d' <= Datetime._days_in_month (year d') (month d') ->
       Datetime.strftime "%Y-%m-%d" d' = Datetime.strftime "%Y-%m-%d" d -> d' = d.
Proof.
  intros Hy Hm Hd.
  pose proof (days_in_month_le_31 (year d) (month d) Hm) as Hd31.
  assert (P : parse_iso_date (Datetime.strftime "%Y-%m-%d" d) = Some d).
  { rewrite strftime_iso, parse_iso_text by lia. destruct d; reflexivity. }
  split; [exact P|]. rewrite strftime_iso by lia.
  split; [apply iso_text_length|]. split; [apply iso_text_matches; lia|].
  intros d' Hy' Hm' Hd' E.
  pose proof (days_in_month_le_31 (year d') (month d') Hm') as Hd31'.
  assert (P' : parse_iso_date (Datetime.strftime "%Y-%m-%d" d') = Some d').
  { rewrite strftime_iso, parse_iso_text by lia. destruct d'; reflexivity. }
  rewrite E, parse_iso_text in P' by lia.
  injection P' as <-. destruct d; reflexivity.
Qed.

Lemma iso_text_reads_back_as_the_date_witness :
  let d := mkdate 2024 2 29 in
  1000 <= year d <= 9999 /\ 1 <= month d <= 12
  /\ 1 <= day d <= Datetime._days_in_month (year d) (month d)
  /\ parse_iso_date (Datetime.strftime "%Y-%m-%d" d) = Some d
  /\ String.length (Datetime.strftime "%Y-%m-%d" d) = 10%nat
  /\ matches "xxxx-xx-xx" (Datetime.strftime "%Y-%m-%d" d) = true
  /\ forall d',
       1000 <= year d' <= 9999 -> 1 <= month d' <= 12 ->
       1 <= day d' <= Datetime._days_in_month (year d') (month d') ->
       Datetime.strftime "%Y-%m-%d" d' = Datetime.strftime "%Y-%m-%d" d -> d' = d.
Proof.
  assert (Hy : 1000 <= 2024 <= 9999) by lia.
  assert (Hm : 1 <= 2 <= 12) by lia.
  assert (Hd : 1 <= 29 <= Datetime._days_in_month 2024 2)
    by (vm_compute; split; discriminate).
  split; [exact Hy|]. split; [exact Hm|]. split; [exact Hd|].
  exact (iso_text_reads_back_as_the_date (mkdate 2024 2 29) Hy Hm Hd).
Defined.
